(** * build_outputs.py: staging, template substitution and export pipeline

    A shallow embedding of [build_outputs.py] (the KiCad export script) and
    the properties of its output staging workflow.

    The script is a sequence of effects on the file system, the console
    and external processes.  It is embedded in a state-and-exception monad
    over a [World]: the files, the working directory, the clock, the PATH,
    the behaviour of external commands, and the trace of what was printed
    and run.  Each function of the script is a definition of the same name.

    Conventions of the model.
    - Text is [string], read as ASCII: the identifier syntax of
      [string.Template] and the character class of [_sanitize_vendor] are
      ASCII by definition; [str.lower] and [str.strip] are modelled on ASCII,
      and a text is its own UTF-8 encoding.
    - A [Path] is an anchor and components; the arguments of the command
      line that are paths are [Path]s already, and a name joined to a path
      is one component.
    - [subprocess.run] always returns a completed process (the program to
      run has been located before); its [cwd] argument, never given by the
      script, is left out. *)

From Stdlib Require Import ZArith Ascii String List Lia Bool.
From stdpp Require Import base gmap strings list pretty.

Local Open Scope string_scope.
Local Open Scope list_scope.

#[local] Arguments String.append !s1 s2 : simpl nomatch.

(** ** Characters and strings *)

Module Text.

Definition code (c : ascii) : nat := nat_of_ascii c.

Definition is_upper (c : ascii) : bool := (65 <=? code c)%nat && (code c <=? 90)%nat.
Definition is_lower (c : ascii) : bool := (97 <=? code c)%nat && (code c <=? 122)%nat.
Definition is_digit (c : ascii) : bool := (48 <=? code c)%nat && (code c <=? 57)%nat.
Definition is_alpha (c : ascii) : bool := is_upper c || is_lower c.

(** [str.isspace] on the ASCII range: TAB..CR, FS..US and the space. *)
Definition is_space (c : ascii) : bool :=
  ((9 <=? code c)%nat && (code c <=? 13)%nat)
  || ((28 <=? code c)%nat && (code c <=? 32)%nat).

Definition lower_char (c : ascii) : ascii :=
  if is_upper c then ascii_of_nat (code c + 32) else c.

(** [s.lower()] *)
Fixpoint lower (s : string) : string :=
  match s with
  | EmptyString => EmptyString
  | String c s' => String (lower_char c) (lower s')
  end.

Fixpoint lstrip (s : string) : string :=
  match s with
  | EmptyString => EmptyString
  | String c s' => if is_space c then lstrip s' else s
  end.

Fixpoint rstrip (s : string) : string :=
  match s with
  | EmptyString => EmptyString
  | String c s' =>
      match rstrip s' with
      | EmptyString => if is_space c then EmptyString else String c EmptyString
      | r => String c r
      end
  end.

(** [s.strip()] *)
Definition strip (s : string) : string := rstrip (lstrip s).

(** [sep.join(l)] *)
Fixpoint join (sep : string) (l : list string) : string :=
  match l with
  | [] => EmptyString
  | [x] => x
  | x :: l' => x +:+ sep +:+ join sep l'
  end.

(** Longest prefix of [s] whose characters satisfy [p], and the rest. *)
Fixpoint span (p : ascii -> bool) (s : string) : string * string :=
  match s with
  | EmptyString => (EmptyString, EmptyString)
  | String c s' =>
      if p c then let '(a, b) := span p s' in (String c a, b)
      else (EmptyString, s)
  end.

Fixpoint forallb (p : ascii -> bool) (s : string) : bool :=
  match s with
  | EmptyString => true
  | String c s' => p c && forallb p s'
  end.

End Text.

(** ** [string.Template] (standard library): [safe_substitute]

    The class attributes of [Template]: the delimiter is the dollar sign;
    an identifier is an ASCII letter or underscore followed by ASCII
    letters, digits and underscores (matched under [re.IGNORECASE]); the
    pattern is the delimiter followed by one of, in this order: a second
    delimiter (group [escaped]), an identifier (group [named]), an
    identifier in braces (group [braced]), or nothing (group [invalid]). *)

Module Template.
Import Text.

Definition dollar : ascii := "$"%char.

Definition is_id_start (c : ascii) : bool := Ascii.eqb c "_" || is_alpha c.
Definition is_id_char (c : ascii) : bool := is_id_start c || is_digit c.

(** The match object of one occurrence of the pattern: which group matched. *)
Inductive mo : Type :=
  | Escaped
  | Named (name : string)
  | Braced (name : string)
  | Invalid.

(** [mo.group()]: the whole matched text. *)
Definition group (m : mo) : string :=
  match m with
  | Escaped => "$$"
  | Named name => "$" +:+ name
  | Braced name => "${" +:+ name +:+ "}"
  | Invalid => "$"
  end.

(** The match at a delimiter: [rest] is the text after the [$]; the
    alternatives are tried in the order of the pattern.  Returns the match
    and the text after it. *)
Definition match_at (rest : string) : mo * string :=
  match rest with
  | String c rest' =>
      if Ascii.eqb c dollar then (Escaped, rest')
      else if is_id_start c then
        let '(name, after) := span is_id_char rest in (Named name, after)
      else if Ascii.eqb c "{" then
        match rest' with
        | String c' _ =>
            if is_id_start c' then
              let '(name, after) := span is_id_char rest' in
              match after with
              | String c2 after' =>
                  if Ascii.eqb c2 "}" then (Braced name, after') else (Invalid, rest)
              | EmptyString => (Invalid, rest)
              end
            else (Invalid, rest)
        | EmptyString => (Invalid, rest)
        end
      else (Invalid, rest)
  | EmptyString => (Invalid, rest)
  end.

(** The closure [convert] of [safe_substitute]. *)
Definition convert (mapping : gmap string string) (m : mo) : string :=
  match m with
  | Named name | Braced name =>
      match mapping !! name with
      | Some v => v              (* str(mapping[named]) *)
      | None => group m          (* except KeyError: return mo.group() *)
      end
  | Escaped => "$"
  | Invalid => group m
  end.

(** [pattern.sub(convert, template)]: the scan from left to right; the
    fuel bounds the number of scanning steps (one per character suffices). *)
Fixpoint sub_from (fuel : nat) (mapping : gmap string string) (s : string) : string :=
  match fuel with
  | O => s
  | S fuel' =>
      match s with
      | EmptyString => EmptyString
      | String c rest =>
          if Ascii.eqb c dollar then
            let '(m, after) := match_at rest in
            convert mapping m +:+ sub_from fuel' mapping after
          else String c (sub_from fuel' mapping rest)
      end
  end.

(** [Template(tpl).safe_substitute(mapping)] *)
Definition safe_substitute (mapping : gmap string string) (tpl : string) : string :=
  sub_from (String.length tpl) mapping tpl.

End Template.

(** ** [pathlib]: pure paths

    A path is its anchor (the empty string for a relative path, the root
    [/] or a drive root otherwise) and its components.  The separator is
    the POSIX one.  [p / name] joins one component. *)

Module Pathlib.
Import Text.

Record Path : Type := mkPath { anchor : string; names : list string }.

#[global] Instance Path_eq_dec : EqDecision Path.
Proof. solve_decision. Defined.

Definition is_absolute (p : Path) : bool := negb (String.eqb (anchor p) "").

(** [p.parts] *)
Definition parts (p : Path) : list string :=
  if is_absolute p then anchor p :: names p else names p.

(** [p / name] for a single component [name] *)
Definition child (p : Path) (name : string) : Path :=
  mkPath (anchor p) (names p ++ [name]).

(** [p / q] *)
Definition joinpath (p q : Path) : Path :=
  if is_absolute q then q else mkPath (anchor p) (names p ++ names q).

(** [p.name] *)
Definition name (p : Path) : string := List.last (names p) "".

(** [str(p)] *)
Definition path_str (p : Path) : string :=
  match anchor p, names p with
  | "", [] => "."
  | a, l => a +:+ join "/" l
  end.

(** [p.with_name(n)]; [None] is the ValueError for a path with an empty name. *)
Definition with_name (p : Path) (n : string) : option Path :=
  match names p with
  | [] => None
  | l => Some (mkPath (anchor p) (removelast l ++ [n]))
  end.

(** Splits a name at its last dot: the text before it, and the text from
    the dot on ([name.rfind('.')]). *)
Fixpoint rsplit_dot (s : string) : option (string * string) :=
  match s with
  | EmptyString => None
  | String c r =>
      match rsplit_dot r with
      | Some (a, b) => Some (String c a, b)
      | None => if Ascii.eqb c "." then Some (EmptyString, s) else None
      end
  end.

(** [p.suffix]: from the last dot on, when the dot is neither the first
    nor the last character of the name. *)
Definition suffix (p : Path) : string :=
  match rsplit_dot (name p) with
  | Some (a, b) =>
      if (0 <? String.length a)%nat && (1 <? String.length b)%nat then b else ""
  | None => ""
  end.

(** [p.stem] *)
Definition stem (p : Path) : string :=
  match rsplit_dot (name p) with
  | Some (a, b) =>
      if (0 <? String.length a)%nat && (1 <? String.length b)%nat then a else name p
  | None => name p
  end.

(** [p.with_suffix(sfx)] for a suffix argument that is empty or starts
    with a dot (the only uses of the script); [None] is the ValueError for
    an empty name. *)
Definition with_suffix (p : Path) (sfx : string) : option Path :=
  if String.eqb (name p) "" then None
  else with_name p (stem p +:+ sfx).

End Pathlib.

(** ** The runtime: file system, processes, clock, console

    The file system is a finite map from the parts of a resolved absolute
    path to the entry found there.  Scope of the model: path names contain
    no [..] component and pass through no symbolic link, so resolving a
    path is making it absolute against the working directory; a symbolic
    link is an entry of its own, neither file nor directory.  An entry in
    [locked] is one the operating system refuses to remove. *)

Module Py.
Import Text Pathlib.

Inductive node : Type :=
  | File (data : string)
  | Symlink (target : string)
  | Dir.

#[global] Instance node_eq_dec : EqDecision node.
Proof. solve_decision. Defined.

(** [subprocess.CompletedProcess] *)
Record proc : Type := mkProc { returncode : Z; stdout : string; stderr : string }.

Record datetime : Type :=
  mkDatetime { year : nat; month : nat; day : nat; hour : nat; minute : nat; second : nat }.

Inductive exn_class : Type :=
  | RuntimeError | FileNotFoundError | FileExistsError | NotADirectoryError
  | IsADirectoryError | PermissionError | OSError | ValueError.

(** An exception: its class and [str(e)]. *)
Record exn : Type := mkExn { exn_cls : exn_class; exn_msg : string }.

Inductive event : Type :=
  | Print (msg : string)            (* print(...) *)
  | PrintErr (msg : string)         (* print(..., file=sys.stderr) *)
  | Exec (cmd : list string).       (* subprocess.run(cmd, ...) *)

Record World : Type := mkWorld {
  files : gmap (list string) node;
  cwd : Path;
  locked : gset (list string);
  search_path : list Path;                     (* the directories of PATH *)
  now : datetime;                              (* datetime.now() *)
  exec : list string -> gmap (list string) node -> proc * gmap (list string) node;
                                               (* what an external command does *)
  decode : string -> string -> option string;  (* bytes.decode(enc); None: UnicodeDecodeError *)
  decode_replace : string -> string;           (* bytes.decode('utf-8', errors='replace') *)
  zip_bytes : list (list string * node) -> string;  (* the archive of the listed members *)
  trace : list event
}.

Definition set_files (fs : gmap (list string) node) (w : World) : World :=
  mkWorld fs (cwd w) (locked w) (search_path w) (now w) (exec w) (decode w)
          (decode_replace w) (zip_bytes w) (trace w).

Definition add_event (e : event) (w : World) : World :=
  mkWorld (files w) (cwd w) (locked w) (search_path w) (now w) (exec w) (decode w)
          (decode_replace w) (zip_bytes w) (trace w ++ [e]).

(** *** The monad of the script: state and exceptions *)

Inductive result (A : Type) : Type :=
  | Ok (a : A)
  | Raise (e : exn).
Arguments Ok {A} a.
Arguments Raise {A} e.

Definition M (A : Type) : Type := World -> result A * World.

Definition ret {A} (a : A) : M A := fun w => (Ok a, w).

Definition bind {A B} (c : M A) (k : A -> M B) : M B :=
  fun w => match c w with
           | (Ok a, w') => k a w'
           | (Raise e, w') => (Raise e, w')
           end.

Definition raise {A} (cls : exn_class) (msg : string) : M A :=
  fun w => (Raise (mkExn cls msg), w).

(** [try: c  except Exception as e: h e] *)
Definition try_except {A} (c : M A) (h : exn -> M A) : M A :=
  fun w => match c w with
           | (Ok a, w') => (Ok a, w')
           | (Raise e, w') => h e w'
           end.

Declare Scope py_scope.
Delimit Scope py_scope with py.
Notation "x <- c ;; k" := (bind c (fun x => k))
  (at level 100, c at next level, right associativity) : py_scope.
Notation "c ;; k" := (bind c (fun _ => k))
  (at level 100, right associativity) : py_scope.
Local Open Scope py_scope.

(** [for x in l: body x] *)
Fixpoint for_each {A} (l : list A) (body : A -> M unit) : M unit :=
  match l with
  | [] => ret tt
  | x :: l' => body x ;; for_each l' body
  end.

Definition print (msg : string) : M unit := fun w => (Ok tt, add_event (Print msg) w).
Definition print_err (msg : string) : M unit := fun w => (Ok tt, add_event (PrintErr msg) w).

Definition lift_option {A} (o : option A) (cls : exn_class) (msg : string) : M A :=
  match o with Some a => ret a | None => raise cls msg end.

(** *** File-system primitives ([pathlib], [os], [shutil]) *)

(** [p.resolve()] *)
Definition resolve (w : World) (p : Path) : Path := joinpath (cwd w) p.

(** The key of a path in the file-system map: [p.resolve().parts]. *)
Definition locate (w : World) (p : Path) : list string := parts (resolve w p).

Definition lstat (w : World) (p : Path) : option node := files w !! locate w p.

(** [p.exists()]; for a symbolic link the model answers for a link that
    resolves (a dangling link is outside the model). *)
Definition exists_ (p : Path) : M bool := fun w => (Ok (bool_decide (is_Some (lstat w p))), w).

Definition is_file (p : Path) : M bool :=
  fun w => (Ok (match lstat w p with Some (File _) => true | _ => false end), w).

Definition is_symlink (p : Path) : M bool :=
  fun w => (Ok (match lstat w p with Some (Symlink _) => true | _ => false end), w).

Definition is_dir (p : Path) : M bool :=
  fun w => (Ok (match lstat w p with Some Dir => true | _ => false end), w).

(** The parent of a key; a root is its own parent. *)
Definition parent_key (k : list string) : list string :=
  match k with
  | [] | [_] => k
  | _ => removelast k
  end.

(** [os.mkdir(k)] on the map. *)
Definition os_mkdir (k : list string) (fs : gmap (list string) node)
  : exn_class + gmap (list string) node :=
  match fs !! k with
  | Some _ => inl FileExistsError
  | None =>
      match fs !! parent_key k with
      | None => inl FileNotFoundError
      | Some Dir => inr (<[k := Dir]> fs)
      | Some _ => inl NotADirectoryError
      end
  end.

(** [Path.mkdir(parents=True, exist_ok=True)] on the map, by recursion on
    the reversed key (the tail of the reversed key is the parent):
    [os.mkdir]; on FileNotFoundError make the parent and retry; on another
    OSError succeed only if the path is a directory. *)
Fixpoint mkdir_rev (rk : list string) (fs : gmap (list string) node)
  : exn_class + gmap (list string) node :=
  let k := rev rk in
  match os_mkdir k fs with
  | inr fs' => inr fs'
  | inl FileNotFoundError =>
      match rk with
      | _ :: ((_ :: _) as rparent) =>
          match mkdir_rev rparent fs with
          | inr fs1 =>
              match os_mkdir k fs1 with
              | inr fs2 => inr fs2
              | inl e => if decide (fs1 !! k = Some Dir) then inr fs1 else inl e
              end
          | inl e => inl e
          end
      | _ => inl FileNotFoundError          (* self.parent == self *)
      end
  | inl e => if decide (fs !! k = Some Dir) then inr fs else inl e
  end.

(** [p.mkdir(parents=True, exist_ok=True)] *)
Definition mkdir (p : Path) : M unit :=
  fun w => match mkdir_rev (rev (locate w p)) (files w) with
           | inr fs' => (Ok tt, set_files fs' w)
           | inl cls => (Raise (mkExn cls (path_str p)), w)
           end.

(** The name of [k'] when it is a direct child of [k]. *)
Definition child_name (k k' : list string) : option string :=
  match last k' with
  | Some n => if decide (k' = k ++ [n]) then Some n else None
  | None => None
  end.

Definition children (fs : gmap (list string) node) (k : list string) : list string :=
  omap (fun kv => child_name k kv.1) (map_to_list fs).

(** [list(p.iterdir())]: the direct children, in the order of the listing. *)
Definition iterdir (p : Path) : M (list Path) :=
  fun w => match lstat w p with
           | Some Dir => (Ok (map (child p) (children (files w) (locate w p))), w)
           | Some _ => (Raise (mkExn NotADirectoryError (path_str p)), w)
           | None => (Raise (mkExn FileNotFoundError (path_str p)), w)
           end.

(** Some locked entry lies at or below [k]. *)
Definition pinned (w : World) (k : list string) : bool :=
  existsb (fun k' => bool_decide (k `prefix_of` k')) (elements (locked w)).

(** [p.unlink(missing_ok)] *)
Definition unlink (p : Path) (missing_ok : bool) : M unit :=
  fun w => match lstat w p with
           | None => if missing_ok then (Ok tt, w)
                     else (Raise (mkExn FileNotFoundError (path_str p)), w)
           | Some Dir => (Raise (mkExn IsADirectoryError (path_str p)), w)
           | Some _ =>
               if bool_decide (locate w p ∈ locked w)
               then (Raise (mkExn PermissionError (path_str p)), w)
               else (Ok tt, set_files (delete (locate w p) (files w)) w)
           end.

(** [shutil.rmtree(p)]: removes the directory and everything below it.
    When an entry below is locked the call raises; what it removed before
    the error is left open by [shutil], the model removes nothing then. *)
Definition rmtree (p : Path) : M unit :=
  fun w => match lstat w p with
           | None => (Raise (mkExn FileNotFoundError (path_str p)), w)
           | Some (Symlink _) =>
               (Raise (mkExn OSError "Cannot call rmtree on a symbolic link"), w)
           | Some (File _) => (Raise (mkExn NotADirectoryError (path_str p)), w)
           | Some Dir =>
               if pinned w (locate w p)
               then (Raise (mkExn PermissionError (path_str p)), w)
               else (Ok tt, set_files
                              (filter (fun kv => ¬ (locate w p `prefix_of` kv.1)) (files w)) w)
           end.

(** Opening [p] for writing and storing [data]. *)
Definition write_bytes (p : Path) (data : string) : M unit :=
  fun w => match lstat w p with
           | Some Dir => (Raise (mkExn IsADirectoryError (path_str p)), w)
           | _ =>
               match files w !! parent_key (locate w p) with
               | Some Dir => (Ok tt, set_files (<[locate w p := File data]> (files w)) w)
               | Some _ => (Raise (mkExn NotADirectoryError (path_str p)), w)
               | None => (Raise (mkExn FileNotFoundError (path_str p)), w)
               end
           end.

(** [p.read_bytes()] *)
Definition read_bytes (p : Path) : M string :=
  fun w => match lstat w p with
           | Some (File data) => (Ok data, w)
           | Some Dir => (Raise (mkExn IsADirectoryError (path_str p)), w)
           | _ => (Raise (mkExn FileNotFoundError (path_str p)), w)
           end.

(** [src.rglob("*")] with each member named relative to [src]. *)
Definition rglob (src : Path) : M (list (list string * node)) :=
  fun w =>
    let k := locate w src in
    (Ok (omap (fun kv => if decide (k `prefix_of` kv.1 /\ kv.1 <> k)
                         then Some (drop (length k) kv.1, kv.2) else None)
              (map_to_list (files w))), w).

(** [shutil.which(name)]: the first directory of PATH holding a file
    [name] (a file on PATH is taken to be executable).  What a symbolic
    link of that name resolves to is outside the model: the lookup is
    exact for a PATH whose directories hold no such link. *)
Definition which (name : string) : M (option Path) :=
  fun w => (Ok (List.find (fun cand => match lstat w cand with Some (File _) => true | _ => false end)
                          (map (fun d => child d name) (search_path w))), w).

(** [subprocess.run(cmd, capture_output=True, text=True)] *)
Definition subprocess_run (cmd : list string) : M proc :=
  fun w => let '(res, fs') := exec w cmd (files w) in
           (Ok res, add_event (Exec cmd) (set_files fs' w)).

(** [p.resolve()] as a step of the script. *)
Definition resolve_ (p : Path) : M Path := fun w => (Ok (resolve w p), w).

(** [data.decode(enc)]; [None] stands for UnicodeDecodeError. *)
Definition bytes_decode (enc data : string) : M (option string) :=
  fun w => (Ok (decode w enc data), w).

Definition bytes_decode_replace (data : string) : M string :=
  fun w => (Ok (decode_replace w data), w).

(** The archive that [zipfile] writes for the listed members. *)
Definition zip_archive (members : list (list string * node)) : M string :=
  fun w => (Ok (zip_bytes w members), w).

(** [datetime.now()] *)
Definition datetime_now : M datetime := fun w => (Ok (now w), w).

Definition digit (d : nat) : ascii := ascii_of_nat (48 + d).

(** [%m], [%d], [%H], [%M]: two digits; [%Y]: four digits. *)
Definition two_digits (n : nat) : string :=
  String (digit (n / 10 mod 10)) (String (digit (n mod 10)) "").
Definition four_digits (n : nat) : string :=
  two_digits (n / 100) +:+ two_digits (n mod 100).

(** [dt.strftime("%Y%m%d_%H%M")] *)
Definition strftime_Ymd_HM (dt : datetime) : string :=
  four_digits (year dt) +:+ two_digits (month dt) +:+ two_digits (day dt)
  +:+ "_" +:+ two_digits (hour dt) +:+ two_digits (minute dt).

End Py.

(** ** The script *)

Module BuildOutputs.
Import Text Pathlib Py.
Local Open Scope py_scope.

(** The removal of one entry, as both clean-up loops of the script write it:
    [entry.unlink(...)] if [entry.is_file() or entry.is_symlink()], else
    [shutil.rmtree(entry)].  [clear_dir] unlinks with [missing_ok=True];
    [run_kikit_fab] calls [e.unlink(e)], where the path itself is the
    argument [missing_ok], a true value. *)
Definition remove_entry (entry : Path) (missing_ok : bool) : M unit :=
  f <- is_file entry ;;
  l <- (if f then ret true else is_symlink entry) ;;
  if l then unlink entry missing_ok else rmtree entry.

Definition clear_dir (path : Path) : M unit :=
  mkdir path ;;
  (* Guardrails: require at least 2 levels deep *)
  resolved <- resolve_ path ;;
  let parts := Pathlib.parts resolved in
  if (length parts <? 3)%nat then
    raise RuntimeError ("Refusing to clear very shallow path: " +:+ path_str path)
  else
    entries <- iterdir path ;;
    for_each entries (fun entry =>
      try_except
        (remove_entry entry true)
        (fun e => print ("Warning: couldn't remove " +:+ path_str entry
                         +:+ ": " +:+ exn_msg e))).

Definition DEFAULT_README_TEMPLATE : string :=
"# ${PROJECT_NAME}

![HEADER](./PICTURES/${HEADER_IMAGE}) <!-- 3D rendered pretty view -->

INFO INFO

[PCB layout](./DOCUMENTATION/${PCBLAYOUT_PDF}) <!-- PDFs of boards -->
[SCHEMATIC](./DOCUMENTATION/${SCHEMATIC_PDF}) <!-- Schematic PDFs -->

## FRONT
![Front](./PICTURES/${PICTURE_FRONT})

## BACK
![Back](./PICTURES/${PICTURE_BACK})

## SIDE
![Side](./PICTURES/${PICTURE_SIDE})

# Before major commmits
Remember to run generate_outputs.bat/sh
to update the outputs and pictures.
".

(** The loop of [read_text_flexible] over the encodings. *)
Fixpoint decode_first (fname data : string) (encs : list string) : M string :=
  match encs with
  | [] =>
      (* Last resort: replace undecodable chars *)
      print ("Loaded " +:+ fname +:+ " using utf-8 with replacement chars") ;;
      bytes_decode_replace data
  | enc :: encs' =>
      s <- bytes_decode enc data ;;
      match s with
      | Some s => print ("Loaded " +:+ fname +:+ " using " +:+ enc) ;; ret s
      | None => decode_first fname data encs'       (* except UnicodeDecodeError: continue *)
      end
  end.

Definition read_text_flexible (path : Path) : M string :=
  data <- read_bytes path ;;
  decode_first (name path) data
    ["utf-8"; "utf-8-sig"; "utf-16"; "utf-16-le"; "utf-16-be"; "cp1252"].

(** The dictionary [subs] of [render_readme_if_missing]. *)
Definition readme_subs (project_name header_image : string) : gmap string string :=
  <["PROJECT_NAME" := project_name]>
  (<["HEADER_IMAGE" := header_image]>
  (<["PCBLAYOUT_PDF" := project_name +:+ "_board_prints.pdf"]>
  (<["SCHEMATIC_PDF" := project_name +:+ "_schematic.pdf"]>
  (<["PICTURE_FRONT" := project_name +:+ "_top.png"]>
  (<["PICTURE_BACK" := project_name +:+ "_bottom.png"]>
  (<["PICTURE_SIDE" := project_name +:+ "_side.png"]>
  (<["EXTRA_IMAGE" := header_image]> ∅))))))).

Definition render_readme_if_missing (root : Path) (project_name : string) : M Path :=
  let out_path := child root "README.md" in
  present <- exists_ out_path ;;
  if present then
    print "README.md already exists — leaving it untouched." ;;
    ret out_path
  else
    print "Generating README.md" ;;
    let tpl_path := child root "README.template.md" in
    has_tpl <- exists_ tpl_path ;;
    tpl_text <- (if has_tpl then read_text_flexible tpl_path
                 else ret DEFAULT_README_TEMPLATE) ;;
    let pics_dir := child root "PICTURES" in
    let iso_name := project_name +:+ "_iso.png" in
    let top_name := project_name +:+ "_top.png" in
    has_iso <- exists_ (child pics_dir iso_name) ;;
    let header_image := if has_iso then iso_name else top_name in
    let subs := readme_subs project_name header_image in
    let rendered := Template.safe_substitute subs tpl_text in
    write_bytes out_path rendered ;;
    print ("Wrote " +:+ path_str out_path) ;;
    ret out_path.

(* ---------- Helpers ---------- *)

(** [Path(r"C:\Program Files\KiCad\9.0\bin\kicad-cli.exe")]: with the POSIX
    separator of the model the text is one relative component. *)
Definition win_default : Path :=
  mkPath "" ["C:\Program Files\KiCad\9.0\bin\kicad-cli.exe"].

Definition which_kicad_cli : M Path :=
  exe <- which "kicad-cli" ;;
  match exe with
  | Some exe => ret exe
  | None =>
      (* Windows default install path for KiCad 9 *)
      ex <- exists_ win_default ;;
      if ex then ret win_default
      else raise FileNotFoundError
             "kicad-cli not found on PATH and not at default KiCad 9 location.
Add KiCad to PATH or set KICAD_CLI env var / adjust this script."
  end.

Definition find_kicad_python_from_kicad_cli (kicad_cli_path : Path) : M Path :=
  let kcli := kicad_cli_path in
  (* Windows: ...\KiCad\9.0\bin\python.exe *)
  cand <- lift_option (with_name kcli "python.exe") ValueError "empty name" ;;
  ex <- exists_ cand ;;
  if ex then ret cand
  else
    (* macOS/Linux: .../bin/python *)
    cand2 <- lift_option (with_name kcli "python") ValueError "empty name" ;;
    ex2 <- exists_ cand2 ;;
    if ex2 then ret cand2
    else
      (* Fallback to system python *)
      py <- which "python" ;;
      py <- (match py with Some _ => ret py | None => which "python3" end) ;;
      match py with
      | Some py => ret py
      | None => raise FileNotFoundError "Could not locate a Python interpreter to run KiKit."
      end.

Definition run (cmd : list string) (ok_codes : list Z) : M proc :=
  print (">> " +:+ join " " cmd) ;;
  res <- subprocess_run cmd ;;
  if negb (bool_decide (returncode res ∈ ok_codes)) then
    print (stdout res) ;;
    print_err (stderr res) ;;
    raise RuntimeError ("Command failed with code " +:+ pretty (returncode res))
  else ret res.

Definition ensure_dir (p : Path) : M Path :=
  mkdir p ;;
  ret p.

Definition timestamp_tag : M string :=
  dt <- datetime_now ;;
  ret (strftime_Ymd_HM dt).

Definition project_paths (project_file : Path) : M (string * Path * Path) :=
  stem <- (if String.eqb (lower (suffix project_file)) ".kicad_pro"
           then lift_option (with_suffix project_file "") ValueError "empty name"
           else ret project_file) ;;
  sch <- lift_option (with_suffix stem ".kicad_sch") ValueError "empty name" ;;
  pcb <- lift_option (with_suffix stem ".kicad_pcb") ValueError "empty name" ;;
  sch_ok <- exists_ sch ;;
  if negb sch_ok then raise FileNotFoundError ("Schematic not found: " +:+ path_str sch)
  else
    pcb_ok <- exists_ pcb ;;
    if negb pcb_ok then raise FileNotFoundError ("Board not found: " +:+ path_str pcb)
    else ret (name stem, sch, pcb).

Definition zip_dir (src_dir zip_path : Path) : M unit :=
  write_bytes zip_path "" ;;                      (* ZipFile(zip_path, "w") *)
  members <- rglob src_dir ;;
  archive <- zip_archive members ;;
  write_bytes zip_path archive.

(* ---------- Export steps ---------- *)

Definition export_3d (kicad : Path) (pcb_path out_dir : Path) (make_glb : bool) : M Path :=
  ensure_dir out_dir ;;
  let step_out := child out_dir (stem pcb_path +:+ ".step") in
  (* --subst-models reduces 3D issues; accept {0,2} and verify file *)
  run [path_str kicad; "pcb"; "export"; "step"; "--subst-models"; "-o";
       path_str step_out; path_str pcb_path] [0; 2]%Z ;;
  produced <- exists_ step_out ;;
  if negb produced then raise RuntimeError "STEP export did not produce a file."
  else
    (if make_glb then
       let glb_out := child out_dir (stem pcb_path +:+ ".glb") in
       run [path_str kicad; "pcb"; "export"; "glb"; "--subst-models"; "-o";
            path_str glb_out; path_str pcb_path] [0; 2]%Z ;;
       ret tt
     else ret tt) ;;
    ret step_out.

Definition export_pictures (kicad : Path) (pcb_path out_dir : Path) (iso : bool)
  : M (list Path) :=
  ensure_dir out_dir ;;
  let top := child out_dir (stem pcb_path +:+ "_top.png") in
  let bot := child out_dir (stem pcb_path +:+ "_bottom.png") in
  let side := child out_dir (stem pcb_path +:+ "_side.png") in
  run [path_str kicad; "pcb"; "render"; "-o"; path_str top; "--side"; "top";
       "--background"; "transparent"; path_str pcb_path] [0%Z] ;;
  run [path_str kicad; "pcb"; "render"; "-o"; path_str bot; "--side"; "bottom";
       "--background"; "transparent"; path_str pcb_path] [0%Z] ;;
  run [path_str kicad; "pcb"; "render"; "-o"; path_str side; "--side"; "left";
       "--background"; "transparent"; path_str pcb_path] [0%Z] ;;
  if iso then
    let iso_out := child out_dir (stem pcb_path +:+ "_iso.png") in
    run [path_str kicad; "pcb"; "render"; "-o"; path_str iso_out;
         "--background"; "transparent"; "--perspective";
         "--rotate"; "'-45,0,45'"; "--zoom"; "1"; path_str pcb_path] [0%Z] ;;
    ret [top; bot; side; iso_out]
  else ret [top; bot; side].

Definition export_docs (kicad : Path) (sch_path pcb_path out_dir : Path) (include_drc : bool)
  : M (Path * Path * Path * option Path) :=
  ensure_dir out_dir ;;
  (* Schematic PDF *)
  let sch_pdf := child out_dir (stem sch_path +:+ "_schematic.pdf") in
  run [path_str kicad; "sch"; "export"; "pdf"; "-o"; path_str sch_pdf; path_str sch_path] [0%Z] ;;
  (* ERC report *)
  let erc_rpt := child out_dir (stem sch_path +:+ "_erc.rpt") in
  run [path_str kicad; "sch"; "erc"; "-o"; path_str erc_rpt; path_str sch_path] [0%Z] ;;
  (* Board prints PDF *)
  let board_pdf := child out_dir (stem pcb_path +:+ "_board_prints.pdf") in
  let layers := join "," ["F.Cu"; "B.Cu"; "F.SilkS"; "B.SilkS"; "F.Mask"; "B.Mask";
                          "Edge.Cuts"; "F.Fab"; "B.Fab"; "User.Drawings"] in
  run [path_str kicad; "pcb"; "export"; "pdf"; "-o"; path_str board_pdf;
       "--layers"; layers; "--mode-multipage"; path_str pcb_path] [0%Z] ;;
  (* Optional DRC *)
  if include_drc then
    let drc_rpt := child out_dir (stem pcb_path +:+ "_drc.rpt") in
    run [path_str kicad; "pcb"; "drc"; "-o"; path_str drc_rpt; "--format"; "report";
         path_str pcb_path] [0%Z] ;;
    ret (sch_pdf, erc_rpt, board_pdf, Some drc_rpt)
  else ret (sch_pdf, erc_rpt, board_pdf, None).

Definition export_fab (kicad : Path) (sch_path pcb_path out_dir : Path) (zip_outputs : bool)
  : M (Path * Path * Path * Path * option Path) :=
  root <- ensure_dir out_dir ;;
  gerb_dir <- ensure_dir (child root "gerbers") ;;
  drill_dir <- ensure_dir (child root "drill") ;;
  run [path_str kicad; "pcb"; "export"; "gerbers"; "-o"; path_str gerb_dir;
       "--board-plot-params"; path_str pcb_path] [0%Z] ;;
  run [path_str kicad; "pcb"; "export"; "drill"; "-o"; path_str drill_dir;
       "--format"; "excellon"; "--generate-map"; path_str pcb_path] [0%Z] ;;
  let pos_csv := child root (stem pcb_path +:+ "_pos.csv") in
  run [path_str kicad; "pcb"; "export"; "pos"; "-o"; path_str pos_csv; "--format"; "csv";
       "--units"; "mm"; "--side"; "both"; path_str pcb_path] [0%Z] ;;
  let bom_csv := child root (stem sch_path +:+ "_bom.csv") in
  let fields := "Reference,Value,Footprint,${QUANTITY},Manufacturer,MPN,Datasheet,${DNP}" in
  let labels := "Refs,Value,Footprint,Qty,Manufacturer,MPN,Datasheet,DNP" in
  run [path_str kicad; "sch"; "export"; "bom"; "-o"; path_str bom_csv;
       "--fields"; fields; "--labels"; labels; "--group-by"; "Value,Footprint,MPN";
       path_str sch_path] [0%Z] ;;
  if zip_outputs then
    let zip_path := child root (stem pcb_path +:+ "_gerbers.zip") in
    (* If it exists from a prior run, remove first to avoid stale entries *)
    try_except
      (ex <- exists_ zip_path ;;
       if ex then unlink zip_path false else ret tt)
      (fun _ => ret tt) ;;
    zip_dir gerb_dir zip_path ;;
    ret (gerb_dir, drill_dir, pos_csv, bom_csv, Some zip_path)
  else ret (gerb_dir, drill_dir, pos_csv, bom_csv, None).

Definition _sanitize_vendor_char (c : ascii) : bool :=
  is_alpha c || is_digit c || Ascii.eqb c "_" || Ascii.eqb c "." || Ascii.eqb c "-".

(** [re.sub(r'[^A-Za-z0-9_.-]+', '-', s)]: every maximal run of characters
    outside the class becomes one dash; [in_run] tells that the previous
    character was outside the class. *)
Fixpoint sub_runs (in_run : bool) (s : string) : string :=
  match s with
  | EmptyString => EmptyString
  | String c s' =>
      if _sanitize_vendor_char c then String c (sub_runs false s')
      else if in_run then sub_runs true s'
      else String "-" (sub_runs true s')
  end.

Definition _sanitize_vendor (v : string) : string :=
  (* lower, replace spaces/odd chars with '-', keep alnum/._- *)
  sub_runs false (lower (strip v)).

(** The folder name [f"{vendor.lower()}_production"] is joined to
    [out_dir] as one component, which is what [pathlib] does for a text
    without separator. *)
Definition run_kikit_fab (vendor : string) (pcb_path sch_path out_dir : Path)
    (order_field : option string) (clean : bool) : M Path :=
  let order_field :=
    match order_field with
    | None => if String.eqb (lower vendor) "jlcpcb" then "LCSC" else "MPN"
    | Some f => f
    end in
  python <- which "python" ;;
  match python with
  | None => raise FileNotFoundError "Python interpreter not found on PATH."
  | Some python =>
      vendor_root <- ensure_dir (child out_dir (lower vendor +:+ "_production")) ;;
      (if clean then
         entries <- iterdir vendor_root ;;
         for_each entries (fun e => remove_entry e true)
       else ret tt) ;;
      let cmd := [path_str python; "-m"; "kikit.ui"; "fab"; vendor;
                  "--assembly"; "--schematic"; path_str sch_path] in
      let cmd := if String.eqb order_field "" then cmd
                 else cmd ++ ["--field"; order_field] in
      let cmd := cmd ++ [path_str pcb_path; path_str vendor_root] in
      run cmd [0%Z] ;;
      ret (child vendor_root "gerbers.zip")
  end.

(* ---------- Main ---------- *)

(** The parsed command line ([argparse]). *)
Record Args : Type := mkArgs {
  project : Path;
  root : Path;              (* default "." *)
  prod_dir : Path;          (* default "PRODUCTION" *)
  iso : bool;
  glb : bool;
  zip : bool;
  kikit : option string;
  skip_drc : bool;
  no_timestamp : bool
}.

(** Production output location (the [if args.no_timestamp] block of [main]). *)
Definition production_root (args : Args) (root : Path) (proj_stem : string) : M Path :=
  if no_timestamp args then
    (* Stable path per project; clear it on each run *)
    prod_root <- ensure_dir (child (joinpath root (prod_dir args)) proj_stem) ;;
    clear_dir prod_root ;;
    ret prod_root
  else
    (* Keep old behavior: timestamped per run *)
    tag <- timestamp_tag ;;
    ensure_dir (child (joinpath root (prod_dir args)) (tag +:+ "_" +:+ proj_stem)).

(** What the first part of [main] computes for the export steps. *)
Record Setup : Type := mkSetup {
  kicad : Path;
  proj_stem : string;
  sch_path : Path;
  pcb_path : Path;
  root_dir : Path;
  three_d_dir : Path;
  pics_dir : Path;
  docs_dir : Path;
  prod_root : Path
}.

(** [main], from the tool lookup to the banner: everything before the
    first export step. *)
Definition main_setup (args : Args) : M Setup :=
  kicad <- which_kicad_cli ;;
  pp <- project_paths (project args) ;;
  let '(proj_stem, sch_path, pcb_path) := pp in
  root <- resolve_ (root args) ;;
  three_d_dir <- ensure_dir (child root "3D_MODEL") ;;
  pics_dir <- ensure_dir (child root "PICTURES") ;;
  docs_dir <- ensure_dir (child root "DOCUMENTATION") ;;
  prod_root <- production_root args root proj_stem ;;
  print ("Project: " +:+ proj_stem) ;;
  print ("SCH:     " +:+ path_str sch_path) ;;
  print ("PCB:     " +:+ path_str pcb_path) ;;
  print ("Root:    " +:+ path_str root) ;;
  ret (mkSetup kicad proj_stem sch_path pcb_path root three_d_dir pics_dir docs_dir prod_root).

(** [main], from the first export step to the end. *)
Definition main_exports (args : Args) (s : Setup) : M unit :=
  let '(mkSetup kicad proj_stem sch_path pcb_path root three_d_dir pics_dir docs_dir prod_root)
    := s in
  (* 1) 3D model(s) *)
  export_3d kicad pcb_path three_d_dir (glb args) ;;
  (* 2) Renders *)
  export_pictures kicad pcb_path pics_dir (iso args) ;;
  (* 3) Documentation *)
  export_docs kicad sch_path pcb_path docs_dir (negb (skip_drc args)) ;;
  (* 4) Fabrication *)
  export_fab kicad sch_path pcb_path prod_root (zip args) ;;
  (* 5) Optional vendor-specific fab package via KiKit *)
  (match kikit args with
   | Some vendor =>
       if String.eqb vendor "" then ret tt
       else
         print ("Running KiKit fab for vendor: " +:+ vendor) ;;
         vendor_zip <- run_kikit_fab vendor pcb_path sch_path prod_root None true ;;
         print ("KiKit vendor ZIP: " +:+ path_str vendor_zip)
   | None => ret tt
   end) ;;
  render_readme_if_missing root proj_stem ;;
  print "
All done ✅" ;;
  print ("- 3D models:       " +:+ path_str three_d_dir) ;;
  print ("- Pictures:        " +:+ path_str pics_dir) ;;
  print ("- Documentation:   " +:+ path_str docs_dir) ;;
  print ("- Production run:  " +:+ path_str prod_root).

Definition main (args : Args) : M unit :=
  s <- main_setup args ;;
  main_exports args s.

(** The script run as a program: the exit status. *)
Definition script (args : Args) (w : World) : Z * World :=
  match main args w with
  | (Ok _, w') => (0%Z, w')
  | (Raise e, w') => (1%Z, add_event (PrintErr ("
ERROR: " +:+ exn_msg e)) w')
  end.

End BuildOutputs.

(** ** Vocabulary of the properties *)

Module Props.
Import Text Pathlib Py BuildOutputs.

(** The text ends with the delimiter of the template syntax. *)
Fixpoint ends_with_delim (s : string) : bool :=
  match s with
  | EmptyString => false
  | String c r =>
      match r with
      | EmptyString => Ascii.eqb c Template.dollar
      | _ => ends_with_delim r
      end
  end.

Definition is_identifier (n : string) : bool :=
  match n with
  | String c r => Template.is_id_start c && Text.forallb Template.is_id_char r
  | EmptyString => false
  end.

Definition starts_with_id_char (s : string) : bool :=
  match s with
  | String c _ => Template.is_id_char c
  | EmptyString => false
  end.

(** [ph] is a placeholder ([$name] or [${name}], [name] an identifier) that
    the text [post] can follow: after the unbraced form the identifier
    must end. *)
Definition placeholder_at (ph : Template.mo) (post : string) : bool :=
  match ph with
  | Template.Named n => is_identifier n && negb (starts_with_id_char post)
  | Template.Braced n => is_identifier n
  | _ => false
  end.

(** The operating system refuses to remove the entry at [k]: a locked
    file or link, or a directory with a locked entry at or below it. *)
Definition refused (w : World) (k : list string) : bool :=
  match files w !! k with
  | Some Dir => pinned w k
  | Some _ => bool_decide (k ∈ locked w)
  | None => false
  end.

(** [w'] differs from [w] in the files and the console only. *)
Definition same_env (w w' : World) : Prop :=
  cwd w' = cwd w /\ locked w' = locked w /\ search_path w' = search_path w
  /\ now w' = now w /\ exec w' = exec w /\ decode w' = decode w
  /\ decode_replace w' = decode_replace w /\ zip_bytes w' = zip_bytes w.

(** Every entry of [fs] is an entry of [fs'], unchanged. *)
Definition kept (fs fs' : gmap (list string) node) : Prop :=
  forall k x, fs !! k = Some x -> fs' !! k = Some x.

(** [n] invocations of a step, one after the other. *)
Fixpoint repeat_run {A} (n : nat) (c : M A) (w : World) : World :=
  match n with
  | O => w
  | S n' => repeat_run n' c (c w).2
  end.

Definition is_exec (e : event) : bool :=
  match e with Exec _ => true | _ => false end.

(** The external commands run so far. *)
Definition commands (w : World) : list event := List.filter is_exec (trace w).


(** The header image that [render_readme_if_missing] selects in [w]. *)
Definition header_image (w : World) (root : Path) (project_name : string) : string :=
  if bool_decide (is_Some (lstat w (child (child root "PICTURES") (project_name +:+ "_iso.png"))))
  then project_name +:+ "_iso.png" else project_name +:+ "_top.png".

(** A step that runs no external command and leaves the environment
    (working directory, locks, PATH, clock, tools, codecs) as it is. *)
Definition tame {A} (c : M A) : Prop :=
  forall w, same_env w (c w).2 /\ commands (c w).2 = commands w.

(** The world after a command has run and left the files [fs']. *)
Definition after_run (cmd : list string) (fs' : gmap (list string) node) (w : World) : World :=
  add_event (Exec cmd) (set_files fs' (add_event (Print (">> " +:+ join " " cmd)) w)).

(** The command line of the STEP export. *)
Definition step_cmd (kicad pcb_path out_dir : Path) : list string :=
  [path_str kicad; "pcb"; "export"; "step"; "--subst-models"; "-o";
   path_str (child out_dir (stem pcb_path +:+ ".step")); path_str pcb_path].

(** The command line of the GLB export. *)
Definition glb_cmd (kicad pcb_path out_dir : Path) : list string :=
  [path_str kicad; "pcb"; "export"; "glb"; "--subst-models"; "-o";
   path_str (child out_dir (stem pcb_path +:+ ".glb")); path_str pcb_path].




(** The name of the placeholder is not a key of the mapping. *)
Definition unresolved (mapping : gmap string string) (ph : Template.mo) : Prop :=
  match ph with
  | Template.Named n | Template.Braced n => mapping !! n = None
  | _ => True
  end.

End Props.

(** ** Sample worlds *)

Module Samples.
Import Text Pathlib Py BuildOutputs.

(** A tool that exits with [code] and writes nothing. *)
Definition exec_idle (code : Z)
  : list string -> gmap (list string) node -> proc * gmap (list string) node :=
  fun _ fs => (mkProc code "" "", fs).

Definition mk_world (fs : gmap (list string) node) (cwd : Path) (locked : gset (list string))
    (search : list Path)
    (exec : list string -> gmap (list string) node -> proc * gmap (list string) node)
  : World :=
  mkWorld fs cwd locked search (mkDatetime 2025 1 15 13 42 7) exec
          (fun _ data => Some data) (fun data => data) (fun _ => "PK") [].



(** A repository [/r] whose summary document has been edited by hand. *)
Definition w_readme : World :=
  mk_world (<[ ["/"; "r"; "README.md"] := File "my notes" ]>
           (<[ ["/"; "r"] := Dir ]> {[ ["/"] := Dir ]}))
           (mkPath "/" ["r"]) ∅ [] (exec_idle 0).

(** A repository [/r] without summary document, with the isometric
    render of project [b]. *)
Definition w_iso : World :=
  mk_world (<[ ["/"; "r"; "PICTURES"; "b_iso.png"] := File "png" ]>
           (<[ ["/"; "r"; "PICTURES"] := Dir ]>
           (<[ ["/"; "r"] := Dir ]> {[ ["/"] := Dir ]})))
           (mkPath "/" ["r"]) ∅ [] (exec_idle 0).


(** A repository [/r] with project [b] under [CAD], the tool on PATH. *)
Definition fs_repo : gmap (list string) node :=
  <[ ["/"; "r"; "CAD"; "b.kicad_pcb"] := File "pcb" ]>
  (<[ ["/"; "r"; "CAD"; "b.kicad_sch"] := File "sch" ]>
  (<[ ["/"; "r"; "CAD"] := Dir ]>
  (<[ ["/"; "r"] := Dir ]>
  (<[ ["/"; "usr"; "bin"; "python"] := File "elf" ]>
  (<[ ["/"; "usr"; "bin"; "kicad-cli"] := File "elf" ]>
  (<[ ["/"; "usr"; "bin"] := Dir ]>
  (<[ ["/"; "usr"] := Dir ]> {[ ["/"] := Dir ]}))))))).

(** A tool that always exits with code 2; only its STEP export writes
    the file it is asked for. *)
Definition exec_step_only
  : list string -> gmap (list string) node -> proc * gmap (list string) node :=
  fun cmd fs =>
    if bool_decide (cmd !! 3%nat = Some "step")
    then (mkProc 2 "" "", <[ ["/"; "r"; "3D_MODEL"; "b.step"] := File "STEP" ]> fs)
    else (mkProc 2 "" "", fs).

Definition args_b : Args :=
  mkArgs (mkPath "" ["CAD"; "b.kicad_pro"]) (mkPath "" []) (mkPath "" ["PRODUCTION"])
         false false false None false false.





(** The tool exits with the tolerated code 2 and writes nothing. *)
Definition w_no_step : World :=
  mk_world fs_repo (mkPath "/" ["r"]) ∅ [mkPath "/" ["usr"; "bin"]] (exec_idle 2).

Definition w_step_only : World :=
  mk_world fs_repo (mkPath "/" ["r"]) ∅ [mkPath "/" ["usr"; "bin"]] exec_step_only.

(** The repository with a tool that succeeds and writes nothing. *)
Definition w_repo : World :=
  mk_world fs_repo (mkPath "/" ["r"]) ∅ [mkPath "/" ["usr"; "bin"]] (exec_idle 0).

(** The repository with a vendor folder of an earlier run: the report in
    it is locked (open in another program), the archive is not. *)
Definition w_vendor : World :=
  mk_world (<[ ["/"; "r"; "PRODUCTION"; "jlcpcb_production"; "report.txt"] := File "old" ]>
           (<[ ["/"; "r"; "PRODUCTION"; "jlcpcb_production"; "gerbers.zip"] := File "PK" ]>
           (<[ ["/"; "r"; "PRODUCTION"; "jlcpcb_production"] := Dir ]>
           (<[ ["/"; "r"; "PRODUCTION"] := Dir ]> fs_repo))))
           (mkPath "/" ["r"])
           {[ ["/"; "r"; "PRODUCTION"; "jlcpcb_production"; "report.txt"] ]}
           [mkPath "/" ["usr"; "bin"]] (exec_idle 0).

(** KiCad installed under [/opt/kicad/bin] with its own interpreter next
    to the CLI; another interpreter comes first on PATH. *)
Definition fs_kicad : gmap (list string) node :=
  <[ ["/"; "opt"; "kicad"; "bin"; "python"] := File "elf" ]>
  (<[ ["/"; "opt"; "kicad"; "bin"; "kicad-cli"] := File "elf" ]>
  (<[ ["/"; "opt"; "kicad"; "bin"] := Dir ]>
  (<[ ["/"; "opt"; "kicad"] := Dir ]>
  (<[ ["/"; "opt"] := Dir ]>
  (<[ ["/"; "usr"; "bin"; "python"] := File "elf" ]>
  (<[ ["/"; "usr"; "bin"] := Dir ]>
  (<[ ["/"; "usr"] := Dir ]>
  (<[ ["/"; "r"] := Dir ]> {[ ["/"] := Dir ]})))))))).

Definition w_companion : World :=
  mk_world fs_kicad (mkPath "/" ["r"]) ∅
           [mkPath "/" ["usr"; "bin"]; mkPath "/" ["opt"; "kicad"; "bin"]] (exec_idle 0).

(** The only interpreter on PATH is called [python3]. *)
Definition w_python3 : World :=
  mk_world (<[ ["/"; "usr"; "bin"; "python3"] := File "elf" ]>
           (<[ ["/"; "usr"; "bin"; "kicad-cli"] := File "elf" ]>
           (<[ ["/"; "usr"; "bin"] := Dir ]>
           (<[ ["/"; "usr"] := Dir ]>
           (<[ ["/"; "r"] := Dir ]> {[ ["/"] := Dir ]})))))
           (mkPath "/" ["r"]) ∅ [mkPath "/" ["usr"; "bin"]] (exec_idle 0).

End Samples.

(** ** Command plans of the export steps *)

Module Plan.
Import Text Pathlib Py BuildOutputs Props.

(** [c] follows the plan: in every world the external commands that [c]
    executes are the first [k] command lines of [plan], in that order; when
    [c] returns normally it has executed the whole plan and its value
    satisfies [Q]; and [c] leaves the environment as it is. *)
Definition runs {A} (plan : list (list string)) (c : M A) (Q : A -> Prop) : Prop :=
  forall w,
    same_env w (c w).2
    /\ exists k, commands (c w).2 = commands w ++ map Exec (take k plan)
                 /\ forall a, (c w).1 = Ok a -> k = length plan /\ Q a.

(** The world after the commands [cmds] have been executed one after the
    other from [w], each leaving an exit code in [ok]; [None] when one of
    them leaves another code. *)
Fixpoint after_all (ok : list Z) (cmds : list (list string)) (w : World) : option World :=
  match cmds with
  | [] => Some w
  | cmd :: rest =>
      let '(res, fs') := exec w cmd (files w) in
      if bool_decide (returncode res ∈ ok) then after_all ok rest (after_run cmd fs' w)
      else None
  end.

(** The error of a command that has left the result [res]. *)
Definition command_failed (res : proc) : exn :=
  mkExn RuntimeError ("Command failed with code " +:+ pretty (returncode res)).

(** The world after the command [cmd], executed in [w], has left the files
    [fs'] and a result [res] that is not accepted: the command has been
    echoed and executed, and its output has been forwarded. *)
Definition failed (cmd : list string) (res : proc) (fs' : gmap (list string) node)
    (w : World) : World :=
  add_event (PrintErr (stderr res)) (add_event (Print (stdout res)) (after_run cmd fs' w)).

(** [c], started in [w], reaches its first command in [w1]; where every
    command of [plan] leaves an exit code in [ok], [c] returns [a] in the
    world the last command leaves. *)
Definition completes {A} (ok : list Z) (plan : list (list string)) (c : M A) (a : A)
    (w w1 : World) : Prop :=
  forall w', after_all ok plan w1 = Some w' -> c w = (Ok a, w').

(** [c], started in [w], reaches its first command in [w1] and stops at
    the first command that fails: where the commands [pre] of [plan] have
    left exit codes in [ok] and the next one, [cmd], leaves another, [c]
    raises the error of [cmd] right after it; the commands executed are
    [pre] and [cmd], none of those after [cmd]. *)
Definition stops_at_failure {A} (ok : list Z) (plan : list (list string)) (c : M A)
    (w w1 : World) : Prop :=
  forall pre cmd post wi res fs',
    plan = pre ++ cmd :: post ->
    after_all ok pre w1 = Some wi ->
    exec wi cmd (files wi) = (res, fs') ->
    returncode res ∉ ok ->
    c w = (Raise (command_failed res), failed cmd res fs' wi)
    /\ commands (c w).2 = commands w1 ++ map Exec (pre ++ [cmd]).

(** The command lines of [export_3d], in the order of the source. *)
Definition plan_3d (kicad pcb_path out_dir : Path) (make_glb : bool) : list (list string) :=
  step_cmd kicad pcb_path out_dir
  :: (if make_glb then [glb_cmd kicad pcb_path out_dir] else []).

(** One of the fixed-angle renders of [export_pictures]. *)
Definition render_cmd (kicad pcb_path out : Path) (side : string) : list string :=
  [path_str kicad; "pcb"; "render"; "-o"; path_str out; "--side"; side;
   "--background"; "transparent"; path_str pcb_path].

Definition iso_cmd (kicad pcb_path out : Path) : list string :=
  [path_str kicad; "pcb"; "render"; "-o"; path_str out;
   "--background"; "transparent"; "--perspective";
   "--rotate"; "'-45,0,45'"; "--zoom"; "1"; path_str pcb_path].

(** The pictures [export_pictures] returns. *)
Definition pictures (pcb_path out_dir : Path) (iso : bool) : list Path :=
  [child out_dir (stem pcb_path +:+ "_top.png");
   child out_dir (stem pcb_path +:+ "_bottom.png");
   child out_dir (stem pcb_path +:+ "_side.png")]
  ++ (if iso then [child out_dir (stem pcb_path +:+ "_iso.png")] else []).

(** The command lines of [export_pictures]. *)
Definition plan_pictures (kicad pcb_path out_dir : Path) (iso : bool) : list (list string) :=
  render_cmd kicad pcb_path (child out_dir (stem pcb_path +:+ "_top.png")) "top"
  :: render_cmd kicad pcb_path (child out_dir (stem pcb_path +:+ "_bottom.png")) "bottom"
  :: render_cmd kicad pcb_path (child out_dir (stem pcb_path +:+ "_side.png")) "left"
  :: (if iso then [iso_cmd kicad pcb_path (child out_dir (stem pcb_path +:+ "_iso.png"))]
      else []).

(** The command lines of [export_docs]. *)
Definition plan_docs (kicad sch_path pcb_path out_dir : Path) (include_drc : bool)
  : list (list string) :=
  [path_str kicad; "sch"; "export"; "pdf"; "-o";
   path_str (child out_dir (stem sch_path +:+ "_schematic.pdf")); path_str sch_path]
  :: [path_str kicad; "sch"; "erc"; "-o";
      path_str (child out_dir (stem sch_path +:+ "_erc.rpt")); path_str sch_path]
  :: [path_str kicad; "pcb"; "export"; "pdf"; "-o";
      path_str (child out_dir (stem pcb_path +:+ "_board_prints.pdf"));
      "--layers";
      "F.Cu,B.Cu,F.SilkS,B.SilkS,F.Mask,B.Mask,Edge.Cuts,F.Fab,B.Fab,User.Drawings";
      "--mode-multipage"; path_str pcb_path]
  :: (if include_drc
      then [[path_str kicad; "pcb"; "drc"; "-o";
             path_str (child out_dir (stem pcb_path +:+ "_drc.rpt"));
             "--format"; "report"; path_str pcb_path]]
      else []).

(** The reports [export_docs] returns. *)
Definition docs (sch_path pcb_path out_dir : Path) (include_drc : bool)
  : Path * Path * Path * option Path :=
  (child out_dir (stem sch_path +:+ "_schematic.pdf"),
   child out_dir (stem sch_path +:+ "_erc.rpt"),
   child out_dir (stem pcb_path +:+ "_board_prints.pdf"),
   if include_drc then Some (child out_dir (stem pcb_path +:+ "_drc.rpt")) else None).

(** The command lines of [export_fab]. *)
Definition plan_fab (kicad sch_path pcb_path out_dir : Path) : list (list string) :=
  [[path_str kicad; "pcb"; "export"; "gerbers"; "-o"; path_str (child out_dir "gerbers");
    "--board-plot-params"; path_str pcb_path];
   [path_str kicad; "pcb"; "export"; "drill"; "-o"; path_str (child out_dir "drill");
    "--format"; "excellon"; "--generate-map"; path_str pcb_path];
   [path_str kicad; "pcb"; "export"; "pos"; "-o";
    path_str (child out_dir (stem pcb_path +:+ "_pos.csv"));
    "--format"; "csv"; "--units"; "mm"; "--side"; "both"; path_str pcb_path];
   [path_str kicad; "sch"; "export"; "bom"; "-o";
    path_str (child out_dir (stem sch_path +:+ "_bom.csv"));
    "--fields"; "Reference,Value,Footprint,${QUANTITY},Manufacturer,MPN,Datasheet,${DNP}";
    "--labels"; "Refs,Value,Footprint,Qty,Manufacturer,MPN,Datasheet,DNP";
    "--group-by"; "Value,Footprint,MPN"; path_str sch_path]].

(** What [export_fab] returns. *)
Definition fab (sch_path pcb_path out_dir : Path) (zip_outputs : bool)
  : Path * Path * Path * Path * option Path :=
  (child out_dir "gerbers", child out_dir "drill",
   child out_dir (stem pcb_path +:+ "_pos.csv"),
   child out_dir (stem sch_path +:+ "_bom.csv"),
   if zip_outputs then Some (child out_dir (stem pcb_path +:+ "_gerbers.zip")) else None).

(** The command lines of the four export steps of [main], in order. *)
Definition plan_exports (args : Args) (s : Setup) : list (list string) :=
  plan_3d (kicad s) (pcb_path s) (three_d_dir s) (glb args)
  ++ plan_pictures (kicad s) (pcb_path s) (pics_dir s) (iso args)
  ++ plan_docs (kicad s) (sch_path s) (pcb_path s) (docs_dir s) (negb (skip_drc args))
  ++ plan_fab (kicad s) (sch_path s) (pcb_path s) (prod_root s).

(** The vendor packaging of [main] is not requested. *)
Definition no_kikit (args : Args) : Prop :=
  kikit args = None \/ kikit args = Some "".



(** The ordering field [run_kikit_fab] passes to KiKit. *)
Definition kikit_field (vendor : string) (order_field : option string) : string :=
  match order_field with
  | None => if String.eqb (lower vendor) "jlcpcb" then "LCSC" else "MPN"
  | Some f => f
  end.

(** The command line of [run_kikit_fab]. *)
Definition kikit_cmd (python : Path) (vendor : string) (pcb_path sch_path vendor_root : Path)
    (field : string) : list string :=
  [path_str python; "-m"; "kikit.ui"; "fab"; vendor; "--assembly"; "--schematic";
   path_str sch_path]
  ++ (if String.eqb field "" then [] else ["--field"; field])
  ++ [path_str pcb_path; path_str vendor_root].

(** A step that removes and changes no entry of the file system. *)
Definition keeps {A} (c : M A) : Prop :=
  forall w, kept (files w) (files (c w).2).

(** A step that, run in the environment of [w0], leaves the environment
    and every entry other than [k] as they are. *)
Definition confined {A} (w0 : World) (k : list string) (c : M A) : Prop :=
  forall w, same_env w0 w ->
    same_env w0 (c w).2 /\ forall k', k' <> k -> files (c w).2 !! k' = files w !! k'.

(** The characters [a-z0-9_.-]. *)
Definition safe_char (c : ascii) : bool :=
  is_lower c || is_digit c || Ascii.eqb c "_" || Ascii.eqb c "." || Ascii.eqb c "-".

(** The encodings [read_text_flexible] tries, in its order. *)
Definition encodings : list string :=
  ["utf-8"; "utf-8-sig"; "utf-16"; "utf-16-le"; "utf-16-be"; "cp1252"].

(** The repository with a tool that fails with exit code 1. *)
Definition w_tool_fails : World :=
  Samples.mk_world Samples.fs_repo (mkPath "/" ["r"]) ∅ [mkPath "/" ["usr"; "bin"]]
                   (Samples.exec_idle 1).

(** A repository [/r] with a template of the summary document that has no
    placeholder. *)
Definition w_plain_template : World :=
  Samples.mk_world (<[ ["/"; "r"; "README.template.md"] := File "Notes of the board." ]>
                   (<[ ["/"; "r"] := Dir ]> {[ ["/"] := Dir ]}))
                   (mkPath "/" ["r"]) ∅ [] (Samples.exec_idle 0).

(** The text is one path component for [pathlib]: it holds no separator
    (and no NUL), so joining it to a path adds exactly one component. *)
Definition plain_component (s : string) : bool :=
  Text.forallb (fun c => negb (Ascii.eqb c "/") && negb (Ascii.eqb c "000")) s.

(** No directory of PATH holds a symbolic link called [name]: the lookup
    of [name] on PATH meets regular files and directories only. *)
Definition no_link_named (w : World) (name : string) : bool :=
  List.forallb (fun d => match lstat w (child d name) with
                         | Some (Symlink _) => false
                         | _ => true
                         end)
               (search_path w).

(** The name has no dot. *)
Definition no_dot (s : string) : bool :=
  Text.forallb (fun c => negb (Ascii.eqb c ".")) s.

End Plan.

(** * Properties *)

(** ** Facts about strings and [safe_substitute] *)

Module TemplateFacts.
Import Text Template Props.

Lemma app_assoc (a b c : string) : (a +:+ b) +:+ c = a +:+ (b +:+ c).
Proof. induction a as [|x a IH]; simpl; [reflexivity | now rewrite IH]. Qed.

Lemma app_nil_r (a : string) : a +:+ "" = a.
Proof. induction a as [|x a IH]; simpl; [reflexivity | now rewrite IH]. Qed.

Lemma length_app (a b : string) :
  String.length (a +:+ b) = String.length a + String.length b.
Proof. induction a as [|x a IH]; simpl; [reflexivity | now rewrite IH]. Qed.

Lemma span_eq p s : s = (span p s).1 +:+ (span p s).2.
Proof.
  induction s as [|c s IH]; simpl; [reflexivity|].
  destruct (p c); simpl; [|reflexivity].
  destruct (span p s) as [a b]; simpl in *. now rewrite IH at 1.
Qed.

Lemma span_app_stop p a c r :
  p c = false ->
  span p (a +:+ String c r) = ((span p a).1, (span p a).2 +:+ String c r).
Proof.
  intros Hc. induction a as [|x a IH]; simpl.
  - now rewrite Hc.
  - destruct (p x); simpl; [|reflexivity].
    rewrite IH. now destruct (span p a).
Qed.

Lemma span_all p n post :
  Text.forallb p n = true ->
  match post with String c _ => p c = false | EmptyString => True end ->
  span p (n +:+ post) = (n, post).
Proof.
  intros Hn Hpost. induction n as [|x n IH]; simpl in *.
  - destruct post as [|c post]; simpl; [reflexivity | now rewrite Hpost].
  - apply andb_true_iff in Hn as [Hx Hn]. rewrite Hx, (IH Hn). reflexivity.
Qed.

#[local] Arguments span : simpl never.

(** The text after a match is a suffix of the text after the delimiter. *)
Lemma match_at_suffix rest m after :
  match_at rest = (m, after) -> exists a, rest = a +:+ after.
Proof.
  unfold match_at. destruct rest as [|c rest']; [intros [= <- <-]; now exists ""|].
  destruct (Ascii.eqb c dollar).
  { intros [= <- <-]. now exists (String c ""). }
  destruct (is_id_start c).
  { pose proof (span_eq is_id_char (String c rest')) as E.
    destruct (span is_id_char (String c rest')) as [n af]; simpl in E.
    intros [= <- <-]. now exists n. }
  destruct (Ascii.eqb c "{"); [|intros [= <- <-]; now exists ""].
  destruct rest' as [|c' r2]; [intros [= <- <-]; now exists ""|].
  destruct (is_id_start c'); [|intros [= <- <-]; now exists ""].
  pose proof (span_eq is_id_char (String c' r2)) as E.
  destruct (span is_id_char (String c' r2)) as [n af]; simpl in E.
  destruct af as [|c2 af']; [intros [= <- <-]; now exists ""|].
  destruct (Ascii.eqb_spec c2 "}") as [->|]; [|intros [= <- <-]; now exists ""].
  intros [= <- <-]. exists (String c (n +:+ "}")).
  simpl. rewrite E, app_assoc. reflexivity.
Qed.

Lemma match_at_length rest m after :
  match_at rest = (m, after) -> String.length after <= String.length rest.
Proof.
  intros H. apply match_at_suffix in H as [a ->]. rewrite length_app. lia.
Qed.

(** Text that starts with a delimiter, put after [rest], does not change
    the match at the start of a non-empty [rest]. *)
Lemma match_at_app rest r m after :
  rest <> "" ->
  match_at rest = (m, after) ->
  match_at (rest +:+ String dollar r) = (m, after +:+ String dollar r).
Proof.
  assert (Hd : is_id_char dollar = false) by reflexivity.
  unfold match_at. destruct rest as [|c rest']; [congruence|]. intros _. simpl.
  destruct (Ascii.eqb c dollar); [now intros [= <- <-]|].
  destruct (is_id_start c) eqn:Hc.
  { change (String c (rest' +:+ String dollar r)) with (String c rest' +:+ String dollar r).
    rewrite (span_app_stop _ _ _ _ Hd).
    destruct (span is_id_char (String c rest')) as [n af]. now intros [= <- <-]. }
  destruct (Ascii.eqb c "{"); [|now intros [= <- <-]].
  destruct rest' as [|c' r2]; simpl; [now intros [= <- <-]|].
  destruct (is_id_start c'); [|now intros [= <- <-]].
  change (String c' (r2 +:+ String dollar r)) with (String c' r2 +:+ String dollar r).
  rewrite (span_app_stop _ _ _ _ Hd).
  destruct (span is_id_char (String c' r2)) as [n af]; simpl.
  destruct af as [|c2 af']; simpl; [now intros [= <- <-]|].
  destruct (Ascii.eqb c2 "}"); now intros [= <- <-].
Qed.

(** Fuel beyond the length of the text does not change the scan. *)
Lemma sub_from_fuel mapping fuel : forall fuel' s,
  String.length s <= fuel -> String.length s <= fuel' ->
  sub_from fuel mapping s = sub_from fuel' mapping s.
Proof.
  induction fuel as [|fuel IH]; intros fuel' s H H'.
  - destruct s; simpl in H; [|lia]. now destruct fuel'.
  - destruct s as [|c rest]; [now destruct fuel'|].
    destruct fuel' as [|fuel']; simpl in H, H'; [lia|]. simpl.
    destruct (Ascii.eqb c dollar).
    + destruct (match_at rest) as [m after] eqn:E.
      apply match_at_length in E. f_equal. apply IH; lia.
    + f_equal. apply IH; lia.
Qed.

Lemma safe_substitute_nil mapping : safe_substitute mapping "" = "".
Proof. reflexivity. Qed.

Lemma safe_substitute_char mapping c rest :
  Ascii.eqb c dollar = false ->
  safe_substitute mapping (String c rest) = String c (safe_substitute mapping rest).
Proof. intros H. unfold safe_substitute. simpl. now rewrite H. Qed.

Lemma safe_substitute_delim mapping rest m after :
  match_at rest = (m, after) ->
  safe_substitute mapping (String dollar rest)
  = convert mapping m +:+ safe_substitute mapping after.
Proof.
  intros H. unfold safe_substitute. simpl. rewrite H. f_equal.
  apply sub_from_fuel; [exact (match_at_length _ _ _ H) | lia].
Qed.

Lemma ends_with_delim_suffix a b :
  ends_with_delim (a +:+ b) = false -> ends_with_delim b = false.
Proof.
  induction a as [|c a IH]; simpl; [easy|].
  destruct (a +:+ b) eqn:E; [|exact IH].
  destruct a; simpl in E; [subst b; reflexivity | discriminate].
Qed.

(** The scan of a text that does not end with a delimiter is not affected
    by what follows it, when that starts with a delimiter. *)
Lemma safe_substitute_app_delim mapping r : forall n pre,
  String.length pre <= n ->
  ends_with_delim pre = false ->
  safe_substitute mapping (pre +:+ String dollar r)
  = safe_substitute mapping pre +:+ safe_substitute mapping (String dollar r).
Proof.
  induction n as [|n IH]; intros pre Hn Hpre.
  - destruct pre; simpl in Hn; [reflexivity | lia].
  - destruct pre as [|c pre']; [reflexivity|]. simpl in Hn.
    destruct (Ascii.eqb_spec c dollar) as [->|Hc].
    + destruct pre' as [|c' p2]; [discriminate Hpre|].
      destruct (match_at (String c' p2)) as [m after] eqn:E.
      change (String dollar (String c' p2) +:+ String dollar r)
        with (String dollar (String c' p2 +:+ String dollar r)).
      assert (Hne : String c' p2 <> "") by discriminate.
      rewrite (safe_substitute_delim _ _ _ _ (match_at_app _ r _ _ Hne E)).
      rewrite (safe_substitute_delim _ _ _ _ E).
      pose proof (match_at_suffix _ _ _ E) as [a Ha].
      rewrite IH.
      * now rewrite app_assoc.
      * apply match_at_length in E. lia.
      * apply (ends_with_delim_suffix a). rewrite <- Ha. exact Hpre.
    + apply Ascii.eqb_neq in Hc. simpl.
      rewrite !safe_substitute_char by exact Hc. simpl. f_equal.
      apply IH; [lia|]. apply (ends_with_delim_suffix (String c "")). exact Hpre.
Qed.

Lemma is_identifier_span n post :
  is_identifier n = true -> starts_with_id_char post = false ->
  span is_id_char (n +:+ post) = (n, post).
Proof.
  intros Hn Hpost. apply span_all.
  - destruct n as [|c r]; [discriminate|]. simpl in *.
    apply andb_true_iff in Hn as [Hc Hr]. unfold is_id_char at 1. now rewrite Hc, Hr.
  - destruct post; [exact I | exact Hpost].
Qed.

(** The match found at a well-formed placeholder is that placeholder. *)
Lemma match_at_placeholder ph post :
  placeholder_at ph post = true ->
  exists body, group ph = String dollar body /\ match_at (body +:+ post) = (ph, post).
Proof.
  destruct ph as [|n|n|]; simpl; try discriminate.
  - intros H. apply andb_true_iff in H as [Hn Hpost]. apply negb_true_iff in Hpost.
    exists n. split; [reflexivity|].
    pose proof (is_identifier_span n post Hn Hpost) as Hs.
    destruct n as [|c r]; [discriminate|]. simpl in Hn.
    apply andb_true_iff in Hn as [Hc Hr].
    unfold match_at. simpl String.append. cbv iota.
    assert (Ascii.eqb c dollar = false) as ->.
    { apply Ascii.eqb_neq. intros ->. discriminate Hc. }
    rewrite Hc. simpl String.append in Hs. now rewrite Hs.
  - intros Hn. exists ("{" +:+ n +:+ "}"). split; [reflexivity|].
    assert (Hs : span is_id_char (n +:+ String "}" post) = (n, String "}" post))
      by (apply is_identifier_span; [exact Hn | reflexivity]).
    rewrite !app_assoc.
    destruct n as [|c r]; [discriminate|]. simpl in Hn.
    apply andb_true_iff in Hn as [Hc Hr].
    unfold match_at. simpl String.append. cbv iota.
    change (Ascii.eqb "{" dollar) with false. change (is_id_start "{") with false.
    change (Ascii.eqb "{" "{") with true. cbv iota.
    rewrite Hc. simpl String.append in Hs. rewrite Hs. reflexivity.
Qed.

(** Substitution at a placeholder: the text before it, the conversion of
    the placeholder, the text after it. *)
Lemma safe_substitute_placeholder mapping pre ph post :
  placeholder_at ph post = true ->
  ends_with_delim pre = false ->
  safe_substitute mapping (pre +:+ group ph +:+ post)
  = safe_substitute mapping pre +:+ convert mapping ph +:+ safe_substitute mapping post.
Proof.
  intros Hph Hpre.
  destruct (match_at_placeholder ph post Hph) as (body & Hg & Hm).
  rewrite Hg. simpl String.append.
  rewrite (safe_substitute_app_delim mapping _ (String.length pre) pre (le_n _) Hpre).
  now rewrite (safe_substitute_delim _ _ _ _ Hm).
Qed.

End TemplateFacts.

(** ** Facts about the monad and the file-system primitives *)

Module FsFacts.
Import Text Pathlib Py BuildOutputs Props.
Local Open Scope py_scope.

Lemma bind_ok {A B} (c : M A) (k : A -> M B) w a w' :
  c w = (Ok a, w') -> bind c k w = k a w'.
Proof. intros H. unfold bind. now rewrite H. Qed.

Lemma bind_raise {A B} (c : M A) (k : A -> M B) w e w' :
  c w = (Raise e, w') -> bind c k w = (Raise e, w').
Proof. intros H. unfold bind. now rewrite H. Qed.

(** A run is its result and the world it leaves. *)
Lemma run_split {A} (c : M A) w (r : result A) : (c w).1 = r -> c w = (r, (c w).2).
Proof. intros <-. apply surjective_pairing. Qed.

Lemma same_env_refl w : same_env w w.
Proof. repeat split. Qed.

Lemma same_env_trans w1 w2 w3 : same_env w1 w2 -> same_env w2 w3 -> same_env w1 w3.
Proof. unfold same_env. intuition congruence. Qed.

Lemma same_env_set_files fs w : same_env w (set_files fs w).
Proof. repeat split. Qed.

Lemma same_env_add_event e w : same_env w (add_event e w).
Proof. repeat split. Qed.

Create HintDb env.
#[local] Hint Resolve same_env_refl same_env_set_files same_env_add_event : env.

Lemma locate_env w w' p : same_env w w' -> locate w' p = locate w p.
Proof. intros (Hc & _). unfold locate, resolve. now rewrite Hc. Qed.

Lemma pinned_env w w' k : same_env w w' -> pinned w' k = pinned w k.
Proof. intros (_ & Hl & _). unfold pinned. now rewrite Hl. Qed.

Lemma kept_refl fs : kept fs fs.
Proof. intros k x H. exact H. Qed.

Lemma kept_trans fs1 fs2 fs3 : kept fs1 fs2 -> kept fs2 fs3 -> kept fs1 fs3.
Proof. intros H1 H2 k x H. apply H2, H1, H. Qed.

(** The key of a child is the key of the directory and the name. *)
Lemma locate_child w p n : locate w (child p n) = locate w p ++ [n].
Proof.
  unfold locate, resolve, joinpath, parts, child, is_absolute.
  destruct p as [a l]. simpl. destruct (String.eqb a "") eqn:Ea; simpl; rewrite ?Ea; simpl.
  - destruct (String.eqb (anchor (cwd w)) ""); simpl;
      now rewrite ?app_assoc, ?app_comm_cons.
  - reflexivity.
Qed.

(** *** [mkdir] *)

Lemma os_mkdir_inr k fs fs' :
  os_mkdir k fs = inr fs' -> fs !! k = None /\ fs' = <[k := Dir]> fs.
Proof.
  unfold os_mkdir. destruct (fs !! k); [discriminate|].
  destruct (fs !! parent_key k) as [[| |]|]; try discriminate.
  now intros [= <-].
Qed.

Lemma os_mkdir_kept k fs fs' : os_mkdir k fs = inr fs' -> fs' !! k = Some Dir /\ kept fs fs'.
Proof.
  intros H. apply os_mkdir_inr in H as [Hk ->]. split.
  - apply lookup_insert_eq.
  - intros k' x Hx. rewrite lookup_insert_ne; [exact Hx | congruence].
Qed.

(** A successful [mkdir] leaves a directory at the key and keeps every
    entry that was there. *)
Lemma mkdir_rev_spec rk : forall fs fs',
  mkdir_rev rk fs = inr fs' -> fs' !! rev rk = Some Dir /\ kept fs fs'.
Proof.
  induction rk as [|a rk IH]; intros fs fs'.
  - simpl. destruct (os_mkdir [] fs) as [e|fs1] eqn:E.
    + destruct e; try (destruct (decide _); [|discriminate]; intros [= <-];
        split; [assumption | apply kept_refl]); discriminate.
    + intros [= <-]. now apply os_mkdir_kept.
  - cbn [mkdir_rev]. destruct (os_mkdir (rev (a :: rk)) fs) as [e|fs1] eqn:E.
    + destruct e;
        try (destruct (decide _); [|discriminate]; intros [= <-];
             split; [assumption | apply kept_refl]).
      destruct rk as [|b rk']; [discriminate|].
      destruct (mkdir_rev (b :: rk') fs) as [e1|fs1] eqn:E1; [discriminate|].
      apply IH in E1 as [_ Hk1].
      destruct (os_mkdir (rev (a :: b :: rk')) fs1) as [e2|fs2] eqn:E2.
      * destruct (decide _); [|discriminate]. intros [= <-]. split; assumption.
      * intros [= <-]. apply os_mkdir_kept in E2 as [H2 Hk2].
        split; [exact H2 | eapply kept_trans; eassumption].
    + intros [= <-]. now apply os_mkdir_kept.
Qed.

Lemma mkdir_ok p w w1 :
  mkdir p w = (Ok tt, w1) ->
  exists fs1, w1 = set_files fs1 w /\ fs1 !! locate w p = Some Dir /\ kept (files w) fs1.
Proof.
  unfold mkdir. destruct (mkdir_rev (rev (locate w p)) (files w)) as [e|fs1] eqn:E;
    [discriminate|].
  intros [= <-]. exists fs1. apply mkdir_rev_spec in E as [H1 H2].
  rewrite rev_involutive in H1. auto.
Qed.

(** What [mkdir] adds lies on the way to the key. *)
Lemma mkdir_rev_outside rk : forall fs fs',
  mkdir_rev rk fs = inr fs' ->
  forall k', ~ k' `prefix_of` rev rk -> fs' !! k' = fs !! k'.
Proof.
  assert (Hos : forall k fs fs', os_mkdir k fs = inr fs' ->
                forall k', ~ k' `prefix_of` k -> fs' !! k' = fs !! k').
  { intros k fs fs' H k' Hk'. apply os_mkdir_inr in H as [_ ->].
    apply lookup_insert_ne. intros ->. now apply Hk'. }
  induction rk as [|a rk IH]; intros fs fs'.
  - simpl. destruct (os_mkdir [] fs) as [e|fs1] eqn:E.
    + destruct e; try (destruct (decide _); [|discriminate]; now intros [= <-]); discriminate.
    + intros [= <-]. exact (Hos _ _ _ E).
  - cbn [mkdir_rev]. destruct (os_mkdir (rev (a :: rk)) fs) as [e|fs1] eqn:E.
    + destruct e; try (destruct (decide _); [|discriminate]; now intros [= <-]).
      destruct rk as [|b rk']; [discriminate|].
      destruct (mkdir_rev (b :: rk') fs) as [e1|fs1] eqn:E1; [discriminate|].
      assert (H1 : forall k', ~ k' `prefix_of` rev (a :: b :: rk') -> fs1 !! k' = fs !! k').
      { intros k' Hk'. apply (IH _ _ E1). intros Hp. apply Hk'.
        change (rev (a :: b :: rk')) with (rev (b :: rk') ++ [a]).
        now apply prefix_app_r. }
      destruct (os_mkdir (rev (a :: b :: rk')) fs1) as [e2|fs2] eqn:E2.
      * destruct (decide _); [|discriminate]. now intros [= <-].
      * intros [= <-] k' Hk'. rewrite (Hos _ _ _ E2 k' Hk'). now apply H1.
    + intros [= <-]. exact (Hos _ _ _ E).
Qed.

Lemma mkdir_outside p w w1 :
  mkdir p w = (Ok tt, w1) ->
  forall k', ~ k' `prefix_of` locate w p -> files w1 !! k' = files w !! k'.
Proof.
  unfold mkdir. destruct (mkdir_rev (rev (locate w p)) (files w)) as [e|fs1] eqn:E;
    [discriminate|].
  intros [= <-] k' Hk'. simpl. apply (mkdir_rev_outside _ _ _ E).
  now rewrite rev_involutive.
Qed.

(** A failing [mkdir] changes nothing. *)
Lemma mkdir_raise p w e w1 : mkdir p w = (Raise e, w1) -> w1 = w.
Proof.
  unfold mkdir. destruct (mkdir_rev _ _); [|discriminate]. now intros [= _ <-].
Qed.

Lemma mkdir_result p w : exists r w1, mkdir p w = (r, w1) /\ same_env w w1
  /\ trace w1 = trace w /\ kept (files w) (files w1).
Proof.
  destruct (mkdir p w) as [[[]|e] w1] eqn:E.
  - destruct (mkdir_ok _ _ _ E) as (fs1 & -> & _ & Hk).
    eexists _, _. split; [reflexivity|]. auto with env.
  - apply mkdir_raise in E as ->. eexists _, _. split; [reflexivity|].
    split; [auto with env|]. split; [reflexivity | apply kept_refl].
Qed.

(** *** Directory listings *)

Lemma child_name_Some k k' n : child_name k k' = Some n <-> k' = k ++ [n].
Proof.
  unfold child_name. split.
  - destruct (last k') as [m|]; [|discriminate].
    destruct (decide (k' = k ++ [m])); [|discriminate]. now intros [= <-].
  - intros ->. rewrite last_snoc. now rewrite decide_True.
Qed.

Lemma elem_of_children fs k n : n ∈ children fs k <-> is_Some (fs !! (k ++ [n])).
Proof.
  unfold children. rewrite list_elem_of_omap. split.
  - intros ([k' x] & Hin & Hn). apply elem_of_map_to_list in Hin.
    apply child_name_Some in Hn. simpl in Hn. subst k'. eauto.
  - intros [x Hx]. exists (k ++ [n], x). split.
    + now apply elem_of_map_to_list.
    + now apply child_name_Some.
Qed.

Lemma children_nil fs k : (forall n, fs !! (k ++ [n]) = None) -> children fs k = [].
Proof.
  intros H. destruct (children fs k) as [|n l] eqn:E; [reflexivity|].
  assert (Hn : n ∈ children fs k) by (rewrite E; left).
  apply elem_of_children in Hn as [x Hx]. rewrite H in Hx. discriminate.
Qed.

Lemma NoDup_children fs k : NoDup (children fs k).
Proof.
  unfold children. pose proof (NoDup_fst_map_to_list fs) as Hnd.
  induction (map_to_list fs) as [|[k' x] l IH]; simpl; [constructor|].
  simpl in Hnd. apply NoDup_cons in Hnd as [Hk' Hnd].
  destruct (child_name k k') as [n|] eqn:En; [|now apply IH].
  constructor; [|now apply IH].
  intros Hin. apply list_elem_of_omap in Hin as ([k2 x2] & Hin & Hn). simpl in Hn.
  apply child_name_Some in En, Hn. subst k' k2.
  apply Hk'. apply list_elem_of_fmap. now exists (k ++ [n], x2).
Qed.

End FsFacts.

(** ** Facts about the removal of entries and the clean-up loops *)

Module ClearFacts.
Import Text Pathlib Py BuildOutputs Props FsFacts.
Local Open Scope py_scope.

Lemma commands_print msg w : commands (add_event (Print msg) w) = commands w.
Proof. unfold commands. simpl. rewrite List.filter_app. simpl. apply app_nil_r. Qed.

Lemma commands_exec cmd w : commands (add_event (Exec cmd) w) = commands w ++ [Exec cmd].
Proof. unfold commands. simpl. now rewrite List.filter_app. Qed.

Lemma not_pinned_iff w k :
  pinned w k = false <-> forall k', k' ∈ locked w -> ~ k `prefix_of` k'.
Proof.
  unfold pinned. rewrite <- not_true_iff_false, existsb_exists. split.
  - intros H k' Hk' Hp. apply H. exists k'. split.
    + apply list_elem_of_In. now apply elem_of_elements.
    + now apply bool_decide_eq_true.
  - intros H (k' & Hin & Hp). apply bool_decide_eq_true in Hp.
    apply list_elem_of_In, elem_of_elements in Hin. exact (H k' Hin Hp).
Qed.


(** Where nothing is locked, nothing is refused. *)
Lemma refused_unlocked w k : locked w = ∅ -> refused w k = false.
Proof.
  intros Hl. unfold refused. destruct (files w !! k) as [[| |]|]; try reflexivity.
  - rewrite Hl. apply bool_decide_eq_false. set_solver.
  - rewrite Hl. apply bool_decide_eq_false. set_solver.
  - apply not_pinned_iff. intros k'. rewrite Hl. set_solver.
Qed.

(** Removing an entry that exists and is not refused: it is gone with all
    that was below it, and nothing else changes. *)
Lemma remove_entry_ok e b w :
  is_Some (files w !! locate w e) -> refused w (locate w e) = false ->
  exists fs', remove_entry e b w = (Ok tt, set_files fs' w)
    /\ fs' !! locate w e = None
    /\ kept fs' (files w)
    /\ (forall k, ~ locate w e `prefix_of` k -> fs' !! k = files w !! k).
Proof.
  intros [x Hx] Href. unfold refused in Href. rewrite Hx in Href.
  unfold remove_entry, bind, is_file, is_symlink, unlink, rmtree, lstat, ret.
  assert (Hdel : let fs' := delete (locate w e) (files w) in
                 fs' !! locate w e = None /\ kept fs' (files w)
                 /\ (forall k, ~ locate w e `prefix_of` k -> fs' !! k = files w !! k)).
  { repeat split.
    - apply lookup_delete_eq.
    - intros k y Hy. apply lookup_delete_Some in Hy. tauto.
    - intros k Hk. apply lookup_delete_ne. intros <-. now apply Hk. }
  destruct x as [d|t|]; rewrite Hx; simpl; rewrite ?Hx; simpl; rewrite ?Href.
  - eexists. split; [reflexivity | exact Hdel].
  - eexists. split; [reflexivity | exact Hdel].
  - eexists. split; [reflexivity|]. repeat split.
    + apply map_lookup_filter_None_2. right. intros y _ Hp. now apply Hp.
    + intros k y Hy. now apply map_lookup_filter_Some_1_1 in Hy.
    + intros k Hk. destruct (files w !! k) as [y|] eqn:Ey.
      * now apply map_lookup_filter_Some_2.
      * apply map_lookup_filter_None_2. now left.
Qed.

(** Removing a refused entry raises PermissionError and changes nothing. *)
Lemma remove_entry_refused e b w :
  refused w (locate w e) = true ->
  exists ex, remove_entry e b w = (Raise ex, w) /\ exn_cls ex = PermissionError.
Proof.
  unfold refused, remove_entry, bind, is_file, is_symlink, unlink, rmtree, lstat, ret.
  destruct (files w !! locate w e) as [[d|t|]|] eqn:Hx; [| | |discriminate];
    intros Href; simpl; rewrite ?Hx; simpl; rewrite Href; eexists; split; reflexivity.
Qed.


Section ClearLoop.
Variable path : Path.
Variable msg : Path -> exn -> string.


End ClearLoop.

End ClearFacts.

(** ** Facts about the summary document *)

Module ReadmeFacts.
Import Text Pathlib Py BuildOutputs Props FsFacts.
Local Open Scope py_scope.


(** Decoding reads: it prints, and always yields a text. *)
Lemma decode_first_spec fname data encs : forall w,
  exists s w', decode_first fname data encs w = (Ok s, w')
    /\ same_env w w' /\ files w' = files w.
Proof.
  induction encs as [|enc encs IH]; intros w.
  - eexists _, _. split; [reflexivity|]. split; [apply same_env_add_event | reflexivity].
  - cbn [decode_first]. unfold bind, bytes_decode.
    destruct (decode w enc data) as [s|]; [|apply IH].
    eexists _, _. split; [reflexivity|]. split; [apply same_env_add_event | reflexivity].
Qed.

Lemma read_text_flexible_spec p w :
  exists r w', read_text_flexible p w = (r, w') /\ same_env w w' /\ files w' = files w.
Proof.
  unfold read_text_flexible, bind, read_bytes.
  destruct (lstat w p) as [[data|t|]|];
    try (eexists _, _; split; [reflexivity|]; split; [apply same_env_refl | reflexivity]).
  destruct (decode_first_spec (name p) data
              ["utf-8"; "utf-8-sig"; "utf-16"; "utf-16-le"; "utf-16-be"; "cp1252"] w)
    as (s & w' & -> & H).
  eexists _, _. split; [reflexivity | exact H].
Qed.



(** The step when the document exists: a message, nothing else. *)
Lemma render_readme_present root project_name w :
  is_Some (lstat w (child root "README.md")) ->
  render_readme_if_missing root project_name w
  = (Ok (child root "README.md"),
     add_event (Print "README.md already exists — leaving it untouched.") w).
Proof.
  intros H. unfold render_readme_if_missing, bind, exists_.
  rewrite bool_decide_eq_true_2 by exact H. reflexivity.
Qed.



End ReadmeFacts.

(** ** Facts about the steps that run no command *)

Module TameFacts.
Import Text Pathlib Py BuildOutputs Props FsFacts ClearFacts.
Local Open Scope py_scope.

Lemma tame_ret {A} (a : A) : tame (ret a).
Proof. intros w. split; [apply same_env_refl | reflexivity]. Qed.

Lemma tame_raise {A} cls msg : tame (@raise A cls msg).
Proof. intros w. split; [apply same_env_refl | reflexivity]. Qed.

Lemma tame_print msg : tame (print msg).
Proof. intros w. split; [apply same_env_add_event | apply commands_print]. Qed.

Lemma tame_bind {A B} (c : M A) (k : A -> M B) :
  tame c -> (forall a, tame (k a)) -> tame (bind c k).
Proof.
  intros Hc Hk w. unfold bind. specialize (Hc w).
  destruct (c w) as [[a|e] w1]; cbn [snd] in *; [|exact Hc].
  destruct Hc as [He Hc]. destruct (Hk a w1) as [He' Hc'].
  split; [eapply same_env_trans; eassumption | congruence].
Qed.

Lemma tame_try {A} (c : M A) (h : exn -> M A) :
  tame c -> (forall e, tame (h e)) -> tame (try_except c h).
Proof.
  intros Hc Hh w. unfold try_except. specialize (Hc w).
  destruct (c w) as [[a|e] w1]; cbn [snd] in *; [exact Hc|].
  destruct Hc as [He Hc]. destruct (Hh e w1) as [He' Hc'].
  split; [eapply same_env_trans; eassumption | congruence].
Qed.

Lemma tame_for_each {A} (l : list A) (body : A -> M unit) :
  (forall x, tame (body x)) -> tame (for_each l body).
Proof.
  intros Hb. induction l as [|x l IH]; cbn [for_each];
    [apply tame_ret | apply tame_bind; auto].
Qed.

(** A step that only reads. *)
Lemma tame_read {A} (c : M A) : (forall w, (c w).2 = w) -> tame c.
Proof. intros H w. rewrite H. split; [apply same_env_refl | reflexivity]. Qed.

(** A step that at most replaces the files. *)
Lemma tame_files {A} (c : M A) :
  (forall w, (c w).2 = w \/ exists fs, (c w).2 = set_files fs w) -> tame c.
Proof.
  intros H w. destruct (H w) as [->|[fs ->]];
    (split; [auto using same_env_refl, same_env_set_files | reflexivity]).
Qed.

Lemma tame_lift_option {A} (o : option A) cls msg : tame (lift_option o cls msg).
Proof. destruct o; [apply tame_ret | apply tame_raise]. Qed.

Lemma tame_exists p : tame (exists_ p).
Proof. now apply tame_read. Qed.

Lemma tame_is_file p : tame (is_file p).
Proof. now apply tame_read. Qed.

Lemma tame_is_symlink p : tame (is_symlink p).
Proof. now apply tame_read. Qed.

Lemma tame_which n : tame (which n).
Proof. now apply tame_read. Qed.

Lemma tame_resolve p : tame (resolve_ p).
Proof. now apply tame_read. Qed.

Lemma tame_datetime_now : tame datetime_now.
Proof. now apply tame_read. Qed.

Lemma tame_mkdir p : tame (mkdir p).
Proof.
  apply tame_files. intros w. unfold mkdir. destruct (mkdir_rev _ _); cbn [snd]; eauto.
Qed.

Lemma tame_iterdir p : tame (iterdir p).
Proof.
  apply tame_read. intros w. unfold iterdir. now destruct (lstat w p) as [[| |]|].
Qed.

Lemma tame_unlink p b : tame (unlink p b).
Proof.
  apply tame_files. intros w. unfold unlink.
  destruct (lstat w p) as [[| |]|]; repeat (destruct (bool_decide _)); destruct b;
    cbn [snd]; eauto.
Qed.

Lemma tame_rmtree p : tame (rmtree p).
Proof.
  apply tame_files. intros w. unfold rmtree.
  destruct (lstat w p) as [[| |]|]; try destruct (pinned _ _); cbn [snd]; eauto.
Qed.

Create HintDb tame.
#[local] Hint Resolve tame_ret tame_raise tame_print tame_lift_option tame_exists
  tame_is_file tame_is_symlink tame_which tame_resolve tame_datetime_now tame_mkdir
  tame_iterdir tame_unlink tame_rmtree tame_for_each tame_try : tame.

Ltac tame_step :=
  first [ apply tame_bind; [|intro]
        | match goal with
          | |- tame (if ?b then _ else _) => destruct b
          | |- tame (match ?o with Some _ => _ | None => _ end) => destruct o
          end
        | solve [auto with tame] ].

Lemma tame_remove_entry e b : tame (remove_entry e b).
Proof. unfold remove_entry. repeat tame_step. Qed.

Lemma tame_clear_dir p : tame (clear_dir p).
Proof.
  unfold clear_dir. repeat tame_step.
  apply tame_for_each. intros x. apply tame_try; auto using tame_remove_entry with tame.
Qed.

Lemma tame_ensure_dir p : tame (ensure_dir p).
Proof. unfold ensure_dir. repeat tame_step. Qed.

Lemma tame_which_kicad_cli : tame which_kicad_cli.
Proof. unfold which_kicad_cli. repeat tame_step. Qed.

Lemma tame_project_paths p : tame (project_paths p).
Proof. unfold project_paths. repeat tame_step. Qed.

Lemma tame_production_root args root proj : tame (production_root args root proj).
Proof.
  unfold production_root, timestamp_tag. destruct (no_timestamp args);
    repeat first [ apply tame_clear_dir | apply tame_ensure_dir | tame_step ].
Qed.

(** Everything [main] does before the first export step is tame. *)
Lemma tame_main_setup args : tame (main_setup args).
Proof.
  unfold main_setup.
  apply tame_bind; [apply tame_which_kicad_cli | intros kicad].
  apply tame_bind; [apply tame_project_paths | intros [[proj sch] pcb]].
  repeat first [ apply tame_production_root | apply tame_ensure_dir | tame_step ].
Qed.

End TameFacts.

(** ** Facts about the process invoker and the 3D export *)

Module ExportFacts.
Import Text Pathlib Py BuildOutputs Props FsFacts ClearFacts.
Local Open Scope py_scope.

Lemma run_ok cmd ok_codes w res fs' :
  exec w cmd (files w) = (res, fs') ->
  returncode res ∈ ok_codes ->
  run cmd ok_codes w = (Ok res, after_run cmd fs' w).
Proof.
  intros Hx Hin. unfold run, bind, print, subprocess_run. cbn [exec files add_event].
  rewrite Hx. cbn [returncode]. rewrite bool_decide_eq_true_2 by exact Hin. reflexivity.
Qed.

Lemma run_fail cmd ok_codes w res fs' :
  exec w cmd (files w) = (res, fs') ->
  returncode res ∉ ok_codes ->
  run cmd ok_codes w
  = (Raise (mkExn RuntimeError ("Command failed with code " +:+ pretty (returncode res))),
     add_event (PrintErr (stderr res)) (add_event (Print (stdout res)) (after_run cmd fs' w))).
Proof.
  intros Hx Hin. unfold run, bind, print, subprocess_run. cbn [exec files add_event].
  rewrite Hx. cbn [returncode]. rewrite bool_decide_eq_false_2 by exact Hin. reflexivity.
Qed.

Lemma after_run_env cmd fs' w : same_env w (after_run cmd fs' w).
Proof. repeat split. Qed.

Lemma commands_after_run cmd fs' w :
  commands (after_run cmd fs' w) = commands w ++ [Exec cmd].
Proof.
  unfold after_run. rewrite commands_exec. f_equal.
  change (commands (set_files fs' (add_event (Print (">> " +:+ join " " cmd)) w)))
    with (commands (add_event (Print (">> " +:+ join " " cmd)) w)).
  apply commands_print.
Qed.

Lemma tolerated (code : Z) : (code = 0 \/ code = 2)%Z <-> code ∈ [0; 2]%Z.
Proof. rewrite !elem_of_cons. rewrite elem_of_nil. tauto. Qed.

(** The STEP export exits with a tolerated code and the file is missing. *)
Lemma export_3d_no_file kicad pcb_path out_dir make_glb w w1 res fs2 :
  mkdir out_dir w = (Ok tt, w1) ->
  exec w (step_cmd kicad pcb_path out_dir) (files w1) = (res, fs2) ->
  (returncode res = 0 \/ returncode res = 2)%Z ->
  fs2 !! locate w (child out_dir (stem pcb_path +:+ ".step")) = None ->
  export_3d kicad pcb_path out_dir make_glb w
  = (Raise (mkExn RuntimeError "STEP export did not produce a file."),
     after_run (step_cmd kicad pcb_path out_dir) fs2 w1).
Proof.
  intros Hmk Hx Hcode Hnone.
  destruct (mkdir_ok _ _ _ Hmk) as (fs1 & Hw1 & _).
  assert (Henv : same_env w w1) by (rewrite Hw1; apply same_env_set_files).
  unfold export_3d, ensure_dir.
  rewrite (bind_ok _ _ _ _ _ (bind_ok _ _ _ _ _ Hmk)). unfold ret at 1.
  fold (step_cmd kicad pcb_path out_dir).
  assert (Hx1 : exec w1 (step_cmd kicad pcb_path out_dir) (files w1) = (res, fs2)).
  { destruct Henv as (_ & _ & _ & _ & -> & _). exact Hx. }
  rewrite (bind_ok _ _ _ _ _ (run_ok _ [0; 2]%Z _ _ _ Hx1 (proj1 (tolerated _) Hcode))).
  unfold bind, exists_, lstat.
  rewrite (locate_env _ _ _ (same_env_trans _ _ _ Henv (after_run_env _ _ _))).
  change (files (after_run (step_cmd kicad pcb_path out_dir) fs2 w1)) with fs2.
  rewrite Hnone. rewrite bool_decide_eq_false_2 by apply is_Some_None. reflexivity.
Qed.

(** The STEP export exits with a tolerated code and the file is there:
    without GLB the step returns the path of the file. *)
Lemma export_3d_accepts kicad pcb_path out_dir w w1 res fs2 :
  mkdir out_dir w = (Ok tt, w1) ->
  exec w (step_cmd kicad pcb_path out_dir) (files w1) = (res, fs2) ->
  (returncode res = 0 \/ returncode res = 2)%Z ->
  is_Some (fs2 !! locate w (child out_dir (stem pcb_path +:+ ".step"))) ->
  export_3d kicad pcb_path out_dir false w
  = (Ok (child out_dir (stem pcb_path +:+ ".step")),
     after_run (step_cmd kicad pcb_path out_dir) fs2 w1).
Proof.
  intros Hmk Hx Hcode Hsome.
  destruct (mkdir_ok _ _ _ Hmk) as (fs1 & Hw1 & _).
  assert (Henv : same_env w w1) by (rewrite Hw1; apply same_env_set_files).
  unfold export_3d, ensure_dir.
  rewrite (bind_ok _ _ _ _ _ (bind_ok _ _ _ _ _ Hmk)). unfold ret at 1.
  fold (step_cmd kicad pcb_path out_dir).
  assert (Hx1 : exec w1 (step_cmd kicad pcb_path out_dir) (files w1) = (res, fs2)).
  { destruct Henv as (_ & _ & _ & _ & -> & _). exact Hx. }
  rewrite (bind_ok _ _ _ _ _ (run_ok _ [0; 2]%Z _ _ _ Hx1 (proj1 (tolerated _) Hcode))).
  unfold bind, exists_, lstat.
  rewrite (locate_env _ _ _ (same_env_trans _ _ _ Henv (after_run_env _ _ _))).
  change (files (after_run (step_cmd kicad pcb_path out_dir) fs2 w1)) with fs2.
  rewrite bool_decide_eq_true_2 by exact Hsome. reflexivity.
Qed.

(** Any other exit code of the STEP export is a failed command. *)
Lemma export_3d_rejects kicad pcb_path out_dir make_glb w w1 res fs2 :
  mkdir out_dir w = (Ok tt, w1) ->
  exec w (step_cmd kicad pcb_path out_dir) (files w1) = (res, fs2) ->
  (returncode res <> 0 /\ returncode res <> 2)%Z ->
  (export_3d kicad pcb_path out_dir make_glb w).1
  = Raise (mkExn RuntimeError ("Command failed with code " +:+ pretty (returncode res))).
Proof.
  intros Hmk Hx Hcode.
  destruct (mkdir_ok _ _ _ Hmk) as (fs1 & Hw1 & _).
  assert (Henv : same_env w w1) by (rewrite Hw1; apply same_env_set_files).
  unfold export_3d, ensure_dir.
  rewrite (bind_ok _ _ _ _ _ (bind_ok _ _ _ _ _ Hmk)). unfold ret at 1.
  fold (step_cmd kicad pcb_path out_dir).
  assert (Hx1 : exec w1 (step_cmd kicad pcb_path out_dir) (files w1) = (res, fs2)).
  { destruct Henv as (_ & _ & _ & _ & -> & _). exact Hx. }
  assert (Hnot : returncode res ∉ [0; 2]%Z) by (rewrite <- tolerated; tauto).
  rewrite (bind_raise _ _ _ _ _ (run_fail _ [0; 2]%Z _ _ _ Hx1 Hnot)). reflexivity.
Qed.

End ExportFacts.

(** ** Facts about the time stamp *)

Module StampFacts.
Import Text Pathlib Py BuildOutputs Props.





End StampFacts.

(** ** Facts about [clear_dir] *)

Module ClearDirFacts.
Import Text Pathlib Py BuildOutputs Props FsFacts ClearFacts.
Local Open Scope py_scope.



(** Making the directory does not change what is refused below it. *)
Lemma refused_after_mkdir (w w1 : World) (path : Path) (n : string) :
  mkdir path w = (Ok tt, w1) ->
  refused w1 (locate w path ++ [n]) = refused w (locate w path ++ [n]).
Proof.
  intros E. pose proof (mkdir_outside _ _ _ E) as Hout.
  destruct (mkdir_ok _ _ _ E) as (fs1 & Hw1 & _).
  assert (Henv : same_env w w1) by (rewrite Hw1; apply same_env_set_files).
  unfold refused. rewrite (pinned_env _ _ _ Henv).
  destruct Henv as (_ & -> & _).
  now rewrite (Hout (locate w path ++ [n])) by apply prefix_snoc_not.
Qed.



End ClearDirFacts.

(** ** Facts about the vendor packaging step *)

Module KikitFacts.
Import Text Pathlib Py BuildOutputs Props FsFacts ClearFacts.
Local Open Scope py_scope.

Lemma snoc_prefix_inj (k : list string) (a b : string) :
  (k ++ [a]) `prefix_of` (k ++ [b]) -> a = b.
Proof.
  intros [l Hl]. rewrite <- app_assoc in Hl. apply app_inv_head in Hl.
  now injection Hl.
Qed.

(** The clean-up loop of [run_kikit_fab] stops at the first entry whose
    removal is refused: the error leaves the loop, the refused entry stays. *)
Lemma kikit_loop_refused path names : forall w n,
  NoDup names ->
  (forall m, m ∈ names -> is_Some (files w !! (locate w path ++ [m]))) ->
  n ∈ names ->
  refused w (locate w path ++ [n]) = true ->
  exists e w',
    for_each (map (child path) names) (fun e => remove_entry e true) w = (Raise e, w')
    /\ exn_cls e = PermissionError
    /\ same_env w w' /\ trace w' = trace w
    /\ files w' !! (locate w path ++ [n]) = files w !! (locate w path ++ [n]).
Proof.
  induction names as [|m ms IH]; intros w n Hnd Hall Hn Href; [inversion Hn|].
  apply NoDup_cons in Hnd as [Hm Hnd]. cbn [map for_each].
  destruct (refused w (locate w path ++ [m])) eqn:Hrm.
  - rewrite <- locate_child in Hrm.
    destruct (remove_entry_refused (child path m) true w Hrm) as (ex & Hr & Hcls).
    rewrite (bind_raise _ _ _ _ _ Hr). exists ex, w.
    repeat split; auto using same_env_refl.
  - assert (Hne : n <> m) by (intros ->; congruence).
    apply elem_of_cons in Hn as [Hn|Hn]; [contradiction|].
    pose proof (Hall m ltac:(left)) as Hpm.
    rewrite <- locate_child in Hrm, Hpm.
    destruct (remove_entry_ok (child path m) true w Hpm Hrm) as (fs' & Hr & _ & _ & Hout).
    rewrite locate_child in Hout.
    rewrite (bind_ok _ _ _ _ _ Hr).
    assert (Henv : same_env w (set_files fs' w)) by apply same_env_set_files.
    assert (Hsame : forall x, x <> m ->
              files (set_files fs' w) !! (locate w path ++ [x]) = files w !! (locate w path ++ [x])).
    { intros x Hx. apply Hout. intros Hp. apply snoc_prefix_inj in Hp. congruence. }
    destruct (IH (set_files fs' w) n Hnd) as (e & w' & Hl & Hcls & Henv' & Htr & Hkeep).
    + intros x Hx. rewrite (locate_env _ _ _ Henv), Hsame; [apply Hall; now right|].
      intros ->. contradiction.
    + exact Hn.
    + rewrite (locate_env _ _ _ Henv). unfold refused in *.
      rewrite (pinned_env _ _ _ Henv), (Hsame n Hne). exact Href.
    + rewrite (locate_env _ _ _ Henv) in Hkeep. exists e, w'.
      split; [exact Hl|]. split; [exact Hcls|].
      split; [exact (same_env_trans _ _ _ Henv Henv')|].
      split; [exact Htr|]. now rewrite Hkeep, (Hsame n Hne).
Qed.

(** The interpreter lookup written for KiKit, which no part of the script
    calls: the sibling [python.exe], else the sibling [python], else
    [python] on PATH, else [python3] on PATH; FileNotFoundError only when
    all four are missing. *)
Lemma find_kicad_python_spec (kcli : Path) (w : World) :
  names kcli <> [] ->
  let sib n := mkPath (anchor kcli) (removelast (names kcli) ++ [n]) in
  (find_kicad_python_from_kicad_cli kcli w).1 =
    if bool_decide (is_Some (lstat w (sib "python.exe"))) then Ok (sib "python.exe")
    else if bool_decide (is_Some (lstat w (sib "python"))) then Ok (sib "python")
    else match (which "python" w).1, (which "python3" w).1 with
         | Ok (Some py), _ => Ok py
         | _, Ok (Some py) => Ok py
         | _, _ => Raise (mkExn FileNotFoundError
                            "Could not locate a Python interpreter to run KiKit.")
         end.
Proof.
  intros Hne sib. unfold find_kicad_python_from_kicad_cli, with_name.
  destruct (names kcli) as [|x l] eqn:E; [contradiction|]. fold (sib "python.exe").
  fold (sib "python"). unfold lift_option, bind, ret, exists_.
  destruct (bool_decide (is_Some (lstat w (sib "python.exe")))); [reflexivity|].
  destruct (bool_decide (is_Some (lstat w (sib "python")))); [reflexivity|].
  unfold which. cbn [fst snd].
  destruct (List.find _ (map (fun d => child d "python") (search_path w))); [reflexivity|].
  destruct (List.find _ (map (fun d => child d "python3") (search_path w))); reflexivity.
Qed.

(** Where [run_kikit_fab] returns, the folder it names is the lowercased
    vendor identifier followed by [_production]. *)
Lemma run_kikit_fab_folder vendor pcb_path sch_path out_dir order_field clean w p :
  (run_kikit_fab vendor pcb_path sch_path out_dir order_field clean w).1 = Ok p ->
  p = child (child out_dir (lower vendor +:+ "_production")) "gerbers.zip".
Proof.
  unfold run_kikit_fab, bind, which, ensure_dir, bind, ret. cbn [fst snd].
  destruct (List.find _ _) as [py|]; [|discriminate].
  destruct (mkdir _ w) as [[[]|e] w1]; [|discriminate].
  destruct clean.
  - destruct (iterdir _ w1) as [[l|e] w2]; [|discriminate].
    destruct (for_each _ _ w2) as [[[]|e] w3]; [|discriminate].
    destruct (run _ _ w3) as [[r|e] w4]; [|discriminate].
    now intros [= <-].
  - destruct (run _ _ w1) as [[r|e] w3]; [|discriminate].
    now intros [= <-].
Qed.

Lemma sanitize_char_not_space c : _sanitize_vendor_char c = true -> is_space c = false.
Proof.
  destruct c as [[] [] [] [] [] [] [] []]; vm_compute; congruence.
Qed.

Lemma sanitize_char_lower c :
  _sanitize_vendor_char c = true -> _sanitize_vendor_char (lower_char c) = true.
Proof.
  destruct c as [[] [] [] [] [] [] [] []]; vm_compute; congruence.
Qed.

Lemma rstrip_clean v : Text.forallb (fun c => negb (is_space c)) v = true -> rstrip v = v.
Proof.
  induction v as [|c v IH]; [reflexivity|]. cbn [Text.forallb rstrip].
  intros H. apply andb_true_iff in H as [Hc Hv]. rewrite (IH Hv).
  apply negb_true_iff in Hc. rewrite Hc. now destruct v.
Qed.

(** On an identifier made of letters, digits, [.], [_] and [-] the
    sanitizer only lowercases. *)
Lemma _sanitize_vendor_clean v :
  Text.forallb _sanitize_vendor_char v = true -> _sanitize_vendor v = lower v.
Proof.
  intros H. unfold _sanitize_vendor, strip.
  assert (Hs : Text.forallb (fun c => negb (is_space c)) v = true).
  { induction v as [|c v IH]; [reflexivity|]. cbn [Text.forallb] in *.
    apply andb_true_iff in H as [Hc Hv].
    now rewrite (sanitize_char_not_space c Hc), (IH Hv). }
  assert (lstrip v = v) as ->.
  { destruct v as [|c v]; [reflexivity|]. cbn [Text.forallb lstrip] in *.
    apply andb_true_iff in Hs as [Hc _]. apply negb_true_iff in Hc. now rewrite Hc. }
  rewrite (rstrip_clean v Hs). clear Hs.
  induction v as [|c v IH]; [reflexivity|]. cbn [Text.forallb lower sub_runs] in *.
  apply andb_true_iff in H as [Hc Hv].
  now rewrite (sanitize_char_lower c Hc), (IH Hv).
Qed.

End KikitFacts.

(** ** Facts about command plans *)

Module PlanFacts.
Import Text Pathlib Py BuildOutputs Props Plan FsFacts ClearFacts TameFacts ExportFacts.
Local Open Scope py_scope.

Lemma commands_print_err msg w : commands (add_event (PrintErr msg) w) = commands w.
Proof. unfold commands. simpl. rewrite List.filter_app. simpl. apply app_nil_r. Qed.

Lemma runs_ret {A} (a : A) (Q : A -> Prop) : Q a -> runs [] (ret a) Q.
Proof.
  intros HQ w. split; [apply same_env_refl|]. exists 0. split.
  - cbn. now rewrite app_nil_r.
  - intros a' [= <-]. auto.
Qed.

Lemma runs_raise {A} cls msg plan (Q : A -> Prop) : runs plan (raise cls msg) Q.
Proof.
  intros w. split; [apply same_env_refl|]. exists 0. split.
  - cbn. now rewrite app_nil_r.
  - intros a [=].
Qed.

(** A tame step first: the plan is that of what follows. *)
Lemma runs_bind_tame {A B} (c : M A) (k : A -> M B) plan (Q : B -> Prop) :
  tame c -> (forall a, runs plan (k a) Q) -> runs plan (bind c k) Q.
Proof.
  intros Hc Hk w. destruct (Hc w) as [Henv Hcmd]. unfold bind.
  destruct (c w) as [[a|e] w1]; cbn [fst snd] in *.
  - destruct (Hk a w1) as [Henv' (n & Hn & HQ)]. split.
    + eapply same_env_trans; eassumption.
    + exists n. now rewrite Hn, Hcmd.
  - split; [exact Henv|]. exists 0. split.
    + cbn. now rewrite app_nil_r.
    + intros a [=].
Qed.

(** [ensure_dir] first: it returns the path it was given. *)
Lemma runs_bind_ensure {B} (p : Path) (k : Path -> M B) plan (Q : B -> Prop) :
  runs plan (k p) Q -> runs plan (bind (ensure_dir p) k) Q.
Proof.
  intros Hk w. destruct (tame_mkdir p w) as [Henv Hcmd].
  unfold ensure_dir, bind, ret. destruct (mkdir p w) as [[[]|e] w1]; cbn [fst snd] in *.
  - destruct (Hk w1) as [Henv' (n & Hn & HQ)]. split.
    + eapply same_env_trans; eassumption.
    + exists n. now rewrite Hn, Hcmd.
  - split; [exact Henv|]. exists 0. split.
    + cbn. now rewrite app_nil_r.
    + intros a [=].
Qed.

(** A command first: it is executed, and what follows runs only if its
    exit code is accepted. *)
Lemma runs_bind_run {B} cmd ok_codes (k : proc -> M B) plan (Q : B -> Prop) :
  (forall res, runs plan (k res) Q) -> runs (cmd :: plan) (bind (run cmd ok_codes) k) Q.
Proof.
  intros Hk w. destruct (exec w cmd (files w)) as [res fs'] eqn:Hx.
  destruct (decide (returncode res ∈ ok_codes)) as [Hin|Hout].
  - rewrite (bind_ok _ _ _ _ _ (run_ok _ _ _ _ _ Hx Hin)).
    destruct (Hk res (after_run cmd fs' w)) as [Henv (n & Hn & HQ)]. split.
    + eapply same_env_trans; [apply after_run_env | exact Henv].
    + exists (S n). split.
      * rewrite Hn, commands_after_run. cbn. now rewrite <- app_assoc.
      * intros a Ha. destruct (HQ a Ha) as [-> Hq]. auto.
  - rewrite (bind_raise _ _ _ _ _ (run_fail _ _ _ _ _ Hx Hout)). cbn [fst snd]. split.
    + repeat split.
    + exists 1. split.
      * rewrite !commands_print_err, commands_print, commands_after_run. reflexivity.
      * intros a [=].
Qed.

(** Two planned steps in sequence. *)
Lemma runs_bind {A B} (c : M A) (k : A -> M B) plan1 plan2 (Q1 : A -> Prop) (Q2 : B -> Prop) :
  runs plan1 c Q1 -> (forall a, Q1 a -> runs plan2 (k a) Q2) ->
  runs (plan1 ++ plan2) (bind c k) Q2.
Proof.
  intros Hc Hk w. destruct (Hc w) as [Henv (n & Hn & HQ)]. unfold bind.
  destruct (c w) as [[a|e] w1]; cbn [fst snd] in *.
  - destruct (HQ a eq_refl) as [-> Hq].
    destruct (Hk a Hq w1) as [Henv' (m & Hm & HQ')]. split.
    + eapply same_env_trans; eassumption.
    + exists (length plan1 + m). split.
      * rewrite Hm, Hn, take_ge by lia. rewrite take_app_add'; [|reflexivity].
        now rewrite map_app, <- !app_assoc.
      * intros b Hb. destruct (HQ' b Hb) as [-> Hq']. rewrite length_app. auto.
  - split; [exact Henv|]. exists (n `min` length plan1). split.
    + rewrite Hn. f_equal. f_equal. rewrite take_app_le by lia.
      destruct (Nat.le_ge_cases n (length plan1)) as [H|H].
      * now rewrite Nat.min_l.
      * rewrite Nat.min_r by lia. now rewrite !take_ge by lia.
    + intros b [=].
Qed.

Lemma runs_weaken {A} (c : M A) plan (Q Q' : A -> Prop) :
  runs plan c Q -> (forall a, Q a -> Q' a) -> runs plan c Q'.
Proof.
  intros Hc HQ w. destruct (Hc w) as [Henv (n & Hn & H)]. split; [exact Henv|].
  exists n. split; [exact Hn|]. intros a Ha. destruct (H a Ha). auto.
Qed.

(** A tame step follows the empty plan. *)
Lemma runs_tame {A} (c : M A) : tame c -> runs [] c (fun _ => True).
Proof.
  intros Hc w. destruct (Hc w) as [Henv Hcmd]. split; [exact Henv|].
  exists 0. split; [cbn; now rewrite app_nil_r | auto].
Qed.

Lemma tame_write_bytes p data : tame (write_bytes p data).
Proof.
  apply tame_files. intros w. unfold write_bytes.
  destruct (lstat w p) as [[| |]|];
    try (destruct (files w !! parent_key (locate w p)) as [[| |]|]); cbn [snd]; eauto.
Qed.

Lemma tame_read_bytes p : tame (read_bytes p).
Proof. apply tame_read. intros w. unfold read_bytes. now destruct (lstat w p) as [[| |]|]. Qed.

Lemma tame_rglob p : tame (rglob p).
Proof. now apply tame_read. Qed.

Lemma tame_zip_archive members : tame (zip_archive members).
Proof. now apply tame_read. Qed.

Lemma tame_zip_dir src zip_path : tame (zip_dir src zip_path).
Proof.
  unfold zip_dir.
  repeat first [ apply tame_bind; [|intro] | apply tame_write_bytes | apply tame_rglob
               | apply tame_zip_archive ].
Qed.

Lemma tame_decode_first fname data encs : tame (decode_first fname data encs).
Proof.
  induction encs as [|enc encs IH]; cbn [decode_first].
  - apply tame_bind; [apply tame_print | intros _; now apply tame_read].
  - apply tame_bind; [now apply tame_read | intros [s|]]; [|exact IH].
    apply tame_bind; [apply tame_print | intros _; apply tame_ret].
Qed.

Lemma tame_read_text_flexible p : tame (read_text_flexible p).
Proof.
  unfold read_text_flexible. apply tame_bind; [apply tame_read_bytes | intros data].
  apply tame_decode_first.
Qed.

Lemma tame_render_readme root project_name : tame (render_readme_if_missing root project_name).
Proof.
  unfold render_readme_if_missing.
  apply tame_bind; [apply tame_exists | intros []].
  - apply tame_bind; [apply tame_print | intros _; apply tame_ret].
  - apply tame_bind; [apply tame_print | intros _].
    apply tame_bind; [apply tame_exists | intros has_tpl].
    apply tame_bind; [destruct has_tpl; [apply tame_read_text_flexible | apply tame_ret]
                     | intros tpl].
    apply tame_bind; [apply tame_exists | intros has_iso].
    apply tame_bind; [apply tame_write_bytes | intros _].
    apply tame_bind; [apply tame_print | intros _; apply tame_ret].
Qed.

(** *** The export steps *)

Lemma export_3d_runs kicad pcb_path out_dir make_glb :
  runs (plan_3d kicad pcb_path out_dir make_glb)
       (export_3d kicad pcb_path out_dir make_glb)
       (fun p => p = child out_dir (stem pcb_path +:+ ".step")).
Proof.
  unfold export_3d, plan_3d. apply runs_bind_ensure.
  apply runs_bind_run. intros _.
  apply runs_bind_tame; [apply tame_exists | intros produced].
  destruct produced; cbn [negb]; [|apply runs_raise].
  destruct make_glb.
  - apply (runs_bind _ _ [glb_cmd kicad pcb_path out_dir] [] (fun _ => True)).
    + apply runs_bind_run. intros _. now apply runs_ret.
    + intros _ _. now apply runs_ret.
  - apply runs_bind_tame; [apply tame_ret | intros _]. now apply runs_ret.
Qed.

Lemma export_pictures_runs kicad pcb_path out_dir iso :
  runs (plan_pictures kicad pcb_path out_dir iso)
       (export_pictures kicad pcb_path out_dir iso)
       (fun l => l = pictures pcb_path out_dir iso).
Proof.
  unfold export_pictures, plan_pictures, pictures. apply runs_bind_ensure.
  do 3 (apply runs_bind_run; intros _).
  destruct iso; [apply runs_bind_run; intros _|]; now apply runs_ret.
Qed.

Lemma export_docs_runs kicad sch_path pcb_path out_dir include_drc :
  runs (plan_docs kicad sch_path pcb_path out_dir include_drc)
       (export_docs kicad sch_path pcb_path out_dir include_drc)
       (fun r => r = docs sch_path pcb_path out_dir include_drc).
Proof.
  unfold export_docs, plan_docs, docs. apply runs_bind_ensure.
  do 3 (apply runs_bind_run; intros _).
  destruct include_drc; [apply runs_bind_run; intros _|]; now apply runs_ret.
Qed.

Lemma export_fab_runs kicad sch_path pcb_path out_dir zip_outputs :
  runs (plan_fab kicad sch_path pcb_path out_dir)
       (export_fab kicad sch_path pcb_path out_dir zip_outputs)
       (fun r => r = fab sch_path pcb_path out_dir zip_outputs).
Proof.
  unfold export_fab, plan_fab, fab. do 3 apply runs_bind_ensure.
  do 4 (apply runs_bind_run; intros _).
  destruct zip_outputs; [|now apply runs_ret].
  apply runs_bind_tame.
  { apply tame_try; [|intros _; apply tame_ret].
    apply tame_bind; [apply tame_exists | intros []];
      [apply tame_unlink | apply tame_ret]. }
  intros _. apply runs_bind_tame; [apply tame_zip_dir | intros _]. now apply runs_ret.
Qed.

(** *** Steps that stop at the first failing command *)

Lemma exec_after_mkdir p w : exec (mkdir p w).2 = exec w.
Proof. exact (proj1 (proj2 (proj2 (proj2 (proj2 (proj1 (tame_mkdir p w))))))). Qed.

Lemma commands_failed cmd res fs' w :
  commands (failed cmd res fs' w) = commands w ++ [Exec cmd].
Proof.
  unfold failed. now rewrite commands_print_err, commands_print, commands_after_run.
Qed.

Lemma completes_ret {A} ok (a : A) w : completes ok [] (ret a) a w w.
Proof. intros w' [= <-]. reflexivity. Qed.

Lemma completes_run {A} ok cmd plan (k : proc -> M A) (a : A) w :
  (forall res w1, completes ok plan (k res) a w1 w1) ->
  completes ok (cmd :: plan) (bind (run cmd ok) k) a w w.
Proof.
  intros Hk w'. cbn [after_all].
  destruct (exec w cmd (files w)) as [res fs'] eqn:Hx.
  destruct (bool_decide (returncode res ∈ ok)) eqn:Hb; [|discriminate].
  apply bool_decide_eq_true in Hb. intros Hw'.
  rewrite (bind_ok _ _ _ _ _ (run_ok _ _ _ _ _ Hx Hb)). now apply Hk.
Qed.

Lemma stops_nil {A} ok (c : M A) w : stops_at_failure ok [] c w w.
Proof. intros pre cmd post wi res fs' H. now destruct pre. Qed.

Lemma stops_run {A} ok cmd plan (k : proc -> M A) w :
  (forall res w1, stops_at_failure ok plan (k res) w1 w1) ->
  stops_at_failure ok (cmd :: plan) (bind (run cmd ok) k) w w.
Proof.
  intros Hk pre cmd' post wi res fs' Hplan Hpre Hx Hcode.
  destruct pre as [|c0 pre'].
  - cbn in Hplan, Hpre. injection Hplan as <- _. injection Hpre as <-.
    rewrite (bind_raise _ _ _ _ _ (run_fail _ _ _ _ _ Hx Hcode)). cbn [snd].
    split; [reflexivity|]. apply commands_failed.
  - cbn in Hplan. injection Hplan as <- Hplan. cbn [after_all] in Hpre.
    destruct (exec w cmd (files w)) as [r0 fs0] eqn:E0.
    destruct (bool_decide (returncode r0 ∈ ok)) eqn:Hb; [|discriminate].
    apply bool_decide_eq_true in Hb.
    rewrite (bind_ok _ _ _ _ _ (run_ok _ _ _ _ _ E0 Hb)).
    destruct (Hk r0 (after_run cmd fs0 w) pre' cmd' post wi res fs' Hplan Hpre Hx Hcode)
      as [-> Hc].
    cbn [snd] in *. split; [reflexivity|].
    rewrite commands_failed in *. rewrite commands_after_run in Hc.
    cbn [app map]. rewrite <- app_assoc in Hc. exact Hc.
Qed.

(** The step starts with [ensure_dir]: its commands start in the world
    that leaves. *)
Lemma completes_ensure {A} ok plan (p : Path) (k : Path -> M A) (a : A) w w1 :
  mkdir p w = (Ok tt, w1) ->
  completes ok plan (k p) a w1 w1 -> completes ok plan (bind (ensure_dir p) k) a w w1.
Proof.
  intros Hmk Hk w' Hw'. unfold ensure_dir.
  rewrite (bind_ok _ _ _ _ _ (bind_ok _ _ _ _ _ Hmk)). now apply Hk.
Qed.

Lemma stops_ensure {A} ok plan (p : Path) (k : Path -> M A) w w1 :
  mkdir p w = (Ok tt, w1) ->
  stops_at_failure ok plan (k p) w1 w1 -> stops_at_failure ok plan (bind (ensure_dir p) k) w w1.
Proof.
  intros Hmk Hk pre cmd post wi res fs' H1 H2 H3 H4. unfold ensure_dir.
  rewrite (bind_ok _ _ _ _ _ (bind_ok _ _ _ _ _ Hmk)). now apply (Hk pre cmd post).
Qed.

Lemma export_pictures_strict kicad pcb_path out_dir iso w w1 :
  mkdir out_dir w = (Ok tt, w1) ->
  completes [0%Z] (plan_pictures kicad pcb_path out_dir iso)
    (export_pictures kicad pcb_path out_dir iso) (pictures pcb_path out_dir iso) w w1
  /\ stops_at_failure [0%Z] (plan_pictures kicad pcb_path out_dir iso)
       (export_pictures kicad pcb_path out_dir iso) w w1.
Proof.
  intros Hmk. unfold export_pictures, plan_pictures, pictures. split.
  - apply (completes_ensure _ _ _ _ _ _ _ Hmk).
    do 3 (apply completes_run; intros ? ?).
    destruct iso; [apply completes_run; intros ? ?|]; apply completes_ret.
  - apply (stops_ensure _ _ _ _ _ _ Hmk).
    do 3 (apply stops_run; intros ? ?).
    destruct iso; [apply stops_run; intros ? ?|]; apply stops_nil.
Qed.

Lemma export_docs_strict kicad sch_path pcb_path out_dir include_drc w w1 :
  mkdir out_dir w = (Ok tt, w1) ->
  completes [0%Z] (plan_docs kicad sch_path pcb_path out_dir include_drc)
    (export_docs kicad sch_path pcb_path out_dir include_drc)
    (docs sch_path pcb_path out_dir include_drc) w w1
  /\ stops_at_failure [0%Z] (plan_docs kicad sch_path pcb_path out_dir include_drc)
       (export_docs kicad sch_path pcb_path out_dir include_drc) w w1.
Proof.
  intros Hmk. unfold export_docs, plan_docs, docs. split.
  - apply (completes_ensure _ _ _ _ _ _ _ Hmk).
    do 3 (apply completes_run; intros ? ?).
    destruct include_drc; [apply completes_run; intros ? ?|]; apply completes_ret.
  - apply (stops_ensure _ _ _ _ _ _ Hmk).
    do 3 (apply stops_run; intros ? ?).
    destruct include_drc; [apply stops_run; intros ? ?|]; apply stops_nil.
Qed.

Lemma export_fab_strict kicad sch_path pcb_path out_dir zip_outputs w wa wb w1 :
  mkdir out_dir w = (Ok tt, wa) ->
  mkdir (child out_dir "gerbers") wa = (Ok tt, wb) ->
  mkdir (child out_dir "drill") wb = (Ok tt, w1) ->
  (zip_outputs = false ->
   completes [0%Z] (plan_fab kicad sch_path pcb_path out_dir)
     (export_fab kicad sch_path pcb_path out_dir zip_outputs)
     (fab sch_path pcb_path out_dir zip_outputs) w w1)
  /\ stops_at_failure [0%Z] (plan_fab kicad sch_path pcb_path out_dir)
       (export_fab kicad sch_path pcb_path out_dir zip_outputs) w w1.
Proof.
  intros Ha Hb H1. unfold export_fab, plan_fab, fab, ensure_dir.
  assert (E : forall {A} (k : Path -> M A) p u v,
            mkdir p u = (Ok tt, v) -> bind (bind (mkdir p) (fun _ => ret p)) k u = k p v).
  { intros A k p u v H. now rewrite (bind_ok _ _ _ _ _ (bind_ok _ _ _ _ _ H)). }
  split.
  - intros ->. intros w' Hw'. rewrite (E _ _ _ _ _ Ha), (E _ _ _ _ _ Hb), (E _ _ _ _ _ H1).
    revert w' Hw'. do 4 (apply completes_run; intros ? ?). apply completes_ret.
  - intros pre cmd post wi res fs' P1 P2 P3 P4.
    rewrite (E _ _ _ _ _ Ha), (E _ _ _ _ _ Hb), (E _ _ _ _ _ H1).
    revert pre cmd post wi res fs' P1 P2 P3 P4.
    do 4 (apply stops_run; intros ? ?). apply stops_nil.
Qed.

(** The export steps of [main] without vendor packaging. *)
Lemma main_exports_runs args s :
  no_kikit args -> runs (plan_exports args s) (main_exports args s) (fun _ => True).
Proof.
  intros Hk. destruct s as [kc pr sch pcb rt d3 dp dd prod].
  unfold main_exports, plan_exports. cbn [kicad sch_path pcb_path three_d_dir pics_dir
                                          docs_dir prod_root].
  eapply runs_bind; [apply export_3d_runs | intros _ _].
  eapply runs_bind; [apply export_pictures_runs | intros _ _].
  eapply runs_bind; [apply export_docs_runs | intros _ _].
  rewrite <- (app_nil_r (plan_fab kc sch pcb prod)).
  eapply runs_bind; [apply export_fab_runs | intros _ _].
  apply runs_bind_tame.
  { destruct Hk as [-> | ->]; cbn; apply tame_ret. }
  intros _. apply runs_bind_tame; [apply tame_render_readme | intros _].
  do 4 (apply runs_bind_tame; [apply tame_print | intros _]).
  apply runs_weaken with (Q := fun _ => True); [|auto].
  apply runs_tame, tame_print.
Qed.

End PlanFacts.

(** ** Facts about names, suffixes and [project_paths] *)

Module PathFacts.
Import Text Pathlib Py BuildOutputs Props Plan FsFacts.
Local Open Scope py_scope.

Lemma name_child d n : name (child d n) = n.
Proof. unfold name, child. cbn [names]. apply last_last. Qed.

Lemma rsplit_dot_no_dot e : no_dot e = true -> rsplit_dot e = None.
Proof.
  induction e as [|c e IH]; [reflexivity|]. cbn [no_dot Text.forallb rsplit_dot].
  intros H. apply andb_true_iff in H as [Hc He]. rewrite (IH He).
  apply negb_true_iff in Hc. now rewrite Hc.
Qed.

(** The last dot of [n.e], when [e] has no dot, is the one before [e]. *)
Lemma rsplit_dot_ext n e :
  no_dot e = true -> rsplit_dot (n +:+ String "." e) = Some (n, String "." e).
Proof.
  intros He. induction n as [|c n IH]; cbn [String.append rsplit_dot].
  - now rewrite (rsplit_dot_no_dot e He).
  - now rewrite IH.
Qed.

Lemma suffix_ext d n e :
  n <> "" -> e <> "" -> no_dot e = true ->
  suffix (child d (n +:+ String "." e)) = String "." e
  /\ stem (child d (n +:+ String "." e)) = n.
Proof.
  intros Hn He Hd. unfold suffix, stem. rewrite name_child, (rsplit_dot_ext n e Hd).
  destruct n as [|c n]; [congruence|]. destruct e as [|c' e]; [congruence|].
  split; reflexivity.
Qed.

Lemma stem_no_dot d n : no_dot n = true -> stem (child d n) = n /\ suffix (child d n) = "".
Proof.
  intros H. unfold stem, suffix. rewrite name_child, (rsplit_dot_no_dot n H). auto.
Qed.

Lemma with_suffix_child d n sfx :
  n <> "" -> with_suffix (child d n) sfx = Some (child d (stem (child d n) +:+ sfx)).
Proof.
  intros Hn. unfold with_suffix. rewrite name_child.
  destruct (String.eqb_spec n ""); [congruence|].
  generalize (stem (child d n) +:+ sfx). intros m.
  unfold with_name, child. cbn [names anchor].
  destruct (names d ++ [n]) eqn:E; [now destruct (names d)|].
  rewrite <- E, removelast_last. reflexivity.
Qed.

(** Every path with a name is a directory and that name. *)
Lemma path_is_child p : name p <> "" -> exists d, p = child d (name p).
Proof.
  intros Hn. destruct p as [a l]. unfold name in *. cbn [names] in *.
  destruct (exists_last (l := l)) as (l' & x & ->).
  { intros ->. now apply Hn. }
  rewrite last_last. now exists (mkPath a l').
Qed.

(** [project_paths] unfolded at its stem path. *)
Lemma project_paths_at_stem (p st : Path) (n : string) (d : Path) w :
  st = child d n -> n <> "" ->
  (if String.eqb (lower (suffix p)) ".kicad_pro" then with_suffix p "" else Some p) = Some st ->
  project_paths p w =
    let sch := child d (stem st +:+ ".kicad_sch") in
    let pcb := child d (stem st +:+ ".kicad_pcb") in
    if bool_decide (is_Some (lstat w sch)) then
      if bool_decide (is_Some (lstat w pcb)) then (Ok (n, sch, pcb), w)
      else (Raise (mkExn FileNotFoundError ("Board not found: " +:+ path_str pcb)), w)
    else (Raise (mkExn FileNotFoundError ("Schematic not found: " +:+ path_str sch)), w).
Proof.
  intros -> Hn Hst. unfold project_paths.
  assert (Hfirst : (if String.eqb (lower (suffix p)) ".kicad_pro"
                    then lift_option (with_suffix p "") ValueError "empty name"
                    else ret p) w = (Ok (child d n), w)).
  { destruct (String.eqb (lower (suffix p)) ".kicad_pro"); [rewrite Hst | injection Hst as ->];
      reflexivity. }
  rewrite (bind_ok _ _ _ _ _ Hfirst).
  rewrite !(with_suffix_child d n _ Hn). unfold lift_option, bind, ret, exists_, raise.
  rewrite name_child.
  destruct (bool_decide _); [|reflexivity]. cbn [negb].
  destruct (bool_decide _); reflexivity.
Qed.

(** Where [project_paths] gets past its path arithmetic, it has a stem
    path with a name. *)
Lemma project_paths_stem (p : Path) w :
  (exists e, project_paths p w = (Raise e, w) /\ exn_cls e = ValueError)
  \/ exists d n, n <> ""
       /\ (if String.eqb (lower (suffix p)) ".kicad_pro" then with_suffix p "" else Some p)
          = Some (child d n).
Proof.
  assert (Hws : forall q sfx, with_suffix q sfx = None \/
                  exists d n, n <> "" /\ with_suffix q sfx = Some (child d n)).
  { intros q sfx. destruct (String.eqb_spec (name q) "") as [He|Hne].
    - left. unfold with_suffix. now rewrite He.
    - right. destruct (path_is_child q Hne) as [d Hd].
      exists d, (stem q +:+ sfx). split.
      + assert (Hs : stem q <> "").
        { unfold stem. destruct (rsplit_dot (name q)) as [[a b]|]; [|exact Hne].
          destruct (_ && _) eqn:C; [|exact Hne].
          apply andb_true_iff in C as [C _]. destruct a; [discriminate C | discriminate]. }
        destruct (stem q); [congruence | discriminate].
      + pose proof (with_suffix_child d (name q) sfx Hne) as H.
        rewrite <- Hd in H. exact H. }
  unfold project_paths.
  destruct (String.eqb (lower (suffix p)) ".kicad_pro").
  - destruct (Hws p "") as [Hn | (d & n & Hn & H)].
    + left. rewrite Hn. eexists. split; reflexivity.
    + right. eauto.
  - destruct (String.eqb_spec (name p) "") as [He|Hne].
    + left. unfold bind at 1. unfold ret at 1. unfold with_suffix. rewrite He. cbn.
      eexists. split; reflexivity.
    + right. destruct (path_is_child p Hne) as [d Hd]. exists d, (name p).
      split; [exact Hne | now rewrite <- Hd].
Qed.

End PathFacts.

(** ** The clean-up loops, entry by entry *)

Module LoopFacts.
Import Text Pathlib Py BuildOutputs Props Plan FsFacts ClearFacts ClearDirFacts KikitFacts.
Local Open Scope py_scope.


Lemma refused_same w w1 k :
  same_env w w1 -> files w1 !! k = files w !! k -> refused w1 k = refused w k.
Proof.
  intros Henv Hk. unfold refused. rewrite Hk, (pinned_env _ _ _ Henv).
  destruct Henv as (_ & -> & _). reflexivity.
Qed.

Section Loops.
Variable path : Path.
Variable k : list string.


(** The loop of [run_kikit_fab] where no removal is refused: it completes
    silently, every listed entry is gone, the rest is as before. *)
Lemma kikit_loop_ok names : forall w,
  locate w path = k ->
  NoDup names ->
  (forall m, m ∈ names -> is_Some (files w !! (k ++ [m]))) ->
  (forall m, m ∈ names -> refused w (k ++ [m]) = false) ->
  exists fs',
    for_each (map (child path) names) (fun e => remove_entry e true) w
    = (Ok tt, set_files fs' w)
    /\ (forall k', (forall m, m ∈ names -> ~ (k ++ [m]) `prefix_of` k') ->
                   fs' !! k' = files w !! k')
    /\ (forall m, m ∈ names -> fs' !! (k ++ [m]) = None).
Proof.
  induction names as [|n ns IH]; intros w Hk Hnd Hall Hnone.
  - exists (files w). cbn. split; [now destruct w|]. split; [auto|].
    intros m Hm. inversion Hm.
  - apply NoDup_cons in Hnd as [Hn Hnd]. cbn [map for_each].
    assert (Hother : forall m, m ∈ ns -> ~ (k ++ [n]) `prefix_of` (k ++ [m])).
    { intros m Hm Hp. apply snoc_prefix_inj in Hp. congruence. }
    assert (Hother' : forall m, m ∈ ns -> ~ (k ++ [m]) `prefix_of` (k ++ [n])).
    { intros m Hm Hp. apply snoc_prefix_inj in Hp. congruence. }
    assert (Hpres : is_Some (files w !! locate w (child path n)))
      by (rewrite locate_child, Hk; apply Hall; now left).
    assert (Href' : refused w (locate w (child path n)) = false)
      by (rewrite locate_child, Hk; apply Hnone; now left).
    destruct (remove_entry_ok (child path n) true w Hpres Href')
      as (fs1 & Hr & Hgone1 & _ & Hout1).
    rewrite locate_child, Hk in Hgone1, Hout1.
    rewrite (bind_ok _ _ _ _ _ Hr).
    set (w1 := set_files fs1 w) in *.
    assert (Henv : same_env w w1) by apply same_env_set_files.
    assert (Hsame : forall m, m ∈ ns -> files w1 !! (k ++ [m]) = files w !! (k ++ [m])).
    { intros m Hm. apply Hout1. now apply Hother. }
    destruct (IH w1) as (fs' & Hl & Hout & Hgone).
    { now rewrite (locate_env _ _ _ Henv). }
    { exact Hnd. }
    { intros m Hm. rewrite (Hsame m Hm). apply Hall. now right. }
    { intros m Hm. rewrite (refused_same w w1); [apply Hnone; now right | exact Henv |].
      now apply Hsame. }
    exists fs'. split; [exact Hl|]. split.
    + intros k' Hk'. rewrite Hout.
      * apply Hout1. apply Hk'. now left.
      * intros m Hm. apply Hk'. now right.
    + intros m Hm. apply elem_of_cons in Hm as [->|Hm].
      * rewrite Hout; [exact Hgone1 | exact Hother'].
      * now apply Hgone.
Qed.

End Loops.

End LoopFacts.
(** ** Steps that keep the files, steps confined to one entry, text *)

Module KeepFacts.
Import Text Pathlib Py BuildOutputs Props Plan FsFacts ClearFacts ClearDirFacts
  ReadmeFacts TameFacts.
Local Open Scope py_scope.

Lemma keeps_read {A} (c : M A) : (forall w, (c w).2 = w) -> keeps c.
Proof. intros H w. rewrite H. apply kept_refl. Qed.

Lemma keeps_ret {A} (a : A) : keeps (ret a).
Proof. now apply keeps_read. Qed.

Lemma keeps_raise {A} cls msg : keeps (@raise A cls msg).
Proof. now apply keeps_read. Qed.

Lemma keeps_print msg : keeps (print msg).
Proof. intros w. apply kept_refl. Qed.

Lemma keeps_bind {A B} (c : M A) (k : A -> M B) :
  keeps c -> (forall a, keeps (k a)) -> keeps (bind c k).
Proof.
  intros Hc Hk w. unfold bind. specialize (Hc w).
  destruct (c w) as [[a|e] w1]; cbn [snd] in *; [|exact Hc].
  exact (kept_trans _ _ _ Hc (Hk a w1)).
Qed.

Lemma keeps_lift_option {A} (o : option A) cls msg : keeps (lift_option o cls msg).
Proof. destruct o; [apply keeps_ret | apply keeps_raise]. Qed.

Lemma keeps_exists p : keeps (exists_ p).
Proof. now apply keeps_read. Qed.

Lemma keeps_is_file p : keeps (is_file p).
Proof. now apply keeps_read. Qed.

Lemma keeps_which n : keeps (which n).
Proof. now apply keeps_read. Qed.

Lemma keeps_resolve p : keeps (resolve_ p).
Proof. now apply keeps_read. Qed.

Lemma keeps_datetime_now : keeps datetime_now.
Proof. now apply keeps_read. Qed.

Lemma keeps_mkdir p : keeps (mkdir p).
Proof.
  intros w. destruct (mkdir_result p w) as (r & w1 & -> & _ & _ & Hk). exact Hk.
Qed.

Create HintDb keeps.
#[local] Hint Resolve keeps_ret keeps_raise keeps_print keeps_lift_option keeps_exists
  keeps_is_file keeps_which keeps_resolve keeps_datetime_now keeps_mkdir : keeps.

Ltac keeps_step :=
  first [ apply keeps_bind; [|intro]
        | match goal with
          | |- keeps (if ?b then _ else _) => destruct b
          | |- keeps (match ?o with Some _ => _ | None => _ end) => destruct o
          end
        | solve [auto with keeps] ].

Lemma keeps_ensure_dir p : keeps (ensure_dir p).
Proof. unfold ensure_dir. repeat keeps_step. Qed.

Lemma keeps_which_kicad_cli : keeps which_kicad_cli.
Proof. unfold which_kicad_cli. repeat keeps_step. Qed.

Lemma keeps_project_paths p : keeps (project_paths p).
Proof. unfold project_paths. repeat keeps_step. Qed.

Lemma keeps_production_root args root proj :
  no_timestamp args = false -> keeps (production_root args root proj).
Proof.
  intros H. unfold production_root, timestamp_tag. rewrite H.
  repeat first [ apply keeps_ensure_dir | keeps_step ].
Qed.

Lemma keeps_main_setup args : no_timestamp args = false -> keeps (main_setup args).
Proof.
  intros H. unfold main_setup.
  apply keeps_bind; [apply keeps_which_kicad_cli | intros kicad].
  apply keeps_bind; [apply keeps_project_paths | intros [[proj sch] pcb]].
  repeat first [ apply (keeps_production_root _ _ _ H) | apply keeps_ensure_dir | keeps_step ].
Qed.

(** A step that succeeds hands its result and its world to what follows. *)
Lemma bind_ok_inv {A B} (c : M A) (k : A -> M B) w b :
  (bind c k w).1 = Ok b -> exists a, (c w).1 = Ok a /\ bind c k w = k a (c w).2.
Proof.
  unfold bind. destruct (c w) as [[a|e] w1]; [|discriminate].
  intros _. exists a. split; reflexivity.
Qed.

(** A directory stays one through a step that runs nothing and keeps the files. *)
Lemma dir_stays {A} (c : M A) w d :
  tame c -> keeps c -> lstat w d = Some Dir -> lstat (c w).2 d = Some Dir.
Proof.
  intros Ht Hk Hd. unfold lstat in *. rewrite (locate_env _ _ _ (proj1 (Ht w))).
  now apply Hk.
Qed.

Lemma ensure_dir_ok p w q :
  (ensure_dir p w).1 = Ok q -> q = p /\ lstat (ensure_dir p w).2 p = Some Dir.
Proof.
  unfold ensure_dir, bind, ret. destruct (mkdir p w) as [[[]|e] w1] eqn:E; [|discriminate].
  intros [= <-]. split; [reflexivity|]. cbn [snd].
  destruct (mkdir_ok _ _ _ E) as (fs1 & Hw1 & Hdir & _).
  assert (Henv : same_env w w1) by (rewrite Hw1; apply same_env_set_files).
  unfold lstat. rewrite (locate_env _ _ _ Henv), Hw1. exact Hdir.
Qed.

(** *** The production folder *)






(** *** Steps confined to one entry *)

Lemma confined_read {A} w0 k (c : M A) : (forall w, (c w).2 = w) -> confined w0 k c.
Proof. intros H w Henv. rewrite H. split; [exact Henv | reflexivity]. Qed.

Lemma confined_print w0 k msg : confined w0 k (print msg).
Proof.
  intros w Henv. split; [|reflexivity].
  exact (same_env_trans _ _ _ Henv (same_env_add_event _ _)).
Qed.

Lemma confined_bind {A B} w0 k0 (c : M A) (k : A -> M B) :
  confined w0 k0 c -> (forall a, confined w0 k0 (k a)) -> confined w0 k0 (bind c k).
Proof.
  intros Hc Hk w Henv. unfold bind. specialize (Hc w Henv).
  destruct (c w) as [[a|e] w1]; cbn [snd] in *; [|exact Hc].
  destruct Hc as [He Hf]. destruct (Hk a w1 He) as [He' Hf'].
  split; [exact He'|]. intros k' Hk'. now rewrite Hf', Hf.
Qed.

Lemma confined_write_bytes w0 p data : confined w0 (locate w0 p) (write_bytes p data).
Proof.
  intros w Henv. unfold write_bytes.
  destruct (lstat w p) as [[| |]|]; try (split; [exact Henv | reflexivity]);
    (destruct (files w !! parent_key (locate w p)) as [[| |]|];
       try (split; [exact Henv | reflexivity]));
    (split; [exact (same_env_trans _ _ _ Henv (same_env_set_files _ _))|];
     intros k' Hk'; cbn [snd files set_files];
     rewrite (locate_env _ _ _ Henv); now apply lookup_insert_ne).
Qed.

Lemma confined_read_text_flexible w0 k p : confined w0 k (read_text_flexible p).
Proof.
  intros w Henv. destruct (read_text_flexible_spec p w) as (r & w' & -> & He & Hf).
  cbn [snd]. split; [exact (same_env_trans _ _ _ Henv He) | now rewrite Hf].
Qed.

(** *** Text *)

Lemma sub_runs_class s : forall b, Text.forallb _sanitize_vendor_char (sub_runs b s) = true.
Proof.
  induction s as [|c s IH]; intros b; [reflexivity|]. cbn [sub_runs].
  destruct (_sanitize_vendor_char c) eqn:E.
  - cbn [Text.forallb]. now rewrite E, IH.
  - destruct b; [apply IH|]. cbn [Text.forallb]. now rewrite IH.
Qed.

Lemma lower_char_not_upper c : is_upper (lower_char c) = false.
Proof. destruct c as [[] [] [] [] [] [] [] []]; vm_compute; reflexivity. Qed.

Lemma lower_no_upper s : Text.forallb (fun c => negb (is_upper c)) (lower s) = true.
Proof.
  induction s as [|c s IH]; [reflexivity|]. cbn [lower Text.forallb].
  now rewrite lower_char_not_upper, IH.
Qed.

Lemma sub_runs_no_upper s : forall b,
  Text.forallb (fun c => negb (is_upper c)) s = true ->
  Text.forallb (fun c => negb (is_upper c)) (sub_runs b s) = true.
Proof.
  induction s as [|c s IH]; intros b H; [reflexivity|]. cbn [sub_runs Text.forallb] in *.
  apply andb_true_iff in H as [Hc Hs].
  destruct (_sanitize_vendor_char c).
  - cbn [Text.forallb]. now rewrite Hc, IH.
  - destruct b; [now apply IH|]. cbn [Text.forallb]. now rewrite IH.
Qed.

Lemma lower_fix s : Text.forallb (fun c => negb (is_upper c)) s = true -> lower s = s.
Proof.
  induction s as [|c s IH]; [reflexivity|]. cbn [lower Text.forallb].
  intros H. apply andb_true_iff in H as [Hc Hs]. rewrite (IH Hs).
  unfold lower_char. apply negb_true_iff in Hc. now rewrite Hc.
Qed.

Lemma safe_char_iff c :
  safe_char c = _sanitize_vendor_char c && negb (is_upper c).
Proof. destruct c as [[] [] [] [] [] [] [] []]; vm_compute; reflexivity. Qed.

Lemma forallb_and p q s :
  Text.forallb p s = true -> Text.forallb q s = true ->
  Text.forallb (fun c => p c && q c) s = true.
Proof.
  induction s as [|c s IH]; [reflexivity|]. cbn [Text.forallb].
  intros H1 H2. apply andb_true_iff in H1 as [-> H1]. apply andb_true_iff in H2 as [-> H2].
  now rewrite IH.
Qed.

Lemma forallb_ext p q s : (forall c, p c = q c) -> Text.forallb p s = Text.forallb q s.
Proof. intros H. induction s as [|c s IH]; [reflexivity|]. cbn. now rewrite H, IH. Qed.

(** A text without the delimiter is rendered verbatim. *)
Lemma safe_substitute_no_delim (mapping : gmap string string) (tpl : string) :
  Text.forallb (fun c => negb (Ascii.eqb c Template.dollar)) tpl = true ->
  Template.safe_substitute mapping tpl = tpl.
Proof.
  induction tpl as [|c r IH]; [reflexivity|]. cbn [Text.forallb].
  intros H. apply andb_true_iff in H as [Hc Hr]. apply negb_true_iff in Hc.
  now rewrite (TemplateFacts.safe_substitute_char _ _ _ Hc), (IH Hr).
Qed.

(** The loop over the encodings skips those that do not decode. *)
Lemma decode_first_skip fname data pre rest w :
  Forall (fun e => decode w e data = None) pre ->
  decode_first fname data (pre ++ rest) w = decode_first fname data rest w.
Proof.
  induction 1 as [|e pre He _ IH]; [reflexivity|].
  cbn [app decode_first]. unfold bind at 1. unfold bytes_decode. now rewrite He.
Qed.

(** A listing that leaves out the key [k] does not see what is stored at [k]. *)
Lemma omap_insert_skip {B} (f : list string * node -> option B)
    (m : gmap (list string) node) k v :
  (forall x, f (k, x) = None) ->
  omap f (map_to_list (<[k := v]> m)) ≡ₚ omap f (map_to_list m).
Proof.
  intros Hf. destruct (m !! k) as [old|] eqn:E.
  - rewrite <- (insert_delete_eq m k v).
    rewrite (map_to_list_insert (delete k m) k v) by apply lookup_delete_eq.
    rewrite <- (map_to_list_delete m k old E). cbn [omap list_omap].
    now rewrite !Hf.
  - rewrite (map_to_list_insert m k v E). cbn [omap list_omap]. now rewrite Hf.
Qed.

End KeepFacts.

(** * The claims *)

Import Text Pathlib Py BuildOutputs Props Samples.
Import TemplateFacts FsFacts ClearFacts ClearDirFacts ReadmeFacts TameFacts ExportFacts StampFacts KikitFacts.
Import KeepFacts.
Local Open Scope py_scope.

(** ** Output staging: [clear_dir] *)




(** ** Template substitution *)

(** C9.  Template substitution leaves the literal text of a placeholder
    whose name is not in the mapping unchanged in the output: for a
    template [pre ++ placeholder ++ post] (the placeholder in either form,
    not directly preceded by a delimiter) the output is the substitution of
    [pre], the literal placeholder, the substitution of [post].
    [safe_substitute] is a total function: no input makes it fail. *)
Theorem safe_substitute_keeps_unresolved
    (mapping : gmap string string) (pre : string) (ph : Template.mo) (post : string) :
  placeholder_at ph post = true ->
  unresolved mapping ph ->
  ends_with_delim pre = false ->
  Template.safe_substitute mapping (pre +:+ Template.group ph +:+ post)
  = Template.safe_substitute mapping pre +:+ Template.group ph
    +:+ Template.safe_substitute mapping post.
Proof.
  intros Hph Hun Hpre. rewrite (safe_substitute_placeholder mapping pre ph post Hph Hpre).
  assert (Template.convert mapping ph = Template.group ph) as ->; [|reflexivity].
  destruct ph as [|n|n|]; try discriminate Hph; cbn [unresolved] in Hun;
    unfold Template.convert; now rewrite Hun.
Qed.

Lemma safe_substitute_keeps_unresolved_witness :
  Template.safe_substitute {[ "A" := "x" ]} ("a ${A} " +:+ "${B}" +:+ " $A.")
  = Template.safe_substitute {[ "A" := "x" ]} "a ${A} " +:+ "${B}"
    +:+ Template.safe_substitute {[ "A" := "x" ]} " $A.".
Proof.
  apply (safe_substitute_keeps_unresolved {[ "A" := "x" ]} "a ${A} " (Template.Braced "B") " $A.").
  - reflexivity.
  - vm_compute. reflexivity.
  - reflexivity.
Defined.

(** ** The summary document *)

(** C6.  Where the summary document exists, the summary-document step
    does not change the file system, so the document is byte for byte
    the same after any number [n] of invocations; each invocation just
    returns the path of the document. *)
Theorem render_readme_idempotent (root : Path) (project_name : string) (w : World) (n : nat) :
  is_Some (lstat w (child root "README.md")) ->
  files (repeat_run n (render_readme_if_missing root project_name) w) = files w
  /\ lstat (repeat_run n (render_readme_if_missing root project_name) w)
           (child root "README.md")
     = lstat w (child root "README.md")
  /\ (render_readme_if_missing root project_name
        (repeat_run n (render_readme_if_missing root project_name) w)).1
     = Ok (child root "README.md").
Proof.
  revert w. induction n as [|n IH]; intros w H.
  - cbn [repeat_run]. rewrite (render_readme_present _ _ _ H). auto.
  - cbn [repeat_run]. rewrite (render_readme_present _ _ _ H). cbn [snd].
    apply (IH (add_event _ w)). exact H.
Qed.

Lemma render_readme_idempotent_witness :
  lstat (repeat_run 3 (render_readme_if_missing (mkPath "" []) "b") w_readme)
        (child (mkPath "" []) "README.md")
  = Some (File "my notes").
Proof.
  refine (eq_trans (proj1 (proj2 (render_readme_idempotent (mkPath "" []) "b" w_readme 3 _))) _).
  - vm_compute. eauto.
  - vm_compute. reflexivity.
Defined.

(** The document generated from the built-in template. *)
Lemma default_readme_rendered (project_name header : string) :
  Template.safe_substitute (readme_subs project_name header) DEFAULT_README_TEMPLATE
  = "# " +:+ project_name +:+ "

![HEADER](./PICTURES/" +:+ header +:+ ") <!-- 3D rendered pretty view -->

INFO INFO

[PCB layout](./DOCUMENTATION/" +:+ (project_name +:+ "_board_prints.pdf") +:+ ") <!-- PDFs of boards -->
[SCHEMATIC](./DOCUMENTATION/" +:+ (project_name +:+ "_schematic.pdf") +:+ ") <!-- Schematic PDFs -->

## FRONT
![Front](./PICTURES/" +:+ (project_name +:+ "_top.png") +:+ ")

## BACK
![Back](./PICTURES/" +:+ (project_name +:+ "_bottom.png") +:+ ")

## SIDE
![Side](./PICTURES/" +:+ (project_name +:+ "_side.png") +:+ ")

# Before major commmits
Remember to run generate_outputs.bat/sh
to update the outputs and pictures.
".
Proof. vm_compute. reflexivity. Qed.



(** ** The 3D export *)

(** C5.  The STEP export accepts the exit codes 0 and 2, and then looks
    for the STEP file.  With [main] past its set-up and the tool exiting
    with 0 or 2: if the file is there the 3D step (without GLB) returns its
    path; if the file is missing, [main] fails with the error of the 3D
    step, the STEP export is the only command the run has executed, and
    the script exits with status 1. *)
Theorem step_export_checks_file (args : Args) (w w1 w2 : World) (s : Setup)
    (res : proc) (fs2 : gmap (list string) node) :
  main_setup args w = (Ok s, w1) ->
  mkdir (three_d_dir s) w1 = (Ok tt, w2) ->
  exec w (step_cmd (kicad s) (pcb_path s) (three_d_dir s)) (files w2) = (res, fs2) ->
  (returncode res = 0 \/ returncode res = 2)%Z ->
  let step_out := child (three_d_dir s) (stem (pcb_path s) +:+ ".step") in
  (is_Some (fs2 !! locate w step_out) ->
     (export_3d (kicad s) (pcb_path s) (three_d_dir s) false w1).1 = Ok step_out)
  /\ (fs2 !! locate w step_out = None ->
      (main args w).1 = Raise (mkExn RuntimeError "STEP export did not produce a file.")
      /\ commands (main args w).2
         = commands w ++ [Exec (step_cmd (kicad s) (pcb_path s) (three_d_dir s))]
      /\ (script args w).1 = 1%Z).
Proof.
  intros Hsetup Hmk Hx Hcode step_out.
  destruct (tame_main_setup args w) as [Henv Hcmd]. rewrite Hsetup in Henv, Hcmd.
  cbn [snd] in Henv, Hcmd.
  assert (Hx1 : exec w1 (step_cmd (kicad s) (pcb_path s) (three_d_dir s)) (files w2)
                = (res, fs2)).
  { destruct Henv as (_ & _ & _ & _ & -> & _). exact Hx. }
  split.
  - intros Hsome. rewrite <- (locate_env _ _ _ Henv) in Hsome.
    now rewrite (export_3d_accepts _ _ _ _ _ _ _ Hmk Hx1 Hcode Hsome).
  - intros Hnone. rewrite <- (locate_env _ _ _ Henv) in Hnone.
    pose proof (export_3d_no_file (kicad s) (pcb_path s) (three_d_dir s) (glb args)
                  _ _ _ _ Hmk Hx1 Hcode Hnone) as H3d.
    assert (Hmain : main args w
                    = (Raise (mkExn RuntimeError "STEP export did not produce a file."),
                       after_run (step_cmd (kicad s) (pcb_path s) (three_d_dir s)) fs2 w2)).
    { unfold main. rewrite (bind_ok _ _ _ _ _ Hsetup).
      destruct s. unfold main_exports. now rewrite (bind_raise _ _ _ _ _ H3d). }
    unfold script. rewrite Hmain. cbn [fst snd]. split; [reflexivity|].
    split; [|reflexivity].
    rewrite commands_after_run. f_equal.
    destruct (mkdir_ok _ _ _ Hmk) as (fs1 & -> & _). exact Hcmd.
Qed.

Lemma step_export_checks_file_witness :
  (main args_b w_no_step).1 = Raise (mkExn RuntimeError "STEP export did not produce a file.")
  /\ (script args_b w_no_step).1 = 1%Z.
Proof.
  pose (s := mkSetup (mkPath "/" ["usr"; "bin"; "kicad-cli"]) "b"
               (mkPath "" ["CAD"; "b.kicad_sch"]) (mkPath "" ["CAD"; "b.kicad_pcb"])
               (mkPath "/" ["r"]) (mkPath "/" ["r"; "3D_MODEL"])
               (mkPath "/" ["r"; "PICTURES"]) (mkPath "/" ["r"; "DOCUMENTATION"])
               (mkPath "/" ["r"; "PRODUCTION"; "20250115_1342_b"])).
  pose (w1 := (main_setup args_b w_no_step).2).
  pose (w2 := (mkdir (three_d_dir s) w1).2).
  pose (out := exec w_no_step (step_cmd (kicad s) (pcb_path s) (three_d_dir s)) (files w2)).
  assert (H1 : main_setup args_b w_no_step = (Ok s, w1))
    by (refine (run_split (main_setup args_b) w_no_step (Ok s) _); vm_compute; reflexivity).
  assert (H2 : mkdir (three_d_dir s) w1 = (Ok tt, w2))
    by (refine (run_split (mkdir (three_d_dir s)) w1 (Ok tt) _); vm_compute; reflexivity).
  assert (H3 : exec w_no_step (step_cmd (kicad s) (pcb_path s) (three_d_dir s)) (files w2)
               = (out.1, out.2)) by apply surjective_pairing.
  assert (H4 : (returncode out.1 = 0 \/ returncode out.1 = 2)%Z)
    by (right; vm_compute; reflexivity).
  assert (H5 : out.2 !! locate w_no_step (child (three_d_dir s) (stem (pcb_path s) +:+ ".step"))
               = None) by (vm_compute; reflexivity).
  destruct (step_export_checks_file args_b w_no_step w1 w2 s out.1 out.2 H1 H2 H3 H4)
    as [_ H].
  destruct (H H5) as (Ha & _ & Hc). split; assumption.
Defined.

(** C10.  With GLB requested, the GLB export accepts the exit codes 0 and
    2 like the STEP export, and nothing looks for the GLB file afterwards:
    once the STEP file is there, the 3D step returns the STEP path whatever
    files [fs2] the GLB command leaves, also when the GLB file is not among
    them. *)
Theorem glb_export_unverified (kicad pcb_path out_dir : Path) (w w1 : World)
    (res1 res2 : proc) (fs1 fs2 : gmap (list string) node) :
  mkdir out_dir w = (Ok tt, w1) ->
  exec w (step_cmd kicad pcb_path out_dir) (files w1) = (res1, fs1) ->
  (returncode res1 = 0 \/ returncode res1 = 2)%Z ->
  is_Some (fs1 !! locate w (child out_dir (stem pcb_path +:+ ".step"))) ->
  exec w (glb_cmd kicad pcb_path out_dir) fs1 = (res2, fs2) ->
  (returncode res2 = 0 \/ returncode res2 = 2)%Z ->
  export_3d kicad pcb_path out_dir true w
  = (Ok (child out_dir (stem pcb_path +:+ ".step")),
     after_run (glb_cmd kicad pcb_path out_dir) fs2
       (after_run (step_cmd kicad pcb_path out_dir) fs1 w1)).
Proof.
  intros Hmk Hx1 Hc1 Hsome Hx2 Hc2.
  destruct (mkdir_ok _ _ _ Hmk) as (fs0 & Hw1 & _).
  assert (Henv : same_env w w1) by (rewrite Hw1; apply same_env_set_files).
  unfold export_3d, ensure_dir.
  rewrite (bind_ok _ _ _ _ _ (bind_ok _ _ _ _ _ Hmk)). unfold ret at 1.
  fold (step_cmd kicad pcb_path out_dir). fold (glb_cmd kicad pcb_path out_dir).
  assert (Hx1' : exec w1 (step_cmd kicad pcb_path out_dir) (files w1) = (res1, fs1)).
  { destruct Henv as (_ & _ & _ & _ & -> & _). exact Hx1. }
  rewrite (bind_ok _ _ _ _ _ (run_ok _ [0; 2]%Z _ _ _ Hx1' (proj1 (tolerated _) Hc1))).
  set (w2 := after_run (step_cmd kicad pcb_path out_dir) fs1 w1).
  assert (Henv2 : same_env w w2)
    by exact (same_env_trans _ _ _ Henv (after_run_env _ _ _)).
  unfold bind at 1. unfold exists_ at 1. unfold lstat.
  rewrite (locate_env _ _ _ Henv2). change (files w2) with fs1.
  rewrite bool_decide_eq_true_2 by exact Hsome. cbn [negb].
  assert (Hx2' : exec w2 (glb_cmd kicad pcb_path out_dir) (files w2) = (res2, fs2)).
  { destruct Henv2 as (_ & _ & _ & _ & -> & _). exact Hx2. }
  rewrite (bind_ok _ _ _ _ _
             (bind_ok _ _ _ _ _ (run_ok _ [0; 2]%Z _ _ _ Hx2' (proj1 (tolerated _) Hc2)))).
  reflexivity.
Qed.

Lemma glb_export_unverified_witness :
  (export_3d (mkPath "/" ["usr"; "bin"; "kicad-cli"]) (mkPath "" ["CAD"; "b.kicad_pcb"])
             (mkPath "/" ["r"; "3D_MODEL"]) true w_step_only).1
  = Ok (mkPath "/" ["r"; "3D_MODEL"; "b.step"])
  /\ files (export_3d (mkPath "/" ["usr"; "bin"; "kicad-cli"])
              (mkPath "" ["CAD"; "b.kicad_pcb"])
              (mkPath "/" ["r"; "3D_MODEL"]) true w_step_only).2
     !! ["/"; "r"; "3D_MODEL"; "b.glb"] = None.
Proof.
  pose (kicad := mkPath "/" ["usr"; "bin"; "kicad-cli"]).
  pose (pcb := mkPath "" ["CAD"; "b.kicad_pcb"]).
  pose (out_dir := mkPath "/" ["r"; "3D_MODEL"]).
  pose (w1 := (mkdir out_dir w_step_only).2).
  pose (o1 := exec w_step_only (step_cmd kicad pcb out_dir) (files w1)).
  pose (o2 := exec w_step_only (glb_cmd kicad pcb out_dir) o1.2).
  assert (H1 : mkdir out_dir w_step_only = (Ok tt, w1))
    by (refine (run_split (mkdir out_dir) w_step_only (Ok tt) _); vm_compute; reflexivity).
  assert (H2 : exec w_step_only (step_cmd kicad pcb out_dir) (files w1) = (o1.1, o1.2))
    by apply surjective_pairing.
  assert (H3 : (returncode o1.1 = 0 \/ returncode o1.1 = 2)%Z)
    by (right; vm_compute; reflexivity).
  assert (H4 : is_Some (o1.2 !! locate w_step_only (child out_dir (stem pcb +:+ ".step"))))
    by (vm_compute; eauto).
  assert (H5 : exec w_step_only (glb_cmd kicad pcb out_dir) o1.2 = (o2.1, o2.2))
    by apply surjective_pairing.
  assert (H6 : (returncode o2.1 = 0 \/ returncode o2.1 = 2)%Z)
    by (right; vm_compute; reflexivity).
  fold kicad pcb out_dir.
  rewrite (glb_export_unverified kicad pcb out_dir w_step_only w1 o1.1 o2.1 o1.2 o2.2
             H1 H2 H3 H4 H5 H6).
  split; vm_compute; reflexivity.
Defined.

(** ** The production folder *)




(** ** Vendor packaging *)

(** C2 (the code departs from it).  For the vendor identifier [JLC PCB]
    the vendor packaging step populates the folder [jlc pcb_production]:
    the identifier is lowercased but not sanitized; its sanitized form is
    [jlc-pcb], and no folder of that name is made. *)
Theorem kikit_folder_not_sanitized :
  (run_kikit_fab "JLC PCB" (mkPath "" ["CAD"; "b.kicad_pcb"]) (mkPath "" ["CAD"; "b.kicad_sch"])
     (mkPath "/" ["r"; "PRODUCTION"]) None true w_repo).1
  = Ok (mkPath "/" ["r"; "PRODUCTION"; "jlc pcb_production"; "gerbers.zip"])
  /\ children (files (run_kikit_fab "JLC PCB" (mkPath "" ["CAD"; "b.kicad_pcb"])
                        (mkPath "" ["CAD"; "b.kicad_sch"])
                        (mkPath "/" ["r"; "PRODUCTION"]) None true w_repo).2)
              ["/"; "r"; "PRODUCTION"]
     = ["jlc pcb_production"]
  /\ _sanitize_vendor "JLC PCB" = "jlc-pcb".
Proof. repeat split; vm_compute; reflexivity. Qed.

(** C3 (the code departs from it).  With KiCad's own interpreter next to
    the CLI and another interpreter first on PATH, the companion lookup
    finds KiCad's interpreter, but the vendor packaging step runs the
    module through the one on PATH.  With [python3] the only interpreter
    on PATH, the companion lookup finds it, but the vendor packaging step
    fails with FileNotFoundError. *)
Theorem kikit_interpreter_from_path :
  ((which_kicad_cli w_companion).1 = Ok (mkPath "/" ["opt"; "kicad"; "bin"; "kicad-cli"])
   /\ (find_kicad_python_from_kicad_cli (mkPath "/" ["opt"; "kicad"; "bin"; "kicad-cli"])
         w_companion).1
      = Ok (mkPath "/" ["opt"; "kicad"; "bin"; "python"])
   /\ commands (run_kikit_fab "jlcpcb" (mkPath "" ["CAD"; "b.kicad_pcb"])
                  (mkPath "" ["CAD"; "b.kicad_sch"])
                  (mkPath "/" ["r"; "PRODUCTION"]) None true w_companion).2
      = [Exec ["/usr/bin/python"; "-m"; "kikit.ui"; "fab"; "jlcpcb"; "--assembly";
               "--schematic"; "CAD/b.kicad_sch"; "--field"; "LCSC"; "CAD/b.kicad_pcb";
               "/r/PRODUCTION/jlcpcb_production"]])
  /\ ((which_kicad_cli w_python3).1 = Ok (mkPath "/" ["usr"; "bin"; "kicad-cli"])
      /\ (find_kicad_python_from_kicad_cli (mkPath "/" ["usr"; "bin"; "kicad-cli"])
            w_python3).1
         = Ok (mkPath "/" ["usr"; "bin"; "python3"])
      /\ (run_kikit_fab "jlcpcb" (mkPath "" ["CAD"; "b.kicad_pcb"])
            (mkPath "" ["CAD"; "b.kicad_sch"])
            (mkPath "/" ["r"; "PRODUCTION"]) None true w_python3).1
         = Raise (mkExn FileNotFoundError "Python interpreter not found on PATH.")).
Proof. repeat split; vm_compute; reflexivity. Qed.

(** C4 (the code departs from it).  The clean-up of the vendor folder is
    not best-effort: when the interpreter is found, the vendor folder is
    ensured and the removal of one of its direct children [n] is refused,
    the vendor packaging step fails with that PermissionError; the error
    is not recorded on the console, the packaging tool is not run, and [n]
    is still in the folder. *)
Theorem kikit_clean_aborts (vendor : string) (pcb_path sch_path out_dir : Path)
    (order_field : option string) (w : World) (py : Path) (n : string) :
  let vendor_root := child out_dir (lower vendor +:+ "_production") in
  (which "python" w).1 = Ok (Some py) ->
  (mkdir vendor_root w).1 = Ok tt ->
  refused w (locate w vendor_root ++ [n]) = true ->
  exists e,
    (run_kikit_fab vendor pcb_path sch_path out_dir order_field true w).1 = Raise e
    /\ exn_cls e = PermissionError
    /\ trace (run_kikit_fab vendor pcb_path sch_path out_dir order_field true w).2 = trace w
    /\ is_Some (files (run_kikit_fab vendor pcb_path sch_path out_dir order_field true w).2
                  !! (locate w vendor_root ++ [n])).
Proof.
  intros vendor_root Hpy Hmk Href.
  destruct (mkdir vendor_root w) as [r w1] eqn:E. cbn [fst] in Hmk. subst r.
  destruct (mkdir_ok _ _ _ E) as (fs1 & Hw1 & Hdir & Hkept).
  assert (Henv : same_env w w1) by (rewrite Hw1; apply same_env_set_files).
  assert (Htr : trace w1 = trace w) by now rewrite Hw1.
  assert (Hf1 : files w1 = fs1) by now rewrite Hw1.
  rewrite <- (refused_after_mkdir _ _ _ n E) in Href.
  assert (Hn : is_Some (files w1 !! (locate w vendor_root ++ [n]))).
  { unfold refused in Href. destruct (files w1 !! _); [eauto | discriminate]. }
  destruct (kikit_loop_refused vendor_root (children (files w1) (locate w vendor_root)) w1 n)
    as (e & w' & Hl & Hcls & Henv' & Htr' & Hkeep).
  { apply NoDup_children. }
  { intros m Hm. rewrite (locate_env _ _ _ Henv). now apply elem_of_children. }
  { now apply elem_of_children. }
  { now rewrite (locate_env _ _ _ Henv). }
  rewrite (locate_env _ _ _ Henv) in Hkeep.
  assert (Hrun : run_kikit_fab vendor pcb_path sch_path out_dir order_field true w
                 = (Raise e, w')).
  { unfold run_kikit_fab. fold vendor_root.
    assert (Hw : which "python" w = (Ok (Some py), w))
      by (unfold which in *; cbn [fst] in Hpy; now rewrite Hpy).
    rewrite (bind_ok _ _ _ _ _ Hw). unfold ensure_dir.
    rewrite (bind_ok _ _ _ _ _ (bind_ok _ _ _ _ _ E)). unfold ret at 1.
    apply bind_raise.
    assert (Hit : iterdir vendor_root w1
                  = (Ok (map (child vendor_root)
                           (children (files w1) (locate w vendor_root))), w1)).
    { unfold iterdir, lstat. rewrite (locate_env _ _ _ Henv), Hf1, Hdir. reflexivity. }
    rewrite (bind_ok _ _ _ _ _ Hit). exact Hl. }
  rewrite Hrun. cbn [fst snd]. exists e.
  split; [reflexivity|]. split; [exact Hcls|]. split; [congruence|].
  now rewrite Hkeep.
Qed.

Lemma kikit_clean_aborts_witness :
  exists e,
    (run_kikit_fab "jlcpcb" (mkPath "" ["CAD"; "b.kicad_pcb"]) (mkPath "" ["CAD"; "b.kicad_sch"])
       (mkPath "/" ["r"; "PRODUCTION"]) None true w_vendor).1 = Raise e
    /\ exn_cls e = PermissionError.
Proof.
  destruct (kikit_clean_aborts "jlcpcb" (mkPath "" ["CAD"; "b.kicad_pcb"])
              (mkPath "" ["CAD"; "b.kicad_sch"]) (mkPath "/" ["r"; "PRODUCTION"]) None
              w_vendor (mkPath "/" ["usr"; "bin"; "python"]) "report.txt")
    as (e & H1 & H2 & _); [vm_compute; reflexivity..|].
  exists e. split; assumption.
Defined.

(** The same folder under both clean-ups: [clear_dir] warns about the
    locked report and goes on to remove the archive; the vendor packaging
    step stops at the report and leaves the archive too. *)
Example clean_ups_differ :
  (let r := clear_dir (mkPath "/" ["r"; "PRODUCTION"; "jlcpcb_production"]) w_vendor in
   (r.1, children (files r.2) ["/"; "r"; "PRODUCTION"; "jlcpcb_production"]))
  = (Ok tt, ["report.txt"])
  /\ (let r := run_kikit_fab "jlcpcb" (mkPath "" ["CAD"; "b.kicad_pcb"])
                 (mkPath "" ["CAD"; "b.kicad_sch"]) (mkPath "/" ["r"; "PRODUCTION"])
                 None true w_vendor in
      (r.1, commands r.2, children (files r.2) ["/"; "r"; "PRODUCTION"; "jlcpcb_production"]))
     = (Raise (mkExn PermissionError "/r/PRODUCTION/jlcpcb_production/report.txt"), [],
        ["report.txt"; "gerbers.zip"]).
Proof. split; vm_compute; reflexivity. Qed.

(** * Further properties of the script *)

Import Plan PlanFacts.

(** ** The export steps and their commands *)

(** X5.  [export_pictures] renders top, bottom and side (the view from
    the left), then the perspective view if asked, in this order and with
    these command lines, each accepted with exit code 0 only.  It stops at
    the first command that fails: it raises that command's error right
    after it and executes none of the commands after it.  When all succeed
    it returns the pictures in that order, in the world the last command
    leaves. *)
Theorem export_pictures_follows_plan (kicad pcb_path out_dir : Path) (iso : bool) :
  runs (plan_pictures kicad pcb_path out_dir iso)
       (export_pictures kicad pcb_path out_dir iso)
       (fun l => l = pictures pcb_path out_dir iso)
  /\ forall w w1, mkdir out_dir w = (Ok tt, w1) ->
       completes [0%Z] (plan_pictures kicad pcb_path out_dir iso)
         (export_pictures kicad pcb_path out_dir iso) (pictures pcb_path out_dir iso) w w1
       /\ stops_at_failure [0%Z] (plan_pictures kicad pcb_path out_dir iso)
            (export_pictures kicad pcb_path out_dir iso) w w1.
Proof. split; [apply export_pictures_runs | intros w w1; apply export_pictures_strict]. Qed.

Lemma export_pictures_follows_plan_witness :
  (export_pictures (mkPath "/" ["usr"; "bin"; "kicad-cli"]) (mkPath "" ["CAD"; "b.kicad_pcb"])
     (mkPath "/" ["r"; "PICTURES"]) false w_tool_fails).1
  = Raise (mkExn RuntimeError "Command failed with code 1").
Proof.
  pose (kc := mkPath "/" ["usr"; "bin"; "kicad-cli"]).
  pose (pcb := mkPath "" ["CAD"; "b.kicad_pcb"]).
  pose (out := mkPath "/" ["r"; "PICTURES"]).
  pose (w1 := (mkdir out w_tool_fails).2).
  assert (Hmk : mkdir out w_tool_fails = (Ok tt, w1)).
  { refine (run_split (mkdir out) w_tool_fails (Ok tt) _). vm_compute. reflexivity. }
  pose (cmd := render_cmd kc pcb (child out (stem pcb +:+ "_top.png")) "top").
  assert (Hx : exec w1 cmd (files w1) = (mkProc 1 "" "", files w1)).
  { assert (He : exec w1 = exec w_tool_fails) by exact (exec_after_mkdir out w_tool_fails). rewrite He. reflexivity. }
  assert (Hcode : returncode (mkProc 1 "" "") ∉ [0%Z]).
  { intros Hin. apply list_elem_of_singleton in Hin. discriminate Hin. }
  pose proof (proj2 (proj2 (export_pictures_follows_plan kc pcb out false) w_tool_fails w1 Hmk)
                [] cmd _ w1 _ _ eq_refl eq_refl Hx Hcode) as [E _].
  fold kc pcb out. rewrite E. reflexivity.
Defined.

(** X6.  [export_docs] prints the schematic, runs the ERC, prints the
    board layers, then runs the DRC if asked, in this order and with these
    command lines, each accepted with exit code 0 only.  It stops at the
    first command that fails: it raises that command's error right after
    it and executes none of the commands after it.  When all succeed it
    returns the four paths (the DRC report only if asked); the schematic
    outputs are named after the schematic, the board outputs after the
    board. *)
Theorem export_docs_follows_plan (kicad sch_path pcb_path out_dir : Path) (include_drc : bool) :
  runs (plan_docs kicad sch_path pcb_path out_dir include_drc)
       (export_docs kicad sch_path pcb_path out_dir include_drc)
       (fun r => r = docs sch_path pcb_path out_dir include_drc)
  /\ forall w w1, mkdir out_dir w = (Ok tt, w1) ->
       completes [0%Z] (plan_docs kicad sch_path pcb_path out_dir include_drc)
         (export_docs kicad sch_path pcb_path out_dir include_drc)
         (docs sch_path pcb_path out_dir include_drc) w w1
       /\ stops_at_failure [0%Z] (plan_docs kicad sch_path pcb_path out_dir include_drc)
            (export_docs kicad sch_path pcb_path out_dir include_drc) w w1.
Proof. split; [apply export_docs_runs | intros w w1; apply export_docs_strict]. Qed.

Lemma export_docs_follows_plan_witness :
  (export_docs (mkPath "/" ["usr"; "bin"; "kicad-cli"]) (mkPath "" ["CAD"; "b.kicad_sch"])
     (mkPath "" ["CAD"; "b.kicad_pcb"]) (mkPath "/" ["r"; "DOCUMENTATION"]) true
     w_tool_fails).1
  = Raise (mkExn RuntimeError "Command failed with code 1").
Proof.
  pose (kc := mkPath "/" ["usr"; "bin"; "kicad-cli"]).
  pose (sch := mkPath "" ["CAD"; "b.kicad_sch"]).
  pose (pcb := mkPath "" ["CAD"; "b.kicad_pcb"]).
  pose (out := mkPath "/" ["r"; "DOCUMENTATION"]).
  pose (w1 := (mkdir out w_tool_fails).2).
  assert (Hmk : mkdir out w_tool_fails = (Ok tt, w1)).
  { refine (run_split (mkdir out) w_tool_fails (Ok tt) _). vm_compute. reflexivity. }
  pose (cmd := [path_str kc; "sch"; "export"; "pdf"; "-o";
                path_str (child out (stem sch +:+ "_schematic.pdf")); path_str sch]).
  assert (Hx : exec w1 cmd (files w1) = (mkProc 1 "" "", files w1)).
  { assert (He : exec w1 = exec w_tool_fails) by exact (exec_after_mkdir out w_tool_fails). rewrite He. reflexivity. }
  assert (Hcode : returncode (mkProc 1 "" "") ∉ [0%Z]).
  { intros Hin. apply list_elem_of_singleton in Hin. discriminate Hin. }
  pose proof (proj2 (proj2 (export_docs_follows_plan kc sch pcb out true) w_tool_fails w1 Hmk)
                [] cmd _ w1 _ _ eq_refl eq_refl Hx Hcode) as [E _].
  fold kc sch pcb out. rewrite E. reflexivity.
Defined.

(** X7.  [export_fab] makes the output directory and its [gerbers] and
    [drill] folders, then exports gerbers, drill files, the placement list
    and the bill of materials, in this order and with these command lines,
    each accepted with exit code 0 only, whether or not the archive is
    asked for (making the archive runs no command).  It stops at the first
    command that fails: it raises that command's error right after it and
    executes none of the commands after it.  The archive it returns when
    asked is [<board stem>_gerbers.zip] in the output directory. *)
Theorem export_fab_follows_plan (kicad sch_path pcb_path out_dir : Path) (zip_outputs : bool) :
  runs (plan_fab kicad sch_path pcb_path out_dir)
       (export_fab kicad sch_path pcb_path out_dir zip_outputs)
       (fun r => r = fab sch_path pcb_path out_dir zip_outputs)
  /\ forall w wa wb w1,
       mkdir out_dir w = (Ok tt, wa) ->
       mkdir (child out_dir "gerbers") wa = (Ok tt, wb) ->
       mkdir (child out_dir "drill") wb = (Ok tt, w1) ->
       (zip_outputs = false ->
        completes [0%Z] (plan_fab kicad sch_path pcb_path out_dir)
          (export_fab kicad sch_path pcb_path out_dir zip_outputs)
          (fab sch_path pcb_path out_dir zip_outputs) w w1)
       /\ stops_at_failure [0%Z] (plan_fab kicad sch_path pcb_path out_dir)
            (export_fab kicad sch_path pcb_path out_dir zip_outputs) w w1.
Proof.
  split; [apply export_fab_runs | intros w wa wb w1; apply export_fab_strict].
Qed.

Lemma export_fab_follows_plan_witness :
  (export_fab (mkPath "/" ["usr"; "bin"; "kicad-cli"]) (mkPath "" ["CAD"; "b.kicad_sch"])
     (mkPath "" ["CAD"; "b.kicad_pcb"]) (mkPath "/" ["r"; "PRODUCTION"; "b"]) true
     w_tool_fails).1
  = Raise (mkExn RuntimeError "Command failed with code 1").
Proof.
  pose (kc := mkPath "/" ["usr"; "bin"; "kicad-cli"]).
  pose (sch := mkPath "" ["CAD"; "b.kicad_sch"]).
  pose (pcb := mkPath "" ["CAD"; "b.kicad_pcb"]).
  pose (out := mkPath "/" ["r"; "PRODUCTION"; "b"]).
  pose (wa := (mkdir out w_tool_fails).2).
  pose (wb := (mkdir (child out "gerbers") wa).2).
  pose (w1 := (mkdir (child out "drill") wb).2).
  assert (Ha : mkdir out w_tool_fails = (Ok tt, wa)).
  { refine (run_split (mkdir out) w_tool_fails (Ok tt) _). vm_compute. reflexivity. }
  assert (Hb : mkdir (child out "gerbers") wa = (Ok tt, wb)).
  { refine (run_split (mkdir (child out "gerbers")) wa (Ok tt) _). vm_compute. reflexivity. }
  assert (H1 : mkdir (child out "drill") wb = (Ok tt, w1)).
  { refine (run_split (mkdir (child out "drill")) wb (Ok tt) _). vm_compute. reflexivity. }
  pose (cmd := [path_str kc; "pcb"; "export"; "gerbers"; "-o"; path_str (child out "gerbers");
                "--board-plot-params"; path_str pcb]).
  assert (Hx : exec w1 cmd (files w1) = (mkProc 1 "" "", files w1)).
  { assert (He : exec w1 = exec w_tool_fails).
    { exact (eq_trans (exec_after_mkdir (child out "drill") wb)
               (eq_trans (exec_after_mkdir (child out "gerbers") wa)
                  (exec_after_mkdir out w_tool_fails))). }
    rewrite He. reflexivity. }
  assert (Hcode : returncode (mkProc 1 "" "") ∉ [0%Z]).
  { intros Hin. apply list_elem_of_singleton in Hin. discriminate Hin. }
  pose proof (proj2 (proj2 (export_fab_follows_plan kc sch pcb out true)
                       w_tool_fails wa wb w1 Ha Hb H1)
                [] cmd _ w1 _ _ eq_refl eq_refl Hx Hcode) as [E _].
  fold kc sch pcb out. rewrite E. reflexivity.
Defined.

(** X4.  [export_3d] runs the STEP export and then, if asked, the GLB
    export, never the GLB export first or alone; when it returns it has
    run both (one without GLB) and returns the STEP path. *)
Theorem export_3d_follows_plan (kicad pcb_path out_dir : Path) (make_glb : bool) :
  runs (plan_3d kicad pcb_path out_dir make_glb)
       (export_3d kicad pcb_path out_dir make_glb)
       (fun p => p = child out_dir (stem pcb_path +:+ ".step")).
Proof. apply export_3d_runs. Qed.

(** X8.  Without vendor packaging, the commands a run of [main] executes
    are a prefix of the plans of the four export steps in the order 3D,
    pictures, documentation, fabrication: nothing before the first export
    step and nothing after the last runs a command, and a run that returns
    normally has executed the whole plan.  A failing step stops the run:
    when one of the four export steps raises, [main] raises the same
    error in the world that step left, so no later step, no summary
    document and no final report follows. *)
Theorem main_follows_plan (args : Args) (w : World) (s : Setup) :
  no_kikit args ->
  (main_setup args w).1 = Ok s ->
  let w0 := (main_setup args w).2 in
  let s3 := export_3d (kicad s) (pcb_path s) (three_d_dir s) (glb args) in
  let sp := export_pictures (kicad s) (pcb_path s) (pics_dir s) (iso args) in
  let sd := export_docs (kicad s) (sch_path s) (pcb_path s) (docs_dir s)
              (negb (skip_drc args)) in
  let sf := export_fab (kicad s) (sch_path s) (pcb_path s) (prod_root s) (zip args) in
  (exists k,
     commands (main args w).2 = commands w ++ map Exec (take k (plan_exports args s))
     /\ ((main args w).1 = Ok tt -> k = length (plan_exports args s)))
  /\ (forall e, (s3 w0).1 = Raise e -> main args w = (Raise e, (s3 w0).2))
  /\ (forall a1 w1 e,
        s3 w0 = (Ok a1, w1) -> (sp w1).1 = Raise e -> main args w = (Raise e, (sp w1).2))
  /\ (forall a1 w1 a2 w2 e,
        s3 w0 = (Ok a1, w1) -> sp w1 = (Ok a2, w2) -> (sd w2).1 = Raise e ->
        main args w = (Raise e, (sd w2).2))
  /\ (forall a1 w1 a2 w2 a3 w3 e,
        s3 w0 = (Ok a1, w1) -> sp w1 = (Ok a2, w2) -> sd w2 = (Ok a3, w3) ->
        (sf w3).1 = Raise e -> main args w = (Raise e, (sf w3).2)).
Proof.
  intros Hk Hs w0 s3 sp sd sf. destruct (tame_main_setup args w) as [_ Hcmd].
  assert (Hmain : main args w = main_exports args s w0).
  { unfold main. now rewrite (bind_ok _ _ _ _ _ (run_split _ _ _ Hs)). }
  rewrite Hmain. split.
  { destruct (main_exports_runs args s Hk w0) as [_ (k & Hc & Hq)].
    exists k. split; [rewrite Hc; unfold w0; now rewrite Hcmd|].
    intros H. now destruct (Hq tt H). }
  subst s3 sp sd sf. destruct s as [kc pr sch pcb rt d3 dp dd prod].
  unfold main_exports. cbn [kicad sch_path pcb_path three_d_dir pics_dir docs_dir prod_root].
  repeat split.
  - intros e H. now rewrite (bind_raise _ _ _ _ _ (run_split _ _ _ H)).
  - intros a1 w1 e H1 H. rewrite (bind_ok _ _ _ _ _ H1).
    now rewrite (bind_raise _ _ _ _ _ (run_split _ _ _ H)).
  - intros a1 w1 a2 w2 e H1 H2 H. rewrite (bind_ok _ _ _ _ _ H1), (bind_ok _ _ _ _ _ H2).
    now rewrite (bind_raise _ _ _ _ _ (run_split _ _ _ H)).
  - intros a1 w1 a2 w2 a3 w3 e H1 H2 H3 H.
    rewrite (bind_ok _ _ _ _ _ H1), (bind_ok _ _ _ _ _ H2), (bind_ok _ _ _ _ _ H3).
    now rewrite (bind_raise _ _ _ _ _ (run_split _ _ _ H)).
Qed.

Lemma main_follows_plan_witness :
  exists k,
    commands (main args_b w_repo).2
    = map Exec (take k (plan_exports args_b
          (mkSetup (mkPath "/" ["usr"; "bin"; "kicad-cli"]) "b"
             (mkPath "" ["CAD"; "b.kicad_sch"]) (mkPath "" ["CAD"; "b.kicad_pcb"])
             (mkPath "/" ["r"]) (mkPath "/" ["r"; "3D_MODEL"])
             (mkPath "/" ["r"; "PICTURES"]) (mkPath "/" ["r"; "DOCUMENTATION"])
             (mkPath "/" ["r"; "PRODUCTION"; "20250115_1342_b"])))).
Proof.
  destruct (main_follows_plan args_b w_repo
              (mkSetup (mkPath "/" ["usr"; "bin"; "kicad-cli"]) "b"
                 (mkPath "" ["CAD"; "b.kicad_sch"]) (mkPath "" ["CAD"; "b.kicad_pcb"])
                 (mkPath "/" ["r"]) (mkPath "/" ["r"; "3D_MODEL"])
                 (mkPath "/" ["r"; "PICTURES"]) (mkPath "/" ["r"; "DOCUMENTATION"])
                 (mkPath "/" ["r"; "PRODUCTION"; "20250115_1342_b"])))
    as ((k & Hk & _) & _).
  - left. reflexivity.
  - vm_compute. reflexivity.
  - exists k. exact Hk.
Defined.

(** ** The project documents *)

Import PathFacts.

(** X1.  The project descriptor [<name>.kicad_pro] and the bare stem
    [<name>] are the same project: [project_paths] gives the same result
    for both (same base name, same documents, same error), for a name that
    does not itself end in [.kicad_pro]. *)
Theorem project_paths_descriptor_or_stem (d : Path) (n : string) (w : World) :
  n <> "" ->
  lower (suffix (child d n)) <> ".kicad_pro" ->
  project_paths (child d (n +:+ ".kicad_pro")) w = project_paths (child d n) w.
Proof.
  intros Hn Hsfx.
  destruct (suffix_ext d n "kicad_pro" Hn ltac:(discriminate) eq_refl) as [Hs Hst].
  rewrite (project_paths_at_stem (child d (n +:+ ".kicad_pro")) (child d n) n d w
             eq_refl Hn).
  - rewrite (project_paths_at_stem (child d n) (child d n) n d w eq_refl Hn); [reflexivity|].
    destruct (String.eqb_spec (lower (suffix (child d n))) ".kicad_pro"); [contradiction|].
    reflexivity.
  - rewrite Hs. cbn [lower String.eqb Ascii.eqb Bool.eqb lower_char is_upper code].
    change (String.eqb (lower ".kicad_pro") ".kicad_pro") with true. cbv iota.
    rewrite with_suffix_child by (destruct n; [congruence | discriminate]).
    now rewrite Hst, TemplateFacts.app_nil_r.
Qed.

Lemma project_paths_descriptor_or_stem_witness :
  project_paths (mkPath "" ["CAD"; "b.kicad_pro"]) w_repo
  = project_paths (mkPath "" ["CAD"; "b"]) w_repo.
Proof.
  apply (project_paths_descriptor_or_stem (mkPath "" ["CAD"]) "b" w_repo).
  - discriminate.
  - vm_compute. discriminate.
Defined.

(** X2.  [project_paths] only reads: it leaves the world as it is.  The
    documents it returns exist.  When it reports a missing document
    (FileNotFoundError), the path named in the message is missing, and it is
    the schematic unless the schematic exists. *)
Theorem project_paths_checks (p : Path) (w : World) :
  (project_paths p w).2 = w
  /\ (forall nm sch pcb, (project_paths p w).1 = Ok (nm, sch, pcb) ->
        is_Some (lstat w sch) /\ is_Some (lstat w pcb))
  /\ (forall e, (project_paths p w).1 = Raise e -> exn_cls e = FileNotFoundError ->
        exists q, lstat w q = None
          /\ (exn_msg e = "Schematic not found: " +:+ path_str q
              \/ (exn_msg e = "Board not found: " +:+ path_str q
                  /\ exists sch, name sch = stem q +:+ ".kicad_sch"
                                 /\ is_Some (lstat w sch)))).
Proof.
  destruct (project_paths_stem p w) as [(e & -> & He) | (d & n & Hn & Hst)].
  - cbn [fst snd]. split; [reflexivity|]. split; [discriminate|].
    intros e' [= <-] H. congruence.
  - rewrite (project_paths_at_stem p (child d n) n d w eq_refl Hn Hst). cbv zeta.
    set (sch := child d (stem (child d n) +:+ ".kicad_sch")).
    set (pcb := child d (stem (child d n) +:+ ".kicad_pcb")).
    assert (Hstem : stem pcb = stem (child d n)).
    { assert (Hne : stem (child d n) <> "").
      { unfold stem. rewrite name_child. destruct (rsplit_dot n) as [[a b]|]; [|exact Hn].
        destruct (_ && _) eqn:C; [|exact Hn].
        apply andb_true_iff in C as [C _]. destruct a; [discriminate C | discriminate]. }
      exact (proj2 (suffix_ext d _ "kicad_pcb" Hne ltac:(discriminate) eq_refl)). }
    destruct (bool_decide (is_Some (lstat w sch))) eqn:Hs.
    + apply bool_decide_eq_true in Hs.
      destruct (bool_decide (is_Some (lstat w pcb))) eqn:Hp; cbn [fst snd].
      * apply bool_decide_eq_true in Hp. split; [reflexivity|]. split; [|discriminate].
        now intros nm s' p' [= <- <- <-].
      * apply bool_decide_eq_false in Hp. split; [reflexivity|]. split; [discriminate|].
        intros e [= <-] _. exists pcb. split.
        { destruct (lstat w pcb); [exfalso; apply Hp; eauto | reflexivity]. }
        right. split; [reflexivity|]. exists sch. split; [|exact Hs].
        unfold sch. now rewrite name_child, Hstem.
    + apply bool_decide_eq_false in Hs. cbn [fst snd]. split; [reflexivity|].
      split; [discriminate|]. intros e [= <-] _. exists sch. split.
      { destruct (lstat w sch); [exfalso; apply Hs; eauto | reflexivity]. }
      now left.
Qed.

(** X3.  For a project whose base name has no dot, the base name that
    [project_paths] returns is the stem of both documents it returns; so
    the files the export steps name after the board and the schematic are
    the files the summary document refers to under the project name. *)
Theorem project_names_agree (p : Path) (w : World) (nm : string) (sch pcb : Path) :
  (project_paths p w).1 = Ok (nm, sch, pcb) ->
  no_dot nm = true ->
  stem pcb = nm /\ stem sch = nm
  /\ forall out_dir header,
       readme_subs nm header !! "PICTURE_FRONT"
       = Some (name (child out_dir (stem pcb +:+ "_top.png")))
       /\ readme_subs nm header !! "PCBLAYOUT_PDF"
          = Some (name (child out_dir (stem pcb +:+ "_board_prints.pdf")))
       /\ readme_subs nm header !! "SCHEMATIC_PDF"
          = Some (name (child out_dir (stem sch +:+ "_schematic.pdf"))).
Proof.
  intros Hok Hdot.
  destruct (project_paths_stem p w) as [(e & He & _) | (d & n & Hn & Hst)].
  { rewrite He in Hok. discriminate Hok. }
  rewrite (project_paths_at_stem p (child d n) n d w eq_refl Hn Hst) in Hok. cbv zeta in Hok.
  destruct (bool_decide _); [|discriminate Hok].
  destruct (bool_decide _); [|discriminate Hok].
  cbn [fst] in Hok. injection Hok as <- <- <-.
  rewrite (proj1 (stem_no_dot d n Hdot)).
  assert (Hp : stem (child d (n +:+ ".kicad_pcb")) = n)
    by exact (proj2 (suffix_ext d n "kicad_pcb" Hn ltac:(discriminate) eq_refl)).
  assert (Hs : stem (child d (n +:+ ".kicad_sch")) = n)
    by exact (proj2 (suffix_ext d n "kicad_sch" Hn ltac:(discriminate) eq_refl)).
  rewrite Hp, Hs. split; [reflexivity|]. split; [reflexivity|].
  intros out_dir header. rewrite !name_child. unfold readme_subs.
  repeat split; repeat (rewrite lookup_insert_ne by discriminate); apply lookup_insert_eq.
Qed.

Lemma project_names_agree_witness :
  stem (mkPath "" ["CAD"; "b.kicad_pcb"]) = "b" /\ stem (mkPath "" ["CAD"; "b.kicad_sch"]) = "b".
Proof.
  destruct (project_names_agree (mkPath "" ["CAD"; "b.kicad_pro"]) w_repo "b"
              (mkPath "" ["CAD"; "b.kicad_sch"]) (mkPath "" ["CAD"; "b.kicad_pcb"]))
    as (H1 & H2 & _).
  - vm_compute. reflexivity.
  - reflexivity.
  - split; assumption.
Defined.

(** ** The clean-up of a directory *)

Import LoopFacts.





(** ** Vendor packaging *)

(** X11.  For a vendor identifier that is one path component, with the
    interpreter found on PATH (no symbolic link of that name there), the
    vendor folder ensured and no removal refused, [run_kikit_fab] runs
    KiKit once, on an emptied vendor folder, with the vendor identifier as
    given (the folder name has it lowercased) and the ordering field
    [kikit_field].  On exit code 0 it returns [<vendor folder>/gerbers.zip]
    without looking whether the tool wrote it; on any other exit code it
    fails. *)
Theorem kikit_packaging_runs (vendor : string) (pcb_path sch_path out_dir : Path)
    (order_field : option string) (w : World) (py : Path) :
  let vendor_root := child out_dir (lower vendor +:+ "_production") in
  let cmd := kikit_cmd py vendor pcb_path sch_path vendor_root
               (kikit_field vendor order_field) in
  plain_component vendor = true ->
  no_link_named w "python" = true ->
  (which "python" w).1 = Ok (Some py) ->
  (mkdir vendor_root w).1 = Ok tt ->
  (forall n, refused w (locate w vendor_root ++ [n]) = false) ->
  exists fs2,
    children fs2 (locate w vendor_root) = []
    /\ fs2 !! locate w vendor_root = Some Dir
    /\ forall res fs3, exec w cmd fs2 = (res, fs3) ->
         (returncode res = 0%Z ->
            run_kikit_fab vendor pcb_path sch_path out_dir order_field true w
            = (Ok (child vendor_root "gerbers.zip"), after_run cmd fs3 (set_files fs2 w)))
         /\ (returncode res <> 0%Z ->
             (run_kikit_fab vendor pcb_path sch_path out_dir order_field true w).1
             = Raise (mkExn RuntimeError
                        ("Command failed with code " +:+ pretty (returncode res)))).
Proof.
  intros vendor_root cmd _ _ Hpy Hmk Href.
  destruct (mkdir vendor_root w) as [r w1] eqn:E. cbn [fst] in Hmk. subst r.
  destruct (mkdir_ok _ _ _ E) as (fs1 & Hw1 & Hdir & Hkept).
  assert (Henv : same_env w w1) by (rewrite Hw1; apply same_env_set_files).
  destruct (kikit_loop_ok vendor_root (locate w vendor_root)
              (children (files w1) (locate w vendor_root)) w1)
    as (fs2 & Hl & Hout & Hgone).
  { apply (locate_env _ _ _ Henv). }
  { apply NoDup_children. }
  { intros m Hm. now apply elem_of_children. }
  { intros m _. rewrite (refused_after_mkdir _ _ _ m E). apply Href. }
  assert (Hempty : forall n, fs2 !! (locate w vendor_root ++ [n]) = None).
  { intros n. destruct (decide (n ∈ children (files w1) (locate w vendor_root))) as [Hin|Hnin].
    - now apply Hgone.
    - rewrite Hout.
      + destruct (files w1 !! _) eqn:Ex; [|reflexivity].
        exfalso. apply Hnin. apply elem_of_children. eauto.
      + intros m Hm Hp. apply KikitFacts.snoc_prefix_inj in Hp. congruence. }
  exists fs2. split; [now apply children_nil|]. split.
  { rewrite Hout; [now rewrite Hw1 | intros m _; apply prefix_snoc_not]. }
  intros res fs3 Hx.
  assert (Hrun : run_kikit_fab vendor pcb_path sch_path out_dir order_field true w
                 = (x <- run cmd [0%Z] ;; ret (child vendor_root "gerbers.zip"))
                     (set_files fs2 w)).
  { unfold run_kikit_fab. fold vendor_root.
    assert (Hw : which "python" w = (Ok (Some py), w))
      by (unfold which in *; cbn [fst] in Hpy; now rewrite Hpy).
    rewrite (bind_ok _ _ _ _ _ Hw). unfold ensure_dir.
    rewrite (bind_ok _ _ _ _ _ (bind_ok _ _ _ _ _ E)). unfold ret at 1.
    assert (Hit : iterdir vendor_root w1
                  = (Ok (map (child vendor_root)
                           (children (files w1) (locate w vendor_root))), w1)).
    { unfold iterdir, lstat. rewrite (locate_env _ _ _ Henv).
      replace (files w1 !! locate w vendor_root) with (Some Dir) by now rewrite Hw1.
      reflexivity. }
    assert (Hclean : (entries <- iterdir vendor_root ;;
                      for_each entries (fun e => remove_entry e true)) w1
                     = (Ok tt, set_files fs2 w)).
    { rewrite (bind_ok _ _ _ _ _ Hit), Hl, Hw1. reflexivity. }
    rewrite (bind_ok _ _ _ _ _ Hclean).
    unfold cmd, kikit_cmd, kikit_field.
    destruct (String.eqb _ ""); cbn [app]; reflexivity. }
  rewrite Hrun. split.
  - intros Hc.
    rewrite (bind_ok _ _ _ _ _ (ExportFacts.run_ok cmd [0%Z] (set_files fs2 w) res fs3 Hx
                                  ltac:(rewrite Hc; left))).
    reflexivity.
  - intros Hc.
    rewrite (bind_raise _ _ _ _ _ (ExportFacts.run_fail cmd [0%Z] (set_files fs2 w) res fs3 Hx
                                     ltac:(intros Hin; apply list_elem_of_singleton in Hin; exact (Hc Hin)))).
    reflexivity.
Qed.

Lemma kikit_packaging_runs_witness :
  (run_kikit_fab "JLCPCB" (mkPath "" ["CAD"; "b.kicad_pcb"]) (mkPath "" ["CAD"; "b.kicad_sch"])
     (mkPath "/" ["r"; "PRODUCTION"]) None true w_repo).1
  = Ok (mkPath "/" ["r"; "PRODUCTION"; "jlcpcb_production"; "gerbers.zip"]).
Proof.
  destruct (kikit_packaging_runs "JLCPCB" (mkPath "" ["CAD"; "b.kicad_pcb"])
              (mkPath "" ["CAD"; "b.kicad_sch"]) (mkPath "/" ["r"; "PRODUCTION"]) None
              w_repo (mkPath "/" ["usr"; "bin"; "python"]))
    as (fs2 & _ & _ & H).
  - reflexivity.
  - reflexivity.
  - vm_compute. reflexivity.
  - vm_compute. reflexivity.
  - intros n. apply refused_unlocked. reflexivity.
  - destruct (H (mkProc 0 "" "") fs2 eq_refl) as [H0 _]. now rewrite (H0 eq_refl).
Defined.

(** ** Helpers of the script *)

Import KeepFacts.

(** X12.  The summary-document step writes nothing but [README.md]:
    whatever the outcome, every other entry of the file system is as
    before (the template, when there is one, is only read). *)
Theorem render_readme_only_readme (root : Path) (project_name : string) (w : World)
    (k' : list string) :
  k' <> locate w (child root "README.md") ->
  files (render_readme_if_missing root project_name w).2 !! k' = files w !! k'.
Proof.
  intros Hk'.
  assert (H : confined w (locate w (child root "README.md"))
                (render_readme_if_missing root project_name)).
  { unfold render_readme_if_missing.
    repeat first
      [ apply confined_read_text_flexible
      | apply confined_print
      | apply confined_write_bytes
      | apply confined_read; reflexivity
      | match goal with |- confined _ _ (if ?b then _ else _) => destruct b end
      | apply confined_bind; [|intro] ]. }
  exact (proj2 (H w (same_env_refl w)) k' Hk').
Qed.

Lemma render_readme_only_readme_witness :
  files (render_readme_if_missing (mkPath "" []) "b" w_iso).2
    !! ["/"; "r"; "PICTURES"; "b_iso.png"]
  = Some (File "png").
Proof.
  rewrite (render_readme_only_readme (mkPath "" []) "b" w_iso
             ["/"; "r"; "PICTURES"; "b_iso.png"]).
  - vm_compute. reflexivity.
  - vm_compute. discriminate.
Defined.

(** X13.  [read_text_flexible] on a regular file never fails and changes
    no file: the text is the decoding under the first encoding, in the
    order utf-8, utf-8-sig, utf-16, utf-16-le, utf-16-be, cp1252, that
    decodes the bytes, and one line names the file and that encoding; if
    none decodes, it is the utf-8 decoding with replacement characters. *)
Theorem read_text_flexible_order (p : Path) (w : World) (data : string) :
  lstat w p = Some (File data) ->
  (forall pre enc post s,
     encodings = pre ++ enc :: post ->
     Forall (fun e => decode w e data = None) pre ->
     decode w enc data = Some s ->
     read_text_flexible p w
     = (Ok s, add_event (Print ("Loaded " +:+ name p +:+ " using " +:+ enc)) w))
  /\ (Forall (fun e => decode w e data = None) encodings ->
      read_text_flexible p w
      = (Ok (decode_replace w data),
         add_event (Print ("Loaded " +:+ name p +:+ " using utf-8 with replacement chars")) w)).
Proof.
  intros Hp.
  assert (Hr : read_text_flexible p w = decode_first (name p) data encodings w).
  { unfold read_text_flexible, bind, read_bytes. now rewrite Hp. }
  rewrite Hr. split.
  - intros pre enc post s -> Hpre Henc. rewrite (decode_first_skip _ _ _ _ _ Hpre).
    cbn [decode_first]. unfold bind at 1. unfold bytes_decode. rewrite Henc. reflexivity.
  - intros Hall. rewrite <- (List.app_nil_r encodings).
    rewrite (decode_first_skip _ _ _ _ _ Hall). reflexivity.
Qed.

Lemma read_text_flexible_order_witness :
  read_text_flexible (mkPath "" ["README.md"]) w_readme
  = (Ok "my notes", add_event (Print "Loaded README.md using utf-8") w_readme).
Proof.
  refine (proj1 (read_text_flexible_order (mkPath "" ["README.md"]) w_readme "my notes" _)
            [] "utf-8" _ "my notes" eq_refl _ _).
  - vm_compute. reflexivity.
  - constructor.
  - reflexivity.
Defined.

(** X14.  [ensure_dir] returns the path it was given, leaves a directory
    there, keeps every existing entry, and is idempotent: a second call
    succeeds and changes nothing. *)
Theorem ensure_dir_idempotent (p q : Path) (w : World) :
  (ensure_dir p w).1 = Ok q ->
  q = p
  /\ lstat (ensure_dir p w).2 p = Some Dir
  /\ kept (files w) (files (ensure_dir p w).2)
  /\ ensure_dir p (ensure_dir p w).2 = (Ok p, (ensure_dir p w).2).
Proof.
  intros Hok. destruct (ensure_dir_ok p w q Hok) as [-> Hdir].
  split; [reflexivity|]. split; [exact Hdir|]. split; [apply keeps_ensure_dir|].
  revert Hdir. generalize (ensure_dir p w).2. intros w1 Hdir.
  unfold ensure_dir, bind, mkdir, ret. unfold lstat in Hdir.
  assert (Hmk : mkdir_rev (rev (locate w1 p)) (files w1) = inr (files w1)).
  { destruct (rev (locate w1 p)) as [|n rk] eqn:E.
    - cbn. apply (f_equal (@rev string)) in E. rewrite rev_involutive in E. cbn in E.
      unfold os_mkdir. rewrite <- E, Hdir. cbn.
      now rewrite decide_True.
    - assert (Hk : rev (n :: rk) = locate w1 p) by (rewrite <- E; apply rev_involutive).
      cbn [mkdir_rev]. unfold os_mkdir at 1. rewrite Hk, Hdir.
      now rewrite decide_True. }
  rewrite Hmk. destruct w1. reflexivity.
Qed.

Lemma ensure_dir_idempotent_witness :
  lstat (ensure_dir (mkPath "" ["PRODUCTION"; "b"]) w_repo).2 (mkPath "" ["PRODUCTION"; "b"])
  = Some Dir.
Proof.
  refine (proj1 (proj2 (ensure_dir_idempotent (mkPath "" ["PRODUCTION"; "b"])
                          (mkPath "" ["PRODUCTION"; "b"]) w_repo _))).
  vm_compute. reflexivity.
Defined.

(** X15.  The vendor sanitizer yields only the characters [a-z0-9_.-], and
    sanitizing a sanitized identifier changes nothing. *)
Theorem sanitize_vendor_safe (v : string) :
  Text.forallb safe_char (_sanitize_vendor v) = true
  /\ _sanitize_vendor (_sanitize_vendor v) = _sanitize_vendor v.
Proof.
  assert (Hc : Text.forallb _sanitize_vendor_char (_sanitize_vendor v) = true)
    by apply sub_runs_class.
  assert (Hu : Text.forallb (fun c => negb (is_upper c)) (_sanitize_vendor v) = true)
    by (apply sub_runs_no_upper, lower_no_upper).
  split.
  - rewrite (forallb_ext _ _ _ safe_char_iff). now apply forallb_and.
  - rewrite (KikitFacts._sanitize_vendor_clean _ Hc). now apply lower_fix.
Qed.

(** X16.  A user template without the delimiter [$] is copied: when
    [README.md] is missing, its directory exists and [README.template.md]
    is a file whose bytes decode as UTF-8 to a text without [$], the step
    succeeds and [README.md] holds that text verbatim, whatever the project
    name and the pictures. *)
Theorem readme_from_plain_template (root : Path) (project_name : string) (w : World)
    (data tpl : string) :
  lstat w (child root "README.md") = None ->
  files w !! parent_key (locate w (child root "README.md")) = Some Dir ->
  lstat w (child root "README.template.md") = Some (File data) ->
  decode w "utf-8" data = Some tpl ->
  Text.forallb (fun c => negb (Ascii.eqb c Template.dollar)) tpl = true ->
  (render_readme_if_missing root project_name w).1 = Ok (child root "README.md")
  /\ files (render_readme_if_missing root project_name w).2
     = <[locate w (child root "README.md") := File tpl]> (files w).
Proof.
  intros Hmiss Hpar Htpl Hdec Hplain.
  assert (Hl : forall w' e p, lstat (add_event e w') p = lstat w' p) by reflexivity.
  set (w1 := add_event (Print "Generating README.md") w).
  set (w2 := add_event (Print ("Loaded " +:+ name (child root "README.template.md")
                               +:+ " using " +:+ "utf-8")) w1).
  assert (Hread : read_text_flexible (child root "README.template.md") w1 = (Ok tpl, w2)).
  { unfold read_text_flexible, bind, read_bytes. unfold w1 at 1. rewrite Hl, Htpl.
    cbn [decode_first]. unfold bind, bytes_decode.
    change (decode w1) with (decode w). now rewrite Hdec. }
  assert (Hwrite : forall text,
            write_bytes (child root "README.md") text w2
            = (Ok tt, set_files (<[locate w (child root "README.md") := File text]> (files w))
                        w2)).
  { intros text. unfold write_bytes. unfold w2 at 1, w1 at 1. rewrite !Hl, Hmiss.
    change (locate w2 (child root "README.md")) with (locate w (child root "README.md")).
    change (files w2) with (files w). now rewrite Hpar. }
  unfold render_readme_if_missing.
  erewrite bind_ok by reflexivity.
  rewrite bool_decide_eq_false_2 by (rewrite Hmiss; apply is_Some_None).
  erewrite bind_ok by reflexivity. fold w1.
  erewrite bind_ok by reflexivity.
  rewrite bool_decide_eq_true_2 by (unfold w1; rewrite Hl, Htpl; eauto).
  rewrite (bind_ok _ _ _ _ _ Hread).
  erewrite bind_ok by reflexivity.
  rewrite (bind_ok _ _ _ _ _ (Hwrite _)).
  erewrite bind_ok by reflexivity.
  unfold ret. cbn [fst snd files add_event set_files].
  rewrite (safe_substitute_no_delim _ _ Hplain). split; reflexivity.
Qed.

Lemma readme_from_plain_template_witness :
  files (render_readme_if_missing (mkPath "" []) "b" w_plain_template).2
    !! ["/"; "r"; "README.md"]
  = Some (File "Notes of the board.").
Proof.
  rewrite (proj2 (readme_from_plain_template (mkPath "" []) "b" w_plain_template
                    "Notes of the board." "Notes of the board."
                    ltac:(vm_compute; reflexivity) ltac:(vm_compute; reflexivity)
                    ltac:(vm_compute; reflexivity) eq_refl eq_refl)).
  vm_compute. reflexivity.
Defined.

(** ** The program *)

(** X17.  Without the KiCad command-line tool (no file and no symbolic
    link of that name in a directory of PATH, nothing at the default
    location) the script stops before it touches anything: exit status 1,
    the error message on the error stream, no directory made, no command
    run. *)
Theorem script_needs_tool (args : Args) (w : World) :
  (which "kicad-cli" w).1 = Ok None ->
  no_link_named w "kicad-cli" = true ->
  lstat w win_default = None ->
  script args w
  = (1%Z, add_event (PrintErr ("
ERROR: " +:+ "kicad-cli not found on PATH and not at default KiCad 9 location.
Add KiCad to PATH or set KICAD_CLI env var / adjust this script.")) w).
Proof.
  intros Hw _ Hd. unfold script, main, main_setup, which_kicad_cli.
  assert (Hw' : which "kicad-cli" w = (Ok None, w))
    by (unfold which in *; cbn [fst] in Hw; now rewrite Hw).
  unfold bind at 1 2 3. rewrite Hw'. unfold bind at 1, exists_.
  rewrite Hd, bool_decide_eq_false_2 by apply is_Some_None. reflexivity.
Qed.

Lemma script_needs_tool_witness : (script args_b w_readme).1 = 1%Z.
Proof.
  rewrite (script_needs_tool args_b w_readme); [reflexivity | | |]; vm_compute; reflexivity.
Defined.

(** X18.  In time-stamped mode everything the script does before the first
    export only adds directories: it runs no command and keeps every
    existing entry unchanged; and when it succeeds, the four output
    directories it hands to the export steps exist. *)
Theorem timestamped_setup_only_adds (args : Args) (w : World) :
  no_timestamp args = false ->
  commands (main_setup args w).2 = commands w
  /\ kept (files w) (files (main_setup args w).2)
  /\ forall s, (main_setup args w).1 = Ok s ->
       Forall (fun d => lstat (main_setup args w).2 d = Some Dir)
              [three_d_dir s; pics_dir s; docs_dir s; prod_root s].
Proof.
  intros Hts. split; [apply tame_main_setup|]. split; [now apply keeps_main_setup|].
  intros s. unfold main_setup, bind, resolve_, print, ret.
  destruct (which_kicad_cli w) as [[kicad|e] w0]; [|discriminate].
  destruct (project_paths (project args) w0) as [[[[proj sch] pcb]|e] w1]; [|discriminate].
  set (root := resolve w1 (BuildOutputs.root args)).
  destruct (ensure_dir (child root "3D_MODEL") w1) as [[d3|e] w2] eqn:E3; [|discriminate].
  destruct (ensure_dir (child root "PICTURES") w2) as [[dp|e] w3] eqn:Ep; [|discriminate].
  destruct (ensure_dir (child root "DOCUMENTATION") w3) as [[dd|e] w4] eqn:Ed; [|discriminate].
  destruct (production_root args root proj w4) as [[pr|e] w5] eqn:Er; [|discriminate].
  cbn [fst snd]. intros [= <-]. cbn [three_d_dir pics_dir docs_dir prod_root].
  pose proof (ensure_dir_ok (child root "3D_MODEL") w1 d3) as H3.
  pose proof (ensure_dir_ok (child root "PICTURES") w2 dp) as Hp.
  pose proof (ensure_dir_ok (child root "DOCUMENTATION") w3 dd) as Hd.
  rewrite E3 in H3. rewrite Ep in Hp. rewrite Ed in Hd.
  destruct (H3 eq_refl) as [-> H3']. destruct (Hp eq_refl) as [-> Hp'].
  destruct (Hd eq_refl) as [-> Hd']. cbn [snd] in H3', Hp', Hd'. clear H3 Hp Hd.
  assert (Hstay : forall {A} (c : M A) wa (r : result A) wb,
            tame c -> keeps c -> c wa = (r, wb) ->
            forall d, lstat wa d = Some Dir -> lstat wb d = Some Dir).
  { intros A c wa r wb Ht Hk E d H. pose proof (dir_stays c wa d Ht Hk H) as H'.
    now rewrite E in H'. }
  pose proof (Hstay _ _ _ _ _ (tame_production_root _ _ _)
                (keeps_production_root _ _ _ Hts) Er) as Hlast.
  pose proof (Hstay _ _ _ _ _ (tame_ensure_dir _) (keeps_ensure_dir _) Ed) as Hdoc.
  pose proof (Hstay _ _ _ _ _ (tame_ensure_dir _) (keeps_ensure_dir _) Ep) as Hpic.
  assert (Hdr : lstat w5 pr = Some Dir).
  { revert Er. unfold production_root. rewrite Hts.
    unfold timestamp_tag, bind, datetime_now, ret.
    cbn [fst snd]. intros Er.
    match type of Er with ensure_dir ?d _ = _ => pose proof (ensure_dir_ok d w4 pr) as H end.
    rewrite Er in H. now destruct (H eq_refl) as [-> H']. }
  change (lstat (add_event _ (add_event _ (add_event _ (add_event _ w5)))))
    with (lstat w5).
  repeat constructor; auto.
Qed.

Lemma timestamped_setup_only_adds_witness :
  commands (main_setup args_b w_repo).2 = commands w_repo.
Proof. exact (proj1 (timestamped_setup_only_adds args_b w_repo eq_refl)). Defined.

(** X19.  The STEP export fails on every exit code other than 0 and 2:
    the command's output is forwarded, standard output to the console and
    standard error to the error stream, the error names the exit code, and
    nothing else is run (no GLB export). *)
Theorem export_3d_exit_codes (kicad pcb_path out_dir : Path) (make_glb : bool) (w : World)
    (res : proc) (fs2 : gmap (list string) node) :
  (mkdir out_dir w).1 = Ok tt ->
  exec w (step_cmd kicad pcb_path out_dir) (files (mkdir out_dir w).2) = (res, fs2) ->
  returncode res <> 0%Z -> returncode res <> 2%Z ->
  export_3d kicad pcb_path out_dir make_glb w
  = (Raise (mkExn RuntimeError ("Command failed with code " +:+ pretty (returncode res))),
     add_event (PrintErr (stderr res))
       (add_event (Print (stdout res))
          (after_run (step_cmd kicad pcb_path out_dir) fs2 (mkdir out_dir w).2))).
Proof.
  intros Hmk Hx H0 H2. destruct (mkdir out_dir w) as [r w1] eqn:E.
  cbn [fst snd] in *. subst r.
  destruct (mkdir_ok _ _ _ E) as (fs1 & Hw1 & _).
  assert (Henv : same_env w w1) by (rewrite Hw1; apply same_env_set_files).
  unfold export_3d, ensure_dir.
  rewrite (bind_ok _ _ _ _ _ (bind_ok _ _ _ _ _ E)). unfold ret at 1.
  fold (step_cmd kicad pcb_path out_dir).
  assert (Hx1 : exec w1 (step_cmd kicad pcb_path out_dir) (files w1) = (res, fs2)).
  { destruct Henv as (_ & _ & _ & _ & -> & _). exact Hx. }
  assert (Hnot : returncode res ∉ [0; 2]%Z) by (rewrite <- ExportFacts.tolerated; tauto).
  rewrite (bind_raise _ _ _ _ _ (ExportFacts.run_fail _ [0; 2]%Z _ _ _ Hx1 Hnot)).
  reflexivity.
Qed.

Lemma export_3d_exit_codes_witness :
  (export_3d (mkPath "/" ["usr"; "bin"; "kicad-cli"]) (mkPath "" ["CAD"; "b.kicad_pcb"])
     (mkPath "/" ["r"; "3D_MODEL"]) true w_tool_fails).1
  = Raise (mkExn RuntimeError "Command failed with code 1").
Proof.
  rewrite (export_3d_exit_codes (mkPath "/" ["usr"; "bin"; "kicad-cli"])
             (mkPath "" ["CAD"; "b.kicad_pcb"]) (mkPath "/" ["r"; "3D_MODEL"]) true
             w_tool_fails (mkProc 1 "" "") (files (mkdir (mkPath "/" ["r"; "3D_MODEL"]) w_tool_fails).2)).
  - reflexivity.
  - vm_compute. reflexivity.
  - reflexivity.
  - discriminate.
  - discriminate.
Defined.

(** X20.  The interpreter lookup next to the KiCad tool prefers, in this
    order: [python.exe] beside the tool, [python] beside the tool, [python]
    on PATH, [python3] on PATH; it fails only when all four are missing. *)
Theorem interpreter_lookup_order (kcli : Path) (w : World) :
  names kcli <> [] ->
  let sib n := mkPath (anchor kcli) (removelast (names kcli) ++ [n]) in
  (find_kicad_python_from_kicad_cli kcli w).1 =
    if bool_decide (is_Some (lstat w (sib "python.exe"))) then Ok (sib "python.exe")
    else if bool_decide (is_Some (lstat w (sib "python"))) then Ok (sib "python")
    else match (which "python" w).1, (which "python3" w).1 with
         | Ok (Some py), _ => Ok py
         | _, Ok (Some py) => Ok py
         | _, _ => Raise (mkExn FileNotFoundError
                            "Could not locate a Python interpreter to run KiKit.")
         end.
Proof. exact (KikitFacts.find_kicad_python_spec kcli w). Qed.

Lemma interpreter_lookup_order_witness :
  (find_kicad_python_from_kicad_cli (mkPath "/" ["opt"; "kicad"; "bin"; "kicad-cli"])
     w_companion).1
  = Ok (mkPath "/" ["opt"; "kicad"; "bin"; "python"]).
Proof.
  rewrite (interpreter_lookup_order (mkPath "/" ["opt"; "kicad"; "bin"; "kicad-cli"])
             w_companion); [|discriminate].
  vm_compute. reflexivity.
Defined.

(** X21.  [zip_dir] to an archive path outside the source directory, in an
    existing directory and not itself a directory or link: it succeeds,
    the archive is made of the entries below the source directory as they
    were at the call, each named relative to it, and the archive file is
    the only entry written. *)
Theorem zip_dir_archive (src_dir zip_path : Path) (w : World) :
  files w !! parent_key (locate w zip_path) = Some Dir ->
  (lstat w zip_path = None \/ exists old, lstat w zip_path = Some (File old)) ->
  ~ locate w src_dir `prefix_of` locate w zip_path ->
  exists listing members,
    (rglob src_dir w).1 = Ok listing
    /\ members ≡ₚ listing
    /\ zip_dir src_dir zip_path w
       = (Ok tt, set_files (<[locate w zip_path := File (zip_bytes w members)]> (files w)) w).
Proof.
  intros Hpar Hzip Hout.
  set (kz := locate w zip_path) in *.
  assert (Hne : parent_key kz <> kz).
  { intros Heq. rewrite Heq in Hpar. unfold lstat in Hzip. fold kz in Hzip.
    destruct Hzip as [H|[old H]]; congruence. }
  assert (Hw1 : write_bytes zip_path "" w
                = (Ok tt, set_files (<[kz := File ""]> (files w)) w)).
  { unfold write_bytes. fold kz. rewrite Hpar. now destruct Hzip as [->|[old ->]]. }
  set (w1 := set_files (<[kz := File ""]> (files w)) w) in *.
  assert (Hw2 : forall a, write_bytes zip_path a w1
                          = (Ok tt, set_files (<[kz := File a]> (files w)) w)).
  { intros a. unfold write_bytes, lstat. change (locate w1 zip_path) with kz.
    change (files w1) with (<[kz := File ""]> (files w)).
    rewrite lookup_insert_eq, (lookup_insert_ne _ _ _ _ (not_eq_sym Hne)), Hpar.
    unfold w1, set_files. cbn. now rewrite insert_insert_eq. }
  eexists _, _. split; [reflexivity|].
  split; [|unfold zip_dir; rewrite (bind_ok _ _ _ _ _ Hw1);
           unfold bind, rglob, zip_archive; cbn [fst snd]; apply Hw2].
  change (files w1) with (<[kz := File ""]> (files w)).
  change (locate w1 src_dir) with (locate w src_dir).
  apply omap_insert_skip.
  intros x. cbn [fst snd]. apply decide_False. intros [Hp _]. exact (Hout Hp).
Qed.

Lemma zip_dir_archive_witness :
  (zip_dir (mkPath "" ["CAD"]) (mkPath "" ["out.zip"]) w_repo).1 = Ok tt.
Proof.
  destruct (zip_dir_archive (mkPath "" ["CAD"]) (mkPath "" ["out.zip"]) w_repo)
    as (listing & members & _ & _ & H).
  - vm_compute. reflexivity.
  - left. vm_compute. reflexivity.
  - intros [l Hl]. vm_compute in Hl. discriminate Hl.
  - now rewrite H.
Defined.
